(** * Hospital data curation: cleaning and validation engine

    A shallow embedding of [src/config.py], [src/utils.py],
    [src/data_cleaner.py], [src/validators.py] and [src/data_loader.py].

    Modelling conventions.
    - A pandas cell is a [value]: the missing marker [NaN] (also standing for
      NaT in a datetime column), Python's [None] (the other missing marker
      of an object column), text, an integer, a timestamp (nanoseconds since
      the epoch, without a time zone, as pandas stores them) or a boolean.
    - A [DataFrame] is its ordered column names and its ordered rows, a row
      being a finite map from column name to cell.  A pandas Series taken out
      of a frame is the list of that column's cells; boolean masks are lists
      of booleans; [df[mask]] is [select].
    - Text is ASCII: the Python string methods ([strip], [upper], [title]) are
      modelled on the 7-bit range and leave other bytes alone.  Python's
      [title] is not idempotent beyond that range; the statements that rest
      on it are about 7-bit text ([ascii_cell], [text_column]).
    - The floats of the outlier detector are those of an [arithmetic]:
      [Float.binary64], IEEE 754 double precision with rounding to nearest,
      is the arithmetic of the code; [Float.exact], the rationals, is its
      reading in real numbers.  The one other float computation, the
      division of a whole number of days by 365.25 in [calculate_age], is
      made on rationals: the quotient is a whole number or at least 1/1461
      away from one, so that rounding it to a double does not change its
      whole part.
    - Columns hold what a column of their kind holds: a column read as dates
      holds text, epoch numbers, timestamps or missing values, and a column
      handled through the [.str] accessor is an object column.  The errors
      pandas raises otherwise are outside the model, which reads such cells
      as missing or such comparisons as false: [AttributeError] for [.str]
      on a column with no text, [TypeError] for a boolean in a date column,
      for the comparison of text with a number or of a date that has a time
      zone with one that has none, [OverflowError] for two dates more than
      some 292 years apart.  The statements that would depend on it keep to
      the inputs on which pandas raises none of them, by the hypotheses
      [text_column], [number_or_missing], [naive_date] and [date_in_reach].
    - Exceptions are the [Raise] results of [result]; the mutable
      [cleaning_report] and [validation_results] attributes are threaded as
      explicit state.
    - What pandas computes from text (date parsing) and what Python prints for
      a float are parameters of the functions that use them.
    - Column names and the patterns of [convert_to_snake_case] are read on
      7-bit text: [\w] is a letter, a digit or an underscore, [\s] is what
      [str.isspace] accepts there.
    - A numeric Series handed to a function on its own is a list of
      numbers, [None] standing for NaN: the floats of an arithmetic for
      [detect_outliers_iqr], rationals for [create_age_groups], which only
      compares them with whole numbers.  The numbers a frame holds are
      whole.
    - A row holds one cell per column name: frames in which a column label
      occurs twice are outside the model.
    - Reading a file is a parameter of the loader: [read_csv] gives the
      frame pandas reads, or [None] when it raises.  Logging and the
      writing of files are left out.
 *)

From Stdlib Require Import ZArith QArith Qround String Ascii List Lia Bool.
From Stdlib Require Import DecimalString Sorted Permutation Lqa.
From Stdlib Require Floats.
From stdpp Require Import gmap strings list.

Local Open Scope string_scope.
Local Open Scope Z_scope.

(** ** Exceptions *)

Inductive exn : Type :=
| ValueError          (* IntCastingNaNError is a ValueError *)
| ZeroDivisionError.

Inductive result (A : Type) : Type :=
| Ok (a : A)
| Raise (e : exn).
Arguments Ok {A} a.
Arguments Raise {A} e.

#[global] Instance result_ret : MRet result := fun A a => Ok a.

#[global] Instance result_bind : MBind result := fun A B k m =>
  match m with
  | Ok a => k a
  | Raise e => Raise e
  end.

(** ** Python text methods (ASCII) *)

Module Py.

Definition code (c : ascii) : N := N_of_ascii c.

Definition in_range (lo hi : N) (c : ascii) : bool :=
  ((lo <=? code c) && (code c <=? hi))%N.

Definition isupper (c : ascii) : bool := in_range 65 90 c.
Definition islower (c : ascii) : bool := in_range 97 122 c.
Definition isdigit (c : ascii) : bool := in_range 48 57 c.

(** [str.isspace] on the 7-bit range: tab, LF, VT, FF, CR, the four
    separators 0x1c-0x1f and the blank. *)
Definition isspace (c : ascii) : bool :=
  in_range 9 13 c || in_range 28 31 c || (code c =? 32)%N.

Definition iscased (c : ascii) : bool := isupper c || islower c.

Definition upper_char (c : ascii) : ascii :=
  if islower c then ascii_of_N (code c - 32) else c.

Definition lower_char (c : ascii) : ascii :=
  if isupper c then ascii_of_N (code c + 32) else c.

Fixpoint upper (s : string) : string :=
  match s with
  | EmptyString => EmptyString
  | String c s' => String (upper_char c) (upper s')
  end.

Fixpoint lstrip (s : string) : string :=
  match s with
  | EmptyString => EmptyString
  | String c s' => if isspace c then lstrip s' else s
  end.

Definition is_empty (s : string) : bool :=
  match s with EmptyString => true | _ => false end.

Fixpoint rstrip (s : string) : string :=
  match s with
  | EmptyString => EmptyString
  | String c s' =>
      let r := rstrip s' in
      if isspace c && is_empty r then EmptyString else String c r
  end.

Definition strip (s : string) : string := rstrip (lstrip s).

(** [str.title]: a character that follows a cased character is
    lower-cased, any other is title-cased (upper-cased, in ASCII). *)
Fixpoint title_from (previous_is_cased : bool) (s : string) : string :=
  match s with
  | EmptyString => EmptyString
  | String c s' =>
      String (if previous_is_cased then lower_char c else upper_char c)
             (title_from (iscased c) s')
  end.

Definition title (s : string) : string := title_from false s.

(** [str(n)] and [f"{n}"] for an integer. *)
Definition str_of_Z (z : Z) : string := NilZero.string_of_int (Z.to_int z).

(** ["c" * n] *)
Fixpoint repeat_char (c : ascii) (n : nat) : string :=
  match n with
  | O => EmptyString
  | S n' => String c (repeat_char c n')
  end.

(** ["\n".join(lines)] *)
Fixpoint join (sep : string) (lines : list string) : string :=
  match lines with
  | [] => EmptyString
  | [l] => l
  | l :: ls => l ++ sep ++ join sep ls
  end.

Definition isalpha (c : ascii) : bool := isupper c || islower c.

Definition isalnum (c : ascii) : bool := isalpha c || isdigit c.

Fixpoint lower (s : string) : string :=
  match s with
  | EmptyString => EmptyString
  | String c s' => String (lower_char c) (lower s')
  end.

(** [s1 < s2] and [s1 >= s2] on text: by code point, the order of the
    bytes. *)
Definition str_lt (s1 s2 : string) : bool := String.ltb s1 s2.
Definition str_ge (s1 s2 : string) : bool := String.leb s2 s1.

End Py.

(** ** Regular expressions, as far as [ICD10_PATTERN] uses them *)

Module Re.

Inductive char_range : Type := Range (lo hi : ascii).

Inductive regex : Type :=
| Eps                                   (* the empty pattern *)
| Bol                                   (* ^ *)
| Eol                                   (* $ *)
| Lit (c : ascii)                       (* an escaped literal *)
| Class (rs : list char_range)          (* [a-bc-d] *)
| Cat (r1 r2 : regex)
| Opt (r : regex).                      (* r? *)

(** [r{lo,hi}], unfolded into [lo] copies of [r] followed by [hi - lo]
    nested optional copies: [r{1,4}] is [r(r(r(r)?)?)?]. *)
Fixpoint upto (n : nat) (r : regex) : regex :=
  match n with
  | O => Eps
  | S n' => Opt (Cat r (upto n' r))
  end.

Fixpoint copies (n : nat) (r tail : regex) : regex :=
  match n with
  | O => tail
  | S n' => Cat r (copies n' r tail)
  end.

Definition between (lo hi : nat) (r : regex) : regex :=
  copies lo r (upto (hi - lo) r).

Definition in_char_range (c : ascii) (r : char_range) : bool :=
  match r with
  | Range lo hi => Py.in_range (Py.code lo) (Py.code hi) c
  end.

Definition newline : ascii := ascii_of_N 10.

(** Backtracking matcher in continuation-passing style.  [at_start] tells
    whether no character has been consumed yet; [Eol] succeeds at the end
    of the text and, as in Python, just before a final newline. *)
Fixpoint run (r : regex) (at_start : bool) (s : string)
         (k : bool -> string -> bool) : bool :=
  match r with
  | Eps => k at_start s
  | Bol => at_start && k at_start s
  | Eol =>
      match s with
      | EmptyString => k at_start s
      | String c EmptyString =>
          if Ascii.eqb c newline then k at_start s else false
      | _ => false
      end
  | Lit c =>
      match s with
      | String c' s' => Ascii.eqb c c' && k false s'
      | EmptyString => false
      end
  | Class rs =>
      match s with
      | String c' s' => existsb (in_char_range c') rs && k false s'
      | EmptyString => false
      end
  | Cat r1 r2 => run r1 at_start s (fun st s' => run r2 st s' k)
  | Opt r1 => run r1 at_start s k || k at_start s
  end.

(** [bool(re.match(pattern, text))]: anchored at the start of the text,
    free at its end. *)
Definition matches (pattern : regex) (text : string) : bool :=
  run pattern true text (fun _ _ => true).

End Re.

(** ** config.py *)

Definition MAX_AGE : Z := 120.
Definition MIN_AGE : Z := 0.
Definition MAX_LOS_DAYS : Z := 365.
Definition MIN_LOS_DAYS : Z := 0.

(** [r'^[A-Z][0-9][0-9A-Z](\.[0-9A-Z]{1,4})?$'] *)
Definition ICD10_PATTERN : Re.regex :=
  let AZ := Re.Range "A" "Z" in
  let d09 := Re.Range "0" "9" in
  Re.Cat Re.Bol
    (Re.Cat (Re.Class [AZ])
       (Re.Cat (Re.Class [d09])
          (Re.Cat (Re.Class [d09; AZ])
             (Re.Cat (Re.Opt (Re.Cat (Re.Lit ".")
                                (Re.between 1 4 (Re.Class [d09; AZ]))))
                Re.Eol)))).

Definition AGE_GROUPS : list (Z * Z * string) :=
  [ (0, 18, "0-18"); (19, 35, "19-35"); (36, 60, "36-60"); (61, 150, "60+") ].

(** [DATA_FILES], in the order the dict lists its items. *)
Definition DATA_FILES : list (string * string) :=
  [ ("patients", "patients.csv"); ("visits", "visits.csv");
    ("diagnoses", "diagnoses.csv"); ("medications", "medications.csv");
    ("staff", "staff.csv"); ("hospital_info", "hospital_info.csv") ].


(** ** Cells, rows and frames *)

Inductive value : Type :=
| NaN
| Str (s : string)
| Int (z : Z)
| Timestamp (ns : Z)
| Bool (b : bool)
| PyNone.

#[global] Instance value_eq_dec : EqDecision value.
Proof. solve_decision. Defined.

Record DataFrame : Type := mkFrame {
  columns : list string;
  rows : list (gmap string value)
}.

(** ** pandas operations *)

Module Pd.

Definition ns_per_day : Z := 86400 * 1000000000.

Definition isna (v : value) : bool :=
  match v with NaN | PyNone => true | _ => false end.

(** [c in df.columns] *)
Definition has_column (df : DataFrame) (c : string) : bool :=
  bool_decide (c ∈ columns df).

(** [len(df)] *)
Definition len (df : DataFrame) : Z := Z.of_nat (length (rows df)).

Definition cell (r : gmap string value) (c : string) : value :=
  default NaN (r !! c).

(** [df[c]] *)
Definition col (df : DataFrame) (c : string) : list value :=
  map (fun r => cell r c) (rows df).

(** [df[c] = series] *)
Definition assign (df : DataFrame) (c : string) (series : list value)
  : DataFrame :=
  {| columns := if has_column df c then columns df else columns df ++ [c];
     rows := zip_with (fun r v => <[c := v]> r) (rows df) series |}.

Fixpoint keep {A : Type} (l : list A) (mask : list bool) : list A :=
  match l, mask with
  | x :: l', b :: mask' => if b then x :: keep l' mask' else keep l' mask'
  | _, _ => []
  end.

(** [df[mask]] *)
Definition select (df : DataFrame) (mask : list bool) : DataFrame :=
  {| columns := columns df; rows := keep (rows df) mask |}.

(** Masks: [~m], [m1 & m2], [m1 | m2], [m.all()], [m.sum()]. *)
Definition mask_not (m : list bool) : list bool := map negb m.
Definition mask_and (m1 m2 : list bool) : list bool := zip_with andb m1 m2.
Definition mask_or (m1 m2 : list bool) : list bool := zip_with orb m1 m2.
Definition all (m : list bool) : bool := forallb id m.
Definition sum (m : list bool) : Z := Z.of_nat (length (List.filter id m)).

(** Ordering of two cells; any comparison with a missing cell, or between
    cells of different kinds, is false. *)
Definition compare_cells (op : Z -> Z -> bool) (a b : value) : bool :=
  match a, b with
  | Timestamp x, Timestamp y => op x y
  | Int x, Int y => op x y
  | _, _ => false
  end.

Definition lt (s1 s2 : list value) : list bool :=
  zip_with (compare_cells Z.ltb) s1 s2.
Definition lt_scalar (s : list value) (k : value) : list bool :=
  map (fun a => compare_cells Z.ltb a k) s.
Definition gt_scalar (s : list value) (k : value) : list bool :=
  map (fun a => compare_cells Z.gtb a k) s.
Definition le_scalar (s : list value) (k : value) : list bool :=
  map (fun a => compare_cells Z.leb a k) s.
Definition ge_scalar (s : list value) (k : value) : list bool :=
  map (fun a => compare_cells Z.geb a k) s.

Section ToDatetime.
(** How pandas reads a date out of text; [None] when it cannot. *)
Variable parse_datetime : string -> option Z.

Definition to_datetime_cell (v : value) : value :=
  match v with
  | Timestamp t => Timestamp t
  | Str s => match parse_datetime s with
             | Some t => Timestamp t
             | None => NaN
             end
  | Int n => Timestamp n            (* an epoch offset in nanoseconds *)
  | NaN | PyNone => NaN
  | Bool _ => NaN                   (* outside the model, see the header *)
  end.

(** [pd.to_datetime(series, errors='coerce')] *)
Definition to_datetime (series : list value) : list value :=
  map to_datetime_cell series.
End ToDatetime.

(** A timedelta Series: nanoseconds, [None] for NaT. *)
Definition timedelta (a b : value) : option Z :=
  match a, b with
  | Timestamp x, Timestamp y => Some (x - y)
  | _, _ => None
  end.

(** [s1 - s2] and [scalar - s] on datetime Series. *)
Definition sub (s1 s2 : list value) : list (option Z) :=
  zip_with timedelta s1 s2.
Definition rsub_scalar (k : value) (s : list value) : list (option Z) :=
  map (fun b => timedelta k b) s.

(** [.dt.days]: whole days, rounded towards minus infinity. *)
Definition days_cell (td : option Z) : value :=
  match td with
  | Some ns => Int (ns / ns_per_day)
  | None => NaN
  end.

Definition dt_days (s : list (option Z)) : list value := map days_cell s.

(** [series / x] on a numeric Series, giving floats. *)
Definition div_cell (x : Q) (v : value) : option Q :=
  match v with
  | Int z => Some (inject_Z z / x)%Q
  | _ => None
  end.

Definition div_float (s : list value) (x : Q) : list (option Q) :=
  map (div_cell x) s.

(** [series.astype(int)] on a float Series: truncation towards zero;
    pandas refuses to cast when a value is missing. *)
Definition trunc (q : Q) : Z := Z.quot (Qnum q) (Z.pos (Qden q)).

Fixpoint astype_int (s : list (option Q)) : result (list value) :=
  match s with
  | [] => Ok []
  | None :: _ => Raise ValueError
  | Some q :: s' => r ← astype_int s'; Ok (Int (trunc q) :: r)
  end.

(** [series.fillna(v)] *)
Definition fillna_cell (v x : value) : value := if isna x then v else x.

Definition fillna (v : value) (s : list value) : list value :=
  map (fillna_cell v) s.

(** [series.map(mapping)] with a dict of text keys: a cell that is not a
    key gives the missing marker. *)
Fixpoint dict_get (mapping : list (string * string)) (key : string)
  : option string :=
  match mapping with
  | [] => None
  | (k, v) :: rest => if String.eqb k key then Some v else dict_get rest key
  end.

Definition map_dict_cell (mapping : list (string * string)) (x : value)
  : value :=
  match x with
  | Str k => match dict_get mapping k with
             | Some v => Str v
             | None => NaN
             end
  | _ => NaN
  end.

Definition map_dict (mapping : list (string * string)) (s : list value)
  : list value :=
  map (map_dict_cell mapping) s.

(** The [.str] accessor: the method applies to text cells; a cell that is
    not text gives the missing marker, and [None] stays [None]. *)
Definition str_cell (f : string -> string) (x : value) : value :=
  match x with
  | Str t => Str (f t)
  | PyNone => PyNone
  | _ => NaN
  end.

Definition str_method (f : string -> string) (s : list value) : list value :=
  map (str_cell f) s.

Section Repr.
(** [str(ts)] for a timestamp. *)
Variable str_of_timestamp : Z -> string.

(** [str(x)] *)
Definition str (x : value) : string :=
  match x with
  | NaN => "nan"
  | Str s => s
  | Int z => Py.str_of_Z z
  | Timestamp t => str_of_timestamp t
  | Bool true => "True"
  | Bool false => "False"
  | PyNone => "None"
  end.

(** [series.astype(str)] *)
Definition astype_str (s : list value) : list value :=
  map (fun x => Str (str x)) s.
End Repr.

(** [df.duplicated(subset=subset, keep='first')]: a row is flagged when an
    earlier row has the same cells in the [subset] columns (two missing
    cells count as the same). *)
Fixpoint duplicated_from (seen : list (list value)) (keys : list (list value))
  : list bool :=
  match keys with
  | [] => []
  | k :: keys' => bool_decide (k ∈ seen) :: duplicated_from (k :: seen) keys'
  end.

Definition key_of (subset : list string) (r : gmap string value)
  : list value :=
  map (cell r) subset.

Definition duplicated (df : DataFrame) (subset : list string) : list bool :=
  duplicated_from [] (map (key_of subset) (rows df)).

(** [df.dropna(subset=subset)] *)
Definition complete (subset : list string) (r : gmap string value) : bool :=
  forallb (fun c => negb (isna (cell r c))) subset.

Definition dropna (df : DataFrame) (subset : list string) : DataFrame :=
  select df (map (complete subset) (rows df)).

(** [series.isin(values)] *)
Definition isin (s values : list value) : list bool :=
  map (fun x => bool_decide (x ∈ values)) s.

(** [pd.DataFrame()] and [df.empty]: a frame is empty when it has no
    column or no row. *)
Definition empty_frame : DataFrame := {| columns := []; rows := [] |}.

Definition is_empty (df : DataFrame) : bool :=
  match columns df, rows df with
  | _ :: _, _ :: _ => false
  | _, _ => true
  end.

(** [series.isna()], [series.notna()] *)
Definition isna_series (s : list value) : list bool := map isna s.
Definition notna (s : list value) : list bool :=
  map (fun v => negb (isna v)) s.

(** [series.is_unique] and [series.duplicated()]; two missing cells count
    as the same value. *)
Definition is_unique (s : list value) : bool := bool_decide (NoDup s).

Fixpoint series_duplicated_from (seen s : list value) : list bool :=
  match s with
  | [] => []
  | v :: s' => bool_decide (v ∈ seen) :: series_duplicated_from (v :: seen) s'
  end.

Definition series_duplicated (s : list value) : list bool :=
  series_duplicated_from [] s.

(** [series.between(left, right)], both ends included:
    [(series >= left) & (series <= right)]. *)
Definition between (s : list value) (left right : Z) : list bool :=
  mask_and (ge_scalar s (Int left)) (le_scalar s (Int right)).

(** [s1 >= s2] and [s1 < s2] on two columns that may hold text: numbers and
    timestamps are ordered by value, text as Python orders text, and a
    comparison with a missing cell is false. *)
Definition compare_objects (num : Z -> Z -> bool)
           (txt : string -> string -> bool) (a b : value) : bool :=
  match a, b with
  | Timestamp x, Timestamp y => num x y
  | Int x, Int y => num x y
  | Str x, Str y => txt x y
  | _, _ => false
  end.

Definition ge (s1 s2 : list value) : list bool :=
  zip_with (compare_objects Z.geb Py.str_ge) s1 s2.
Definition lt_objects (s1 s2 : list value) : list bool :=
  zip_with (compare_objects Z.ltb Py.str_lt) s1 s2.

(** [df.columns = names], for as many names as the frame has columns: the
    cells of the i-th column are read under the i-th name.  pandas allows a
    label to occur twice; a row here holds one cell per label, so the cells
    of the renamed frame are those of pandas when the names are distinct. *)
Definition rename_row (old names : list string) (r : gmap string value)
  : gmap string value :=
  list_to_map (zip names (map (cell r) old)).

Definition set_columns (df : DataFrame) (names : list string) : DataFrame :=
  {| columns := names;
     rows := map (rename_row (columns df) names) (rows df) |}.

End Pd.

(** ** Floating point arithmetic

    The outlier detector is written over the operations it uses on floats,
    so that it is read in the arithmetic of the code, [binary64], and in
    the arithmetic of the reals, [exact]. *)

Module Float.

Record arithmetic : Type := mkArithmetic {
  num : Type;
  add : num -> num -> num;
  sub : num -> num -> num;
  mul : num -> num -> num;
  ltb : num -> num -> bool;
  (** the float nearest to a rational *)
  of_Q : Q -> num
}.

(** The rationals: no rounding. *)
Definition exact : arithmetic :=
  {| num := Q;
     add := Qplus;
     sub := Qminus;
     mul := Qmult;
     ltb := fun a b => negb (Qle_bool b a);
     of_Q := fun q => q |}.

(** IEEE 754 binary64, rounding to nearest: the [float] of Python and the
    [float64] of numpy. *)
Definition of_Z (z : Z) : PrimFloat.float :=
  match z with
  | Z0 => PrimFloat.zero
  | Zpos _ => PrimFloat.of_uint63 (Uint63.of_Z z)
  | Zneg p => PrimFloat.opp (PrimFloat.of_uint63 (Uint63.of_Z (Zpos p)))
  end.

Definition binary64 : arithmetic :=
  {| num := PrimFloat.float;
     add := PrimFloat.add;
     sub := PrimFloat.sub;
     mul := PrimFloat.mul;
     ltb := PrimFloat.ltb;
     of_Q := fun q => PrimFloat.div (of_Z (Qnum q)) (of_Z (Zpos (Qden q))) |}.

(** [a < b] never holds both ways. *)
Definition asymmetric (A : arithmetic) : Prop :=
  forall x y : num A, ltb A x y = true -> ltb A y x = false.

(** [b] is not below [a]: the order of two neighbours in an ascending
    sample. *)
Definition not_after (A : arithmetic) (a b : num A) : Prop :=
  ltb A b a = false.

(** A float Series from its floats: NaN is the missing value. *)
Definition series_of (l : list PrimFloat.float)
  : list (option PrimFloat.float) :=
  map (fun x => if PrimFloat.is_nan x then None else Some x) l.

End Float.

(** ** utils.py *)

Module Utils.

(** [calculate_age(dob, reference_date=None)]; [now] is what
    [pd.Timestamp.now()] returns when the call reads the clock. *)
Definition calculate_age (now : Z) (dob : list value)
           (reference_date : option Z) : result (list value) :=
  let reference_date :=
    match reference_date with
    | None => now
    | Some t => t
    end in
  let age := Pd.div_float
               (Pd.dt_days (Pd.rsub_scalar (Timestamp reference_date) dob))
               (1461 # 4) (* 365.25 *) in
  Pd.astype_int age.

Definition Qltb (a b : Q) : bool := negb (Qle_bool b a).

Section Outliers.
(** The arithmetic of the floats; a float Series is a list of them, [None]
    being NaN. *)
Variable A : Float.arithmetic.

(** [a < b] on floats: false when either is NaN. *)
Definition float_lt (a b : option (Float.num A)) : bool :=
  match a, b with
  | Some x, Some y => Float.ltb A x y
  | _, _ => false
  end.

(** The values in ascending order, as the quantile reads them. *)
Fixpoint insert_sorted (x : Float.num A) (l : list (Float.num A))
  : list (Float.num A) :=
  match l with
  | [] => [x]
  | y :: l' =>
      if Float.ltb A y x then y :: insert_sorted x l' else x :: l
  end.

Definition sort_values (l : list (Float.num A)) : list (Float.num A) :=
  fold_right insert_sorted [] l.

(** numpy's [_lerp(a, b, t)]: [a + (b - a) * t], computed from [b] when
    [t >= 0.5]. *)
Definition lerp (a b : Float.num A) (t : Q) : Float.num A :=
  let diff_b_a := Float.sub A b a in
  if Qle_bool (1 # 2) t
  then Float.sub A b (Float.mul A diff_b_a (Float.of_Q A (1 - t)))
  else Float.add A a (Float.mul A diff_b_a (Float.of_Q A t)).

(** [series.quantile(q)] with the default interpolation, ['linear']:
    missing values are left out, and numpy interpolates between the two
    order statistics around the position [(n - 1) * q]; an empty sample has
    no quantile (NaN).  For the two quantiles the detector asks for, 0.25
    and 0.75, the position and its fractional part are computed without
    rounding, so they are rationals here. *)
Definition quantile (series : list (option (Float.num A))) (q : Q)
  : option (Float.num A) :=
  let values := sort_values (omap id series) in
  match values with
  | [] => None
  | x0 :: _ =>
      let n := Z.of_nat (length values) in
      let virtual_index := (inject_Z (n - 1) * q)%Q in
      let previous_index := Qfloor virtual_index in
      let next_index := Z.min (previous_index + 1) (n - 1) in
      let gamma := (virtual_index - inject_Z previous_index)%Q in
      Some (lerp (nth (Z.to_nat previous_index) values x0)
                 (nth (Z.to_nat next_index) values x0) gamma)
  end.

(** [detect_outliers_iqr(series, multiplier=1.5)] *)
Definition detect_outliers_iqr (series : list (option (Float.num A)))
           (multiplier : Float.num A) : list bool :=
  let q1 := quantile series (1 # 4) in
  let q3 := quantile series (3 # 4) in
  let iqr := (q3' ← q3; q1' ← q1; Some (Float.sub A q3' q1')) in
  let lower_bound :=
    (q ← q1; i ← iqr; Some (Float.sub A q (Float.mul A multiplier i))) in
  let upper_bound :=
    (q ← q3; i ← iqr; Some (Float.add A q (Float.mul A multiplier i))) in
  Pd.mask_or (map (fun x => float_lt x lower_bound) series)
             (map (fun x => float_lt upper_bound x) series).
End Outliers.

(** [validate_icd10_code(code, pattern)] *)
Definition validate_icd10_code (str_of_timestamp : Z -> string)
           (code : value) (pattern : Re.regex) : bool :=
  if Pd.isna code then false
  else Re.matches pattern (Pd.str str_of_timestamp code).

(** [\w] on the 7-bit range; [\s] is [Py.isspace] there. *)
Definition is_word (c : ascii) : bool := Py.isalnum c || Ascii.eqb c "_".

(** [re.sub(r'[^\w\s]', '', s)] *)
Fixpoint drop_special (s : string) : string :=
  match s with
  | EmptyString => EmptyString
  | String c s' =>
      if is_word c || Py.isspace c then String c (drop_special s')
      else drop_special s'
  end.

(** [re.sub(r'\s+', '_', s)]: every maximal run of white space becomes one
    underscore; [in_run] tells whether the previous character was white
    space. *)
Fixpoint squeeze_space (in_run : bool) (s : string) : string :=
  match s with
  | EmptyString => EmptyString
  | String c s' =>
      if Py.isspace c then
        if in_run then squeeze_space true s'
        else String "_" (squeeze_space true s')
      else String c (squeeze_space false s')
  end.

(** [re.sub(r'(?<!^)(?=[A-Z])', '_', s)]: an underscore goes before every
    upper-case letter that is not the first character of the text. *)
Fixpoint split_camel (at_start : bool) (s : string) : string :=
  match s with
  | EmptyString => EmptyString
  | String c s' =>
      if negb at_start && Py.isupper c
      then String "_" (String c (split_camel false s'))
      else String c (split_camel false s')
  end.

(** [convert_to_snake_case(column_name)] *)
Definition convert_to_snake_case (column_name : string) : string :=
  let column_name := drop_special column_name in
  let column_name := squeeze_space false column_name in
  let column_name := split_camel true column_name in
  Py.lower column_name.

(** [standardize_column_names(df)] *)
Definition standardize_column_names (df : DataFrame) : DataFrame :=
  Pd.set_columns df (map convert_to_snake_case (columns df)).

(** [parse_dates(df, date_columns)], [date_format] left at its default
    [None]. *)
Definition parse_dates (parse_datetime : string -> option Z)
           (df : DataFrame) (date_columns : list string) : DataFrame :=
  fold_left
    (fun df col =>
       if Pd.has_column df col then
         Pd.assign df col (Pd.to_datetime parse_datetime (Pd.col df col))
       else df)
    date_columns df.

(** [a <= b] on floats: false when either is NaN. *)
Definition float_le (a b : option Q) : bool :=
  match a, b with
  | Some x, Some y => Qle_bool x y
  | _, _ => false
  end.

(** [assign_group(age)], the local function of [create_age_groups]: the
    label of the first bin that holds the age. *)
Fixpoint assign_group (bins : list (Z * Z * string)) (age : option Q)
  : string :=
  match bins with
  | [] => "unknown"
  | (min_age, max_age, label) :: bins' =>
      if float_le (Some (inject_Z min_age)) age
         && float_le age (Some (inject_Z max_age))
      then label
      else assign_group bins' age
  end.

(** [create_age_groups(age_series, bins)] on a numeric Series. *)
Definition create_age_groups (age_series : list (option Q))
           (bins : list (Z * Z * string)) : list string :=
  map (assign_group bins) age_series.

End Utils.

(** ** data_cleaner.py *)

Module DataCleaner.

(** One entry of [self.cleaning_report]. *)
Record entry : Type := mkEntry {
  dataset : string;
  initial_rows : Z;
  final_rows : Z;
  removed_rows : Z
}.

(** The instance: its only attribute is the report. *)
Record t : Type := mk { cleaning_report : list entry }.

(** [DataCleaner()] *)
Definition init : t := {| cleaning_report := [] |}.

Definition append_report (self : t) (e : entry) : t :=
  {| cleaning_report := cleaning_report self ++ [e] |}.

Definition _handle_missing_patient_info (df : DataFrame) : DataFrame :=
  if Pd.has_column df "gender" then
    Pd.assign df "gender" (Pd.fillna (Str "Unknown") (Pd.col df "gender"))
  else df.

Definition gender_mapping : list (string * string) :=
  [ ("M", "Male"); ("m", "Male"); ("male", "Male"); ("MALE", "Male");
    ("F", "Female"); ("f", "Female"); ("female", "Female");
    ("FEMALE", "Female");
    ("O", "Other"); ("o", "Other"); ("other", "Other"); ("OTHER", "Other") ].

Definition _standardize_gender (df : DataFrame) : DataFrame :=
  if Pd.has_column df "gender" then
    Pd.assign df "gender"
      (Pd.fillna (Str "Unknown")
         (Pd.map_dict gender_mapping (Pd.col df "gender")))
  else df.

Definition _remove_duplicate_patients (df : DataFrame) : DataFrame :=
  if Pd.has_column df "patient_id" then
    let duplicates := Pd.duplicated df ["patient_id"] in
    Pd.select df (Pd.mask_not duplicates)
  else df.

Section Cleaning.
Variable parse_datetime : string -> option Z.
Variable str_of_timestamp : Z -> string.

(** [now] is the clock reading of this step. *)
Definition _clean_date_of_birth (now : Z) (df : DataFrame) : DataFrame :=
  if Pd.has_column df "date_of_birth" then
    let df := Pd.assign df "date_of_birth"
                (Pd.to_datetime parse_datetime (Pd.col df "date_of_birth")) in
    let future_dob := Pd.gt_scalar (Pd.col df "date_of_birth") (Timestamp now) in
    Pd.select df (Pd.mask_not future_dob)
  else df.

(** [clean_patients_data(df)].  The call reads the clock twice: [now_dob]
    in [_clean_date_of_birth], then [now_age] in [calculate_age]. *)
Definition clean_patients_data (now_dob now_age : Z) (self : t)
           (df : DataFrame) : result (DataFrame * t) :=
  let initial_rows := Pd.len df in
  let df := _handle_missing_patient_info df in
  let df := _standardize_gender df in
  let df := _clean_date_of_birth now_dob df in
  df ← (if Pd.has_column df "date_of_birth" then
          age ← Utils.calculate_age now_age
                  (Pd.to_datetime parse_datetime (Pd.col df "date_of_birth"))
                  None;
          let df := Pd.assign df "age" age in
          Ok (Pd.select df
                (Pd.mask_and (Pd.ge_scalar (Pd.col df "age") (Int MIN_AGE))
                             (Pd.le_scalar (Pd.col df "age") (Int MAX_AGE))))
        else Ok df);
  let df := _remove_duplicate_patients df in
  let final_rows := Pd.len df in
  let self := append_report self
                {| dataset := "patients";
                   initial_rows := initial_rows;
                   final_rows := final_rows;
                   removed_rows := initial_rows - final_rows |} in
  Ok (df, self).

Definition clean_visits_data (self : t) (df : DataFrame) : DataFrame * t :=
  let initial_rows := Pd.len df in
  let df := if Pd.has_column df "admission_date" then
              Pd.assign df "admission_date"
                (Pd.to_datetime parse_datetime (Pd.col df "admission_date"))
            else df in
  let df := if Pd.has_column df "discharge_date" then
              Pd.assign df "discharge_date"
                (Pd.to_datetime parse_datetime (Pd.col df "discharge_date"))
            else df in
  let df := if Pd.has_column df "admission_date"
               && Pd.has_column df "discharge_date" then
              let invalid_dates :=
                Pd.lt (Pd.col df "discharge_date") (Pd.col df "admission_date") in
              Pd.select df (Pd.mask_not invalid_dates)
            else df in
  let df := if Pd.has_column df "admission_date"
               && Pd.has_column df "discharge_date" then
              let df := Pd.assign df "length_of_stay"
                          (Pd.dt_days (Pd.sub (Pd.col df "discharge_date")
                                              (Pd.col df "admission_date"))) in
              let invalid_los :=
                Pd.mask_or
                  (Pd.lt_scalar (Pd.col df "length_of_stay") (Int MIN_LOS_DAYS))
                  (Pd.gt_scalar (Pd.col df "length_of_stay") (Int MAX_LOS_DAYS)) in
              Pd.select df (Pd.mask_not invalid_los)
            else df in
  let df := if Pd.has_column df "visit_id" then
              let duplicates := Pd.duplicated df ["visit_id"] in
              Pd.select df (Pd.mask_not duplicates)
            else df in
  let final_rows := Pd.len df in
  let self := append_report self
                {| dataset := "visits";
                   initial_rows := initial_rows;
                   final_rows := final_rows;
                   removed_rows := initial_rows - final_rows |} in
  (df, self).

Definition clean_diagnoses_data (self : t) (df : DataFrame) : DataFrame * t :=
  let initial_rows := Pd.len df in
  let df := if Pd.has_column df "icd_code" then
              let df := Pd.assign df "icd_code"
                          (Pd.str_method Py.upper
                             (Pd.str_method Py.strip
                                (Pd.astype_str str_of_timestamp
                                   (Pd.col df "icd_code")))) in
              let valid_codes :=
                map (fun x => Utils.validate_icd10_code str_of_timestamp x
                                ICD10_PATTERN)
                    (Pd.col df "icd_code") in
              Pd.assign df "icd_code_valid" (map Bool valid_codes)
            else df in
  let df := if Pd.has_column df "visit_id" && Pd.has_column df "icd_code" then
              let duplicates := Pd.duplicated df ["visit_id"; "icd_code"] in
              Pd.select df (Pd.mask_not duplicates)
            else df in
  let final_rows := Pd.len df in
  let self := append_report self
                {| dataset := "diagnoses";
                   initial_rows := initial_rows;
                   final_rows := final_rows;
                   removed_rows := initial_rows - final_rows |} in
  (df, self).

End Cleaning.

Definition clean_medications_data (self : t) (df : DataFrame) : DataFrame * t :=
  let initial_rows := Pd.len df in
  let df := if Pd.has_column df "medication_name" then
              Pd.assign df "medication_name"
                (Pd.str_method Py.title
                   (Pd.str_method Py.strip (Pd.col df "medication_name")))
            else df in
  let critical_cols := ["visit_id"; "medication_name"] in
  let df := Pd.dropna df (List.filter (Pd.has_column df) critical_cols) in
  let df := if Pd.has_column df "visit_id"
               && Pd.has_column df "medication_name" then
              let duplicates := Pd.duplicated df ["visit_id"; "medication_name"] in
              Pd.select df (Pd.mask_not duplicates)
            else df in
  let final_rows := Pd.len df in
  let self := append_report self
                {| dataset := "medications";
                   initial_rows := initial_rows;
                   final_rows := final_rows;
                   removed_rows := initial_rows - final_rows |} in
  (df, self).

Definition clean_staff_data (self : t) (df : DataFrame) : DataFrame * t :=
  let initial_rows := Pd.len df in
  let df := if Pd.has_column df "staff_name" || Pd.has_column df "name" then
              let name_col := if Pd.has_column df "staff_name"
                              then "staff_name" else "name" in
              Pd.assign df name_col
                (Pd.str_method Py.title
                   (Pd.str_method Py.strip (Pd.col df name_col)))
            else df in
  let df := if Pd.has_column df "staff_id" then
              let duplicates := Pd.duplicated df ["staff_id"] in
              Pd.select df (Pd.mask_not duplicates)
            else df in
  let final_rows := Pd.len df in
  let self := append_report self
                {| dataset := "staff";
                   initial_rows := initial_rows;
                   final_rows := final_rows;
                   removed_rows := initial_rows - final_rows |} in
  (df, self).

(** [get_cleaning_report()]: the entries, one table row each. *)
Definition get_cleaning_report (self : t) : list entry :=
  cleaning_report self.

End DataCleaner.

(** ** validators.py *)

Module DataValidator.

(** One entry of a result's ['checks'] list. *)
Record check : Type := mkCheck {
  test : string;
  passed : bool;
  message : string
}.

Record results : Type := mkResults {
  dataset : string;
  checks : list check
}.

Record t : Type := mk { validation_results : list results }.

(** [DataValidator()] *)
Definition init : t := {| validation_results := [] |}.

Definition validate_referential_integrity (self : t)
           (patients_df visits_df : DataFrame) : results * t :=
  let checks :=
    if Pd.has_column patients_df "patient_id"
       && Pd.has_column visits_df "patient_id" then
      let known := Pd.isin (Pd.col visits_df "patient_id")
                           (Pd.col patients_df "patient_id") in
      let valid_patients := Pd.all known in
      let orphaned := Pd.sum (Pd.mask_not known) in
      [ {| test := "visits_patient_id_exists";
           passed := valid_patients;
           message :=
             if valid_patients
             then "all patient ids in visits exist in patients table"
             else "found " ++ Py.str_of_Z orphaned
                  ++ " orphaned patient ids in visits" |} ]
    else [] in
  let results := {| dataset := "referential_integrity"; checks := checks |} in
  (results, {| validation_results := validation_results self ++ [results] |}).

(** [a / b] on Python integers. *)
Definition truediv (a b : Z) : result Q :=
  if b =? 0 then Raise ZeroDivisionError
  else Ok (inject_Z a / inject_Z b)%Q.

Definition banner (c : ascii) : string := Py.repeat_char c 80.

(** [lines.append(line)] *)
Definition append (lines : list string) (line : string) : list string :=
  List.app lines [line].

(** The loop state of [generate_validation_report]:
    [report_lines], [total_checks], [passed_checks]. *)
Definition report_check (acc : list string * Z * Z) (c : check)
  : list string * Z * Z :=
  let '(report_lines, total_checks, passed_checks) := acc in
  let total_checks := total_checks + 1 in
  let status := if passed c then "✓ PASS" else "✗ FAIL" in
  let passed_checks := if passed c then passed_checks + 1 else passed_checks in
  let report_lines := append report_lines (status ++ " | " ++ test c) in
  let report_lines := append report_lines ("       " ++ message c) in
  let report_lines := append report_lines "" in
  (report_lines, total_checks, passed_checks).

Definition report_result (acc : list string * Z * Z) (r : results)
  : list string * Z * Z :=
  let '(report_lines, total_checks, passed_checks) := acc in
  let report_lines :=
    append report_lines (String Re.newline ("Dataset: " ++ dataset r)) in
  let report_lines := append report_lines (banner "-") in
  fold_left report_check (checks r) (report_lines, total_checks, passed_checks).

Section Report.
(** [f"{x:.1f}"] *)
Variable format_1f : Q -> string.

(** [generate_validation_report()]: the text it returns, which is also
    the text it writes to the report file. *)
Definition generate_validation_report (self : t) : result string :=
  let report_lines := [] in
  let report_lines := append report_lines (banner "=") in
  let report_lines := append report_lines "DATA VALIDATION REPORT" in
  let report_lines := append report_lines (banner "=") in
  let report_lines := append report_lines "" in
  let '(report_lines, total_checks, passed_checks) :=
    fold_left report_result (validation_results self) (report_lines, 0, 0) in
  let report_lines := append report_lines (banner "=") in
  ratio ← truediv passed_checks total_checks;
  let report_lines :=
    append report_lines
      ("SUMMARY: " ++ Py.str_of_Z passed_checks ++ "/"
       ++ Py.str_of_Z total_checks ++ " checks passed ("
       ++ format_1f (ratio * 100)%Q ++ "%)") in
  let report_lines := append report_lines (banner "=") in
  Ok (Py.join (String Re.newline "") report_lines).
End Report.

(** [checks.append(c)] *)
Definition add_check (checks : list check) (c : check) : list check :=
  List.app checks [c].

Definition validate_patients (self : t) (df : DataFrame) : results * t :=
  let checks := [] in
  let checks :=
    if Pd.has_column df "patient_id" then
      let is_unique := Pd.is_unique (Pd.col df "patient_id") in
      add_check checks
        {| test := "unique_patient_id";
           passed := is_unique;
           message :=
             if is_unique then "all patient ids are unique"
             else "found "
                  ++ Py.str_of_Z
                       (Pd.sum (Pd.series_duplicated (Pd.col df "patient_id")))
                  ++ " duplicate patient ids" |}
    else checks in
  let checks :=
    if Pd.has_column df "age" then
      let valid_age :=
        Pd.all (Pd.between (Pd.col df "age") MIN_AGE MAX_AGE) in
      add_check checks
        {| test := "valid_age_range";
           passed := valid_age;
           message :=
             if valid_age
             then "all ages are between " ++ Py.str_of_Z MIN_AGE
                  ++ " and " ++ Py.str_of_Z MAX_AGE
             else "found "
                  ++ Py.str_of_Z
                       (Pd.sum (Pd.mask_not
                                  (Pd.between (Pd.col df "age") MIN_AGE MAX_AGE)))
                  ++ " invalid ages" |}
    else checks in
  let critical_fields := ["patient_id"] in
  let checks :=
    fold_left
      (fun checks field =>
         if Pd.has_column df field then
           let no_missing := Pd.all (Pd.notna (Pd.col df field)) in
           add_check checks
             {| test := "no_missing_" ++ field;
                passed := no_missing;
                message :=
                  if no_missing then "no missing values in " ++ field
                  else "found "
                       ++ Py.str_of_Z (Pd.sum (Pd.isna_series (Pd.col df field)))
                       ++ " missing values in " ++ field |}
         else checks)
      critical_fields checks in
  let results := {| dataset := "patients"; checks := checks |} in
  (results,
   {| validation_results := List.app (validation_results self) [results] |}).

Definition validate_visits (self : t) (df : DataFrame) : results * t :=
  let checks := [] in
  let checks :=
    if Pd.has_column df "visit_id" then
      let is_unique := Pd.is_unique (Pd.col df "visit_id") in
      add_check checks
        {| test := "unique_visit_id";
           passed := is_unique;
           message :=
             if is_unique then "all visit ids are unique"
             else "found "
                  ++ Py.str_of_Z
                       (Pd.sum (Pd.series_duplicated (Pd.col df "visit_id")))
                  ++ " duplicate visit ids" |}
    else checks in
  let checks :=
    if Pd.has_column df "admission_date"
       && Pd.has_column df "discharge_date" then
      let valid_dates :=
        Pd.all (Pd.ge (Pd.col df "discharge_date")
                      (Pd.col df "admission_date")) in
      add_check checks
        {| test := "discharge_after_admission";
           passed := valid_dates;
           message :=
             if valid_dates
             then "all discharge dates are after admission dates"
             else "found "
                  ++ Py.str_of_Z
                       (Pd.sum (Pd.lt_objects (Pd.col df "discharge_date")
                                              (Pd.col df "admission_date")))
                  ++ " invalid date sequences" |}
    else checks in
  let checks :=
    if Pd.has_column df "length_of_stay" then
      let valid_los :=
        Pd.all (Pd.between (Pd.col df "length_of_stay")
                           MIN_LOS_DAYS MAX_LOS_DAYS) in
      add_check checks
        {| test := "valid_length_of_stay";
           passed := valid_los;
           message :=
             if valid_los
             then "all length of stay values are between "
                  ++ Py.str_of_Z MIN_LOS_DAYS ++ " and "
                  ++ Py.str_of_Z MAX_LOS_DAYS ++ " days"
             else "found "
                  ++ Py.str_of_Z
                       (Pd.sum (Pd.mask_not
                                  (Pd.between (Pd.col df "length_of_stay")
                                              MIN_LOS_DAYS MAX_LOS_DAYS)))
                  ++ " invalid los values" |}
    else checks in
  let results := {| dataset := "visits"; checks := checks |} in
  (results,
   {| validation_results := List.app (validation_results self) [results] |}).

Section Diagnoses.
Variable str_of_timestamp : Z -> string.

Definition validate_diagnoses (self : t) (df : DataFrame) : results * t :=
  let checks := [] in
  let checks :=
    if Pd.has_column df "icd_code" then
      let valid_codes :=
        Pd.all (map (fun x => Utils.validate_icd10_code str_of_timestamp x
                                ICD10_PATTERN)
                    (Pd.col df "icd_code")) in
      add_check checks
        {| test := "valid_icd10_format";
           passed := valid_codes;
           message :=
             if valid_codes then "all icd-10 codes are valid"
             else "found "
                  ++ Py.str_of_Z
                       (Pd.sum
                          (Pd.mask_not
                             (map (fun x =>
                                     Utils.validate_icd10_code str_of_timestamp
                                       x ICD10_PATTERN)
                                  (Pd.col df "icd_code"))))
                  ++ " invalid icd-10 codes" |}
    else checks in
  let checks :=
    if Pd.has_column df "visit_id" then
      let no_missing := Pd.all (Pd.notna (Pd.col df "visit_id")) in
      add_check checks
        {| test := "no_missing_visit_id";
           passed := no_missing;
           message :=
             if no_missing then "no missing visit ids"
             else "found "
                  ++ Py.str_of_Z (Pd.sum (Pd.isna_series (Pd.col df "visit_id")))
                  ++ " missing visit ids" |}
    else checks in
  let results := {| dataset := "diagnoses"; checks := checks |} in
  (results,
   {| validation_results := List.app (validation_results self) [results] |}).
End Diagnoses.

End DataValidator.

(** ** data_loader.py *)

Module DataLoader.

(** The instance: the datasets loaded so far, by name.  The directory it
    reads from is part of [read_csv] below. *)
Record t : Type := mk { datasets : gmap string DataFrame }.

(** [DataLoader()] *)
Definition init : t := {| datasets := ∅ |}.

Section Loading.
(** What [pd.read_csv] gives for a file of the data directory; [None] when
    it raises (no such file, no columns to parse, a decoding error). *)
Variable read_csv : string -> option DataFrame.

(** [load_csv(filename)]: every exception is caught and answered by an
    empty frame. *)
Definition load_csv (filename : string) : DataFrame :=
  match read_csv filename with
  | Some df => df
  | None => Pd.empty_frame
  end.

(** [load_all_datasets()]: the dict it returns is [self.datasets]. *)
Definition load_all_datasets (self : t) : gmap string DataFrame * t :=
  let datasets :=
    fold_left
      (fun datasets '(dataset_name, filename) =>
         let df := load_csv filename in
         if negb (Pd.is_empty df) then
           let df := Utils.standardize_column_names df in
           <[dataset_name := df]> datasets
         else datasets)
      DATA_FILES (datasets self) in
  (datasets, {| datasets := datasets |}).
End Loading.

(** [get_dataset(name)] *)
Definition get_dataset (self : t) (name : string) : option DataFrame :=
  datasets self !! name.

(** [validate_required_columns(dataset_name, required_columns)] *)
Definition validate_required_columns (self : t) (dataset_name : string)
           (required_columns : list string) : bool :=
  match get_dataset self dataset_name with
  | None => false
  | Some df =>
      let missing_columns : gset string :=
        list_to_set required_columns ∖ list_to_set (columns df) in
      if bool_decide (missing_columns = ∅) then true else false
  end.

End DataLoader.

(** ** The five cleaning calls as one family *)

Inductive dataset : Type := patients | visits | diagnoses | medications | staff.

(** The clock readings a cleaning call makes (only the patients call reads
    the clock). *)
Record clock : Type := mkClock { now_dob : Z; now_age : Z }.

Definition clean (parse_datetime : string -> option Z)
           (str_of_timestamp : Z -> string) (ds : dataset) (clk : clock)
           (self : DataCleaner.t) (df : DataFrame)
  : result (DataFrame * DataCleaner.t) :=
  match ds with
  | patients =>
      DataCleaner.clean_patients_data parse_datetime
        (now_dob clk) (now_age clk) self df
  | visits => Ok (DataCleaner.clean_visits_data parse_datetime self df)
  | diagnoses => Ok (DataCleaner.clean_diagnoses_data str_of_timestamp self df)
  | medications => Ok (DataCleaner.clean_medications_data self df)
  | staff => Ok (DataCleaner.clean_staff_data self df)
  end.

(** ** Sample instances of the parameters, for concrete runs *)

Module Sample.

(** Days since 1970-01-01 of a proleptic Gregorian date. *)
Definition days_from_civil (y m d : Z) : Z :=
  let y := if m <=? 2 then y - 1 else y in
  let era := y / 400 in
  let yoe := y - era * 400 in
  let doy := (153 * (if 2 <? m then m - 3 else m + 9) + 2) / 5 + d - 1 in
  let doe := yoe * 365 + yoe / 4 - yoe / 100 + doy in
  era * 146097 + doe - 719468.

(** The inverse: year, month and day of a day number. *)
Definition civil_from_days (z : Z) : Z * Z * Z :=
  let z := z + 719468 in
  let era := z / 146097 in
  let doe := z - era * 146097 in
  let yoe := (doe - doe / 1460 + doe / 36524 - doe / 146096) / 365 in
  let doy := doe - (365 * yoe + yoe / 4 - yoe / 100) in
  let mp := (5 * doy + 2) / 153 in
  let d := doy - (153 * mp + 2) / 5 + 1 in
  let m := if mp <? 10 then mp + 3 else mp - 9 in
  let y := yoe + era * 400 in
  (if m <=? 2 then y + 1 else y, m, d).

Definition is_leap (y : Z) : bool :=
  ((y mod 4 =? 0) && negb (y mod 100 =? 0)) || (y mod 400 =? 0).

Definition days_in_month (y m : Z) : Z :=
  if m =? 2 then (if is_leap y then 29 else 28)
  else if (m =? 4) || (m =? 6) || (m =? 9) || (m =? 11) then 30 else 31.

Definition digit (c : ascii) : option Z :=
  if Py.isdigit c then Some (Z.of_N (Py.code c) - 48) else None.

Fixpoint number (acc : Z) (s : list ascii) : option Z :=
  match s with
  | [] => Some acc
  | c :: s' => d ← digit c; number (acc * 10 + d) s'
  end.

(** Reads [YYYY-MM-DD], the form pandas reads as midnight of that day;
    any other text is unreadable. *)
Definition parse_datetime (s : string) : option Z :=
  match list_ascii_of_string s with
  | [y1; y2; y3; y4; "-"%char; m1; m2; "-"%char; d1; d2] =>
      y ← number 0 [y1; y2; y3; y4];
      m ← number 0 [m1; m2];
      d ← number 0 [d1; d2];
      if (1 <=? m) && (m <=? 12) && (1 <=? d) && (d <=? days_in_month y m)
      then Some (days_from_civil y m d * Pd.ns_per_day)
      else None
  | _ => None
  end.

Definition pad (width : nat) (z : Z) : string :=
  let s := Py.str_of_Z z in
  Py.repeat_char "0" (width - String.length s) ++ s.

(** [YYYY-MM-DD HH:MM:SS], what pandas prints for a timestamp on a whole
    second. *)
Definition str_of_timestamp (ns : Z) : string :=
  let '(y, m, d) := civil_from_days (ns / Pd.ns_per_day) in
  let secs := (ns mod Pd.ns_per_day) / 1000000000 in
  pad 4 y ++ "-" ++ pad 2 m ++ "-" ++ pad 2 d ++ " "
  ++ pad 2 (secs / 3600) ++ ":" ++ pad 2 (secs / 60 mod 60) ++ ":"
  ++ pad 2 (secs mod 60).

(** Midnight of a date written [YYYY-MM-DD]. *)
Definition at_date (s : string) : Z := default 0 (parse_datetime s).

(** A rendering with one decimal digit, rounding half up; it agrees with
    Python's [.1f] on the percentages of the runs below. *)
Definition format_1f (q : Q) : string :=
  let tenths := Qfloor (q * 10 + (1 # 2))%Q in
  Py.str_of_Z (tenths / 10) ++ "." ++ Py.str_of_Z (tenths mod 10).

(** A row, and [pd.DataFrame({...})], from column names and cells. *)
Definition row (cols : list string) (cells : list value)
  : gmap string value :=
  list_to_map (zip cols cells).

Definition frame (cols : list string) (cells : list (list value)) : DataFrame :=
  {| columns := cols; rows := map (row cols) cells |}.

End Sample.

(** ** Vocabulary of the statements *)

(** The text without one final newline. *)
Fixpoint chomp (s : string) : string :=
  match s with
  | EmptyString => EmptyString
  | String c EmptyString =>
      if Ascii.eqb c Re.newline then EmptyString else s
  | String c s' => String c (chomp s')
  end.

Definition alnum_upper (c : ascii) : bool := Py.isdigit c || Py.isupper c.

(** An upper-case letter, a digit, a digit or upper-case letter, then
    nothing or a dot with one to four digits or upper-case letters. *)
Definition icd10_shape (s : string) : bool :=
  match list_ascii_of_string s with
  | c1 :: c2 :: c3 :: rest =>
      Py.isupper c1 && Py.isdigit c2 && alnum_upper c3 &&
      match rest with
      | [] => true
      | dot :: ext =>
          Ascii.eqb "." dot && Nat.leb 1 (length ext) && Nat.leb (length ext) 4
          && forallb alnum_upper ext
      end
  | _ => false
  end.

(** ** Row-wise reading of the cleaning pipelines

    Every Series the cleaner computes is computed cell by cell from the rows
    of the frame at hand, so each pipeline acts on the list of rows as a
    chain of [map]s and [List.filter]s followed by [first_occurrences].  The
    definitions below spell these chains out; the theorems relate them to the
    source functions above. *)

Definition add_column (c : string) (cols : list string) : list string :=
  if bool_decide (c ∈ cols) then cols else cols ++ [c].

(** The rows whose key was not seen before, in order. *)
Fixpoint first_occurrences {K : Type} `{EqDecision K}
         (key : gmap string value -> K) (seen : list K)
         (l : list (gmap string value)) : list (gmap string value) :=
  match l with
  | [] => []
  | r :: l' =>
      if bool_decide (key r ∈ seen)
      then first_occurrences key (key r :: seen) l'
      else r :: first_occurrences key (key r :: seen) l'
  end.

Module Rowwise.

(** [r[c]] replaced by what a text method gives on it. *)
Definition clean_name (c : string) (r : gmap string value)
  : gmap string value :=
  <[c := Pd.str_cell Py.title (Pd.str_cell Py.strip (Pd.cell r c))]> r.

Section Parsing.
Variable parse_datetime : string -> option Z.

Definition parse_cell (c : string) (r : gmap string value)
  : gmap string value :=
  <[c := Pd.to_datetime_cell parse_datetime (Pd.cell r c)]> r.

(** *** Patients *)

Definition fill_gender (r : gmap string value) : gmap string value :=
  <["gender" := Pd.fillna_cell (Str "Unknown") (Pd.cell r "gender")]> r.

Definition standard_gender (r : gmap string value) : gmap string value :=
  <["gender" :=
      Pd.fillna_cell (Str "Unknown")
        (Pd.map_dict_cell DataCleaner.gender_mapping (Pd.cell r "gender"))]> r.

Definition not_future (now : Z) (r : gmap string value) : bool :=
  negb (Pd.compare_cells Z.gtb (Pd.cell r "date_of_birth") (Timestamp now)).

Definition age_in_range (r : gmap string value) : bool :=
  Pd.compare_cells Z.geb (Pd.cell r "age") (Int MIN_AGE)
  && Pd.compare_cells Z.leb (Pd.cell r "age") (Int MAX_AGE).

Definition born (r : gmap string value) : value :=
  Pd.to_datetime_cell parse_datetime (Pd.cell r "date_of_birth").

(** [hg], [hd], [hp]: whether the frame has the columns [gender],
    [date_of_birth], [patient_id].  First the rows as they reach the
    age computation, then the whole call. *)
Definition patients_dob (now_dob : Z) (hg hd : bool)
           (l : list (gmap string value)) : list (gmap string value) :=
  let l := if hg then map fill_gender l else l in
  let l := if hg then map standard_gender l else l in
  if hd then List.filter (not_future now_dob)
               (map (parse_cell "date_of_birth") l)
  else l.

Definition patients (now_dob now_age : Z) (hg hd hp : bool)
           (l : list (gmap string value))
  : result (list (gmap string value)) :=
  let l := patients_dob now_dob hg hd l in
  l ← (if hd then
         age ← Utils.calculate_age now_age
                 (map (fun r => Pd.to_datetime_cell parse_datetime
                                  (Pd.cell r "date_of_birth")) l)
                 None;
         Ok (List.filter age_in_range
               (zip_with (fun r v => <["age" := v]> r) l age))
       else Ok l);
  Ok (if hp then first_occurrences (Pd.key_of ["patient_id"]) [] l else l).

(** *** Visits *)

Definition dates_in_order (r : gmap string value) : bool :=
  negb (Pd.compare_cells Z.ltb (Pd.cell r "discharge_date")
                         (Pd.cell r "admission_date")).

Definition stay (r : gmap string value) : value :=
  Pd.days_cell (Pd.timedelta (Pd.cell r "discharge_date")
                             (Pd.cell r "admission_date")).

Definition set_stay (r : gmap string value) : gmap string value :=
  <["length_of_stay" := stay r]> r.

Definition stay_in_range (r : gmap string value) : bool :=
  negb (Pd.compare_cells Z.ltb (Pd.cell r "length_of_stay") (Int MIN_LOS_DAYS)
        || Pd.compare_cells Z.gtb (Pd.cell r "length_of_stay")
                            (Int MAX_LOS_DAYS)).

(** [ha], [hd], [hv]: whether the frame has the columns
    [admission_date], [discharge_date], [visit_id]. *)
Definition visits (ha hd hv : bool) (l : list (gmap string value))
  : list (gmap string value) :=
  let l := if ha then map (parse_cell "admission_date") l else l in
  let l := if hd then map (parse_cell "discharge_date") l else l in
  let l := if ha && hd then List.filter dates_in_order l else l in
  let l := if ha && hd then List.filter stay_in_range (map set_stay l)
           else l in
  if hv then first_occurrences (Pd.key_of ["visit_id"]) [] l else l.
End Parsing.

(** *** Diagnoses *)

Section Diagnoses.
Variable str_of_timestamp : Z -> string.

Definition normal_code (v : value) : value :=
  Pd.str_cell Py.upper
    (Pd.str_cell Py.strip (Str (Pd.str str_of_timestamp v))).

Definition normalize_code (r : gmap string value) : gmap string value :=
  <["icd_code" := normal_code (Pd.cell r "icd_code")]> r.

Definition flag_code (r : gmap string value) : gmap string value :=
  <["icd_code_valid" :=
      Bool (Utils.validate_icd10_code str_of_timestamp
              (Pd.cell r "icd_code") ICD10_PATTERN)]> r.

(** [hi], [hv]: whether the frame has the columns [icd_code],
    [visit_id]. *)
Definition diagnoses (hi hv : bool) (l : list (gmap string value))
  : list (gmap string value) :=
  let l := if hi then map flag_code (map normalize_code l) else l in
  if hv && hi
  then first_occurrences (Pd.key_of ["visit_id"; "icd_code"]) [] l
  else l.
End Diagnoses.

(** *** Medications *)

(** [hv], [hm]: whether the frame has the columns [visit_id],
    [medication_name]. *)
Definition medications (hv hm : bool) (l : list (gmap string value))
  : list (gmap string value) :=
  let l := if hm then map (clean_name "medication_name") l else l in
  let l := List.filter
             (Pd.complete ((if hv then ["visit_id"] else [])
                           ++ (if hm then ["medication_name"] else [])))
             l in
  if hv && hm
  then first_occurrences (Pd.key_of ["visit_id"; "medication_name"]) [] l
  else l.

(** *** Staff *)

(** [hs], [hn], [hi]: whether the frame has the columns [staff_name],
    [name], [staff_id]. *)
Definition staff (hs hn hi : bool) (l : list (gmap string value))
  : list (gmap string value) :=
  let l := if hs || hn
           then map (clean_name (if hs then "staff_name" else "name")) l
           else l in
  if hi then first_occurrences (Pd.key_of ["staff_id"]) [] l else l.

End Rowwise.

(** The report after a cleaning call that took [df] and returned [out]. *)
Definition report_of (name : string) (self : DataCleaner.t)
           (df out : DataFrame) : DataCleaner.t :=
  DataCleaner.append_report self
    {| DataCleaner.dataset := name;
       DataCleaner.initial_rows := Pd.len df;
       DataCleaner.final_rows := Pd.len out;
       DataCleaner.removed_rows := Pd.len df - Pd.len out |}.

(** The invariant of a report entry. *)
Definition entry_ok (e : DataCleaner.entry) : Prop :=
  DataCleaner.removed_rows e
  = DataCleaner.initial_rows e - DataCleaner.final_rows e
  /\ 0 <= DataCleaner.removed_rows e.

(** The cleaner instances a run can reach: a fresh one, then one more for
    each cleaning call that returns (a call that raises leaves the report as
    it was). *)
Inductive reachable (parse_datetime : string -> option Z)
          (str_of_timestamp : Z -> string) : DataCleaner.t -> Prop :=
| reach_init : reachable parse_datetime str_of_timestamp DataCleaner.init
| reach_clean (ds : dataset) (clk : clock) (self self' : DataCleaner.t)
              (df out : DataFrame) :
    reachable parse_datetime str_of_timestamp self ->
    clean parse_datetime str_of_timestamp ds clk self df = Ok (out, self') ->
    reachable parse_datetime str_of_timestamp self'.

(** The age in whole years, at clock reading [now], of someone born at
    [dob]. *)
Definition age_at (now dob : Z) : Z :=
  Pd.trunc (inject_Z ((now - dob) / Pd.ns_per_day) / (1461 # 4)).

(** A count of nanoseconds pandas can hold, as a timestamp or as a time
    difference: a signed 64-bit number, some 292 years either way.  Beyond
    it the subtraction of two timestamps raises [OverflowError]. *)
Definition fits_timedelta (ns : Z) : bool :=
  (- 2 ^ 63 <? ns) && (ns <? 2 ^ 63).

(** A cell of a datetime column that can be subtracted from the timestamp
    [reference]: a missing date, or a date within reach of it. *)
Definition date_in_reach (reference : Z) (v : value) : bool :=
  match v with
  | Timestamp t => fits_timedelta t && fits_timedelta (reference - t)
  | NaN => true
  | _ => false
  end.

(** A text that does not begin with white space. *)
Definition starts_clean (s : string) : Prop :=
  match s with
  | EmptyString => True
  | String c _ => Py.isspace c = false
  end.

Definition is_timestamp (v : value) : bool :=
  match v with Timestamp _ => true | _ => false end.

Definition age_cell (now : Z) (v : value) : value :=
  match v with Timestamp t => Int (age_at now t) | _ => NaN end.

(** The row with its [age] cell computed at clock reading [now]. *)
Definition set_age (parse_datetime : string -> option Z) (now : Z)
           (r : gmap string value) : gmap string value :=
  <["age" := age_cell now (Rowwise.born parse_datetime r)]> r.

(** A frame with a [date_of_birth] cell that is missing or unreadable. *)
Definition unparsable_dob (parse_datetime : string -> option Z)
           (df : DataFrame) : Prop :=
  Pd.has_column df "date_of_birth" = true
  /\ exists r, r ∈ rows df
               /\ Pd.to_datetime_cell parse_datetime
                    (Pd.cell r "date_of_birth") = NaN.

(** What C4 asks of a cleaned visits row. *)
Definition stay_consistent (r : gmap string value) : Prop :=
  exists admission discharge : Z,
    Pd.cell r "admission_date" = Timestamp admission
    /\ Pd.cell r "discharge_date" = Timestamp discharge
    /\ admission <= discharge
    /\ Pd.cell r "length_of_stay"
       = Int ((discharge - admission) / Pd.ns_per_day)
    /\ 0 <= (discharge - admission) / Pd.ns_per_day <= 365.

(** The columns whose cells identify a row of each set: the [subset] of the
    cleaning call's [duplicated]. *)
Definition key_columns (ds : dataset) : list string :=
  match ds with
  | patients => ["patient_id"]
  | visits => ["visit_id"]
  | diagnoses => ["visit_id"; "icd_code"]
  | medications => ["visit_id"; "medication_name"]
  | staff => ["staff_id"]
  end.

(** The columns a cleaning call writes. *)
Definition written_columns (ds : dataset) : list string :=
  match ds with
  | patients => ["gender"; "date_of_birth"; "age"]
  | visits => ["admission_date"; "discharge_date"; "length_of_stay"]
  | diagnoses => ["icd_code"; "icd_code_valid"]
  | medications => ["medication_name"]
  | staff => ["staff_name"; "name"]
  end.

(** The column a cleaning call derives, when the frame has the columns it
    is derived from. *)
Definition derived_column (ds : dataset) (df : DataFrame) : option string :=
  match ds with
  | patients =>
      if Pd.has_column df "date_of_birth" then Some "age" else None
  | visits =>
      if Pd.has_column df "admission_date" && Pd.has_column df "discharge_date"
      then Some "length_of_stay" else None
  | diagnoses =>
      if Pd.has_column df "icd_code" then Some "icd_code_valid" else None
  | medications | staff => None
  end.

(** A cell that holds a whole number between [lo] and [hi]. *)
Definition within (lo hi : Z) (v : value) : bool :=
  match v with
  | Int z => (lo <=? z) && (z <=? hi)
  | _ => false
  end.

(** A cell of a numeric column: a whole number or a missing value.  (On a
    column that holds text, or dates, pandas raises [TypeError] when it
    compares a cell with a number.) *)
Definition number_or_missing (v : value) : bool :=
  match v with
  | Int _ | NaN | PyNone => true
  | _ => false
  end.

(** A visits row with both dates present and the discharge not before the
    admission; a row with both dates present and the discharge before the
    admission. *)
Definition discharged_after_admission (r : gmap string value) : bool :=
  match Pd.cell r "admission_date", Pd.cell r "discharge_date" with
  | Timestamp a, Timestamp d => a <=? d
  | _, _ => false
  end.

Definition discharged_before_admission (r : gmap string value) : bool :=
  match Pd.cell r "admission_date", Pd.cell r "discharge_date" with
  | Timestamp a, Timestamp d => d <? a
  | _, _ => false
  end.

(** How many cells of a Series satisfy a test. *)
Definition count (p : value -> bool) (s : list value) : Z :=
  Z.of_nat (length (List.filter p s)).

(** How many cells of a Series repeat an earlier one: the cells less the
    distinct values. *)
Definition repeats (s : list value) : Z :=
  Z.of_nat (length s) - Z.of_nat (length (remove_dups s)).

(** ** Sample sets, for concrete runs *)

(** Patients as a cleaning call leaves them, with one id repeated, one age
    out of range and one row of missing cells. *)
Definition sample_patients : DataFrame :=
  Sample.frame ["patient_id"; "age"]
    [[Str "P1"; Int 34]; [Str "P1"; Int 130]; [NaN; NaN]].

(** Visits with a repeated id, a discharge before the admission, a missing
    discharge and a stay that is too long. *)
Definition sample_visits : DataFrame :=
  Sample.frame
    ["visit_id"; "admission_date"; "discharge_date"; "length_of_stay"]
    [[Str "V1"; Str "2020-01-10"; Str "2020-01-05"; Int (-5)];
     [Str "V1"; Str "2020-01-01"; NaN; NaN];
     [Str "V2"; Str "2020-01-01"; Str "2021-06-01"; Int 517]].

(** Diagnoses with a code in lower case, a missing code and a missing
    visit. *)
Definition sample_diagnoses : DataFrame :=
  Sample.frame ["visit_id"; "icd_code"]
    [[Str "V1"; Str "E11.9"]; [Str "V2"; Str "e11.9"]; [NaN; NaN]].

(** Raw visits: one without an admission date. *)
Definition sample_visits_raw : DataFrame :=
  Sample.frame ["visit_id"; "admission_date"; "discharge_date"]
    [[Str "V1"; NaN; Str "2020-01-05"]].

(** ** The validation report, line by line *)

(** Every check a validator has recorded, in order. *)
Definition all_checks (self : DataValidator.t) : list DataValidator.check :=
  flat_map DataValidator.checks (DataValidator.validation_results self).

(** The three lines of a check and the lines of a group of checks. *)
Definition check_lines (c : DataValidator.check) : list string :=
  [ (if DataValidator.passed c then "✓ PASS" else "✗ FAIL")
    ++ " | " ++ DataValidator.test c;
    "       " ++ DataValidator.message c;
    "" ].

Definition result_lines (r : DataValidator.results) : list string :=
  (String Re.newline ("Dataset: " ++ DataValidator.dataset r)
   :: DataValidator.banner "-"
   :: flat_map check_lines (DataValidator.checks r))%list.

(** The summary line for [passed] checks out of [total]. *)
Definition summary_line (format_1f : Q -> string) (passed total : Z) : string :=
  "SUMMARY: " ++ Py.str_of_Z passed ++ "/" ++ Py.str_of_Z total
  ++ " checks passed ("
  ++ format_1f (inject_Z passed / inject_Z total * 100)%Q ++ "%)".

(** ** Column names *)

(** Text of the 7-bit range. *)
Definition ascii_text (s : string) : Prop :=
  Forall (fun c => (Py.code c < 128)%N) (list_ascii_of_string s).

(** A column the [.str] accessor is granted on and whose text the methods
    [strip], [upper] and [title] are followed on: it holds at least one text
    (such a column is an object column; on a column of numbers, of dates or
    of missing values only, pandas refuses the accessor with an
    [AttributeError]), and its texts are of the 7-bit range. *)
Definition is_text (v : value) : bool :=
  match v with Str _ => true | _ => false end.

Definition ascii_cell (v : value) : bool :=
  match v with
  | Str s => forallb (fun c => (Py.code c <? 128)%N) (list_ascii_of_string s)
  | _ => true
  end.

Definition text_column (df : DataFrame) (c : string) : bool :=
  existsb is_text (Pd.col df c) && forallb ascii_cell (Pd.col df c).

(** A plain date, [YYYY-MM-DD]. *)
Definition iso_date (s : string) : bool :=
  match list_ascii_of_string s with
  | [y1; y2; y3; y4; h1; m1; m2; h2; d1; d2] =>
      forallb Py.isdigit [y1; y2; y3; y4; m1; m2; d1; d2]
      && Ascii.eqb h1 "-" && Ascii.eqb h2 "-"
  | _ => false
  end.

(** A cell pandas reads as a date without a time zone, or as no date: a
    timestamp, a missing value, or 7-bit text that is a plain date or has
    no digit (text with no time of day carries no UTC offset). *)
Definition naive_date (v : value) : bool :=
  match v with
  | Str s =>
      ascii_cell v
      && (iso_date s || negb (existsb Py.isdigit (list_ascii_of_string s)))
  | Timestamp _ | NaN | PyNone => true
  | Int _ | Bool _ => false
  end.

(** The column a cleaning call handles through the [.str] accessor, when
    the set has it. *)
Definition name_column (ds : dataset) (df : DataFrame) : option string :=
  match ds with
  | medications =>
      if Pd.has_column df "medication_name" then Some "medication_name"
      else None
  | staff =>
      if Pd.has_column df "staff_name" then Some "staff_name"
      else if Pd.has_column df "name" then Some "name" else None
  | patients | visits | diagnoses => None
  end.

(** A lower-case letter, a digit or an underscore; a name made of them. *)
Definition snake_char (c : ascii) : bool :=
  Py.islower c || Py.isdigit c || Ascii.eqb c "_".

Definition snake_name (s : string) : bool :=
  forallb snake_char (list_ascii_of_string s).

(** A word: letters and digits, at least one. *)
Definition word (s : string) : bool :=
  negb (Py.is_empty s) && forallb Py.isalnum (list_ascii_of_string s).

Definition starts_upper (s : string) : bool :=
  match s with
  | String c _ => Py.isupper c
  | EmptyString => false
  end.

(** Headers as a raw file may have them. *)
Definition sample_raw_patients : DataFrame :=
  Sample.frame ["Patient ID"; "dateOfBirth"; "gender"]
    [[Str "P1"; Str "1980-05-01"; Str "F"]].

(** ** Ages as a numeric Series *)

(** A cell of a numeric column, as a float: a number, or NaN. *)
Definition numeric (v : value) : option Q :=
  match v with
  | Int z => Some (inject_Z z)
  | _ => None
  end.

(** The label of a whole age under [AGE_GROUPS], read off the bins. *)
Definition age_label (z : Z) : string :=
  if z <? 0 then "unknown"
  else if z <=? 18 then "0-18"
  else if z <=? 35 then "19-35"
  else if z <=? 60 then "36-60"
  else if z <=? 150 then "60+"
  else "unknown".

(** ** A data directory, for concrete runs *)

(** A directory with a patients file, a visits file that has a header and
    no row, and nothing else. *)
Definition sample_read_csv (filename : string) : option DataFrame :=
  if String.eqb filename "patients.csv" then Some sample_raw_patients
  else if String.eqb filename "visits.csv"
       then Some (Sample.frame ["visit_id"; "patient_id"] [])
       else None.

(* ================================================================= *)
(** * Theorems *)

(** ** The ICD-10 validator *)

Lemma class_upper (c : ascii) :
  existsb (Re.in_char_range c) [Re.Range "A" "Z"] = Py.isupper c.
Proof. cbn. apply orb_false_r. Qed.

Lemma class_digit (c : ascii) :
  existsb (Re.in_char_range c) [Re.Range "0" "9"] = Py.isdigit c.
Proof. cbn. apply orb_false_r. Qed.

Lemma class_alnum_upper (c : ascii) :
  existsb (Re.in_char_range c) [Re.Range "0" "9"; Re.Range "A" "Z"]
  = alnum_upper c.
Proof. cbn. rewrite orb_false_r. reflexivity. Qed.

(** Case analysis on the character tests of a goal: a test on a variable is
    split, a test on a known character is computed. *)
Ltac split_test t c :=
  tryif is_var c
  then (let E := fresh "E" in destruct t eqn:E)
  else (let v := eval vm_compute in t in change t with v).

Ltac char_tests :=
  repeat (cbn -[Py.isupper Py.isdigit alnum_upper Ascii.eqb];
          match goal with
          | |- context [Py.isupper ?c] => split_test (Py.isupper c) c
          | |- context [Py.isdigit ?c] => split_test (Py.isdigit c) c
          | |- context [alnum_upper ?c] => split_test (alnum_upper c) c
          | |- context [Ascii.eqb "." ?c] => split_test (Ascii.eqb "." c) c
          end);
  cbn -[Py.isupper Py.isdigit alnum_upper Ascii.eqb]; try reflexivity.

Ltac last_char c :=
  let E := fresh "E" in
  destruct (Ascii.eqb c "010") eqn:E;
  [apply Ascii.eqb_eq in E; subst c | ];
  char_tests.

Lemma matches_icd10_shape (s : string) :
  Re.matches ICD10_PATTERN s = icd10_shape (chomp s).
Proof.
  unfold Re.matches, ICD10_PATTERN, icd10_shape.
  cbn -[existsb chomp Ascii.eqb].
  destruct s as [|c1 [|c2 [|c3 [|c4 [|c5 [|c6 [|c7 [|c8 [|c9 [|c10 s]]]]]]]]]];
    cbn -[existsb Ascii.eqb Py.isupper Py.isdigit alnum_upper];
    rewrite ?class_upper, ?class_digit, ?class_alnum_upper.
  - reflexivity.
  - last_char c1.
  - last_char c2.
  - last_char c3.
  - last_char c4.
  - last_char c5.
  - last_char c6.
  - last_char c7.
  - last_char c8.
  - last_char c9.
  - char_tests.
Qed.

(** C6, as worded (the validator matching the upper-cased, trimmed code),
    fails on the code: [validate_icd10_code] matches its argument exactly as
    it receives it, so ["e11.9"] is rejected although its upper-cased,
    trimmed form ["E11.9"] matches the pattern. *)
Lemma validate_icd10_code_keeps_case :
  ~ (forall code : string,
        Utils.validate_icd10_code Sample.str_of_timestamp (Str code) ICD10_PATTERN
        = Re.matches ICD10_PATTERN (Py.upper (Py.strip code))).
Proof.
  intros H. specialize (H "e11.9"). vm_compute in H. discriminate H.
Qed.

(** C6, amended: the ICD-10 validator is a pure predicate that matches the
    pattern against the code exactly as given (no upper-casing, no trimming;
    under Python's [$] one final newline is tolerated), returns false for a
    missing code, [NaN] or [None], and gives "E11.9" -> true,
    "11.9" -> false, "A00" -> true. *)
Theorem validate_icd10_code_spec (str_of_timestamp : Z -> string) :
  (forall code : string,
      Utils.validate_icd10_code str_of_timestamp (Str code) ICD10_PATTERN
      = icd10_shape (chomp code))
  /\ Utils.validate_icd10_code str_of_timestamp NaN ICD10_PATTERN = false
  /\ Utils.validate_icd10_code str_of_timestamp PyNone ICD10_PATTERN = false
  /\ Utils.validate_icd10_code str_of_timestamp (Str "E11.9") ICD10_PATTERN = true
  /\ Utils.validate_icd10_code str_of_timestamp (Str "11.9") ICD10_PATTERN = false
  /\ Utils.validate_icd10_code str_of_timestamp (Str "A00") ICD10_PATTERN = true.
Proof.
  split; [|repeat split; reflexivity].
  intros code. unfold Utils.validate_icd10_code. cbn [Pd.isna Pd.str].
  apply matches_icd10_shape.
Qed.

(** ** Gender standardization *)

(** C5: the lookup is case-sensitive.  The table lists the casings "M", "m",
    "male" and "MALE", which all give "Male"; the casings "Male" and "mALE"
    are not in it and give "Unknown", as do "Female" and a missing value. *)
Theorem gender_lookup_misses_title_case :
  forall clk_dob clk_age : Z,
    DataCleaner.clean_patients_data Sample.parse_datetime clk_dob clk_age
      DataCleaner.init
      (Sample.frame ["gender"]
         [[Str "M"]; [Str "m"]; [Str "male"]; [Str "MALE"];
          [Str "Male"]; [Str "mALE"]; [Str "Female"]; [NaN]])
    = Ok (Sample.frame ["gender"]
            [[Str "Male"]; [Str "Male"]; [Str "Male"]; [Str "Male"];
             [Str "Unknown"]; [Str "Unknown"]; [Str "Unknown"]; [Str "Unknown"]],
          {| DataCleaner.cleaning_report :=
               [ {| DataCleaner.dataset := "patients";
                    DataCleaner.initial_rows := 8;
                    DataCleaner.final_rows := 8;
                    DataCleaner.removed_rows := 0 |} ] |}).
Proof. intros. vm_compute. reflexivity. Qed.

(** ** The validation report *)

Lemma report_result_no_checks (rs : list DataValidator.results)
      (lines : list string) (total passed : Z) :
  Forall (fun r => DataValidator.checks r = []) rs ->
  exists lines',
    fold_left DataValidator.report_result rs (lines, total, passed)
    = (lines', total, passed).
Proof.
  intros Hrs. revert lines.
  induction Hrs as [|r rs Hr _ IH]; intros lines; cbn [fold_left].
  - exists lines. reflexivity.
  - unfold DataValidator.report_result at 2. rewrite Hr. cbn [fold_left].
    apply IH.
Qed.

(** Whenever no check was accumulated, the summary line divides by zero. *)
Lemma generate_validation_report_raises (format_1f : Q -> string)
      (self : DataValidator.t) :
  Forall (fun r => DataValidator.checks r = [])
         (DataValidator.validation_results self) ->
  DataValidator.generate_validation_report format_1f self
  = Raise ZeroDivisionError.
Proof.
  intros Hrs. unfold DataValidator.generate_validation_report.
  destruct (report_result_no_checks _
              (DataValidator.append
                 (DataValidator.append
                    (DataValidator.append
                       (DataValidator.append [] (DataValidator.banner "="))
                       "DATA VALIDATION REPORT")
                    (DataValidator.banner "=")) "") 0 0 Hrs) as [lines' ->].
  reflexivity.
Qed.

(** C2: on a validator that has accumulated no check (a fresh one, or one
    whose only result is a referential-integrity group skipped for want of a
    [patient_id] column), [generate_validation_report] raises
    [ZeroDivisionError]: the summary line is neither omitted nor replaced. *)
Theorem generate_validation_report_zero_checks (format_1f : Q -> string) :
  DataValidator.generate_validation_report format_1f DataValidator.init
  = Raise ZeroDivisionError
  /\ DataValidator.generate_validation_report format_1f
       (snd (DataValidator.validate_referential_integrity DataValidator.init
               (Sample.frame ["name"] [[Str "Ann"]])
               (Sample.frame ["visit_id"; "patient_id"] [[Str "V1"; Str "P1"]])))
     = Raise ZeroDivisionError.
Proof.
  split; apply generate_validation_report_raises.
  - constructor.
  - vm_compute. repeat constructor.
Qed.

(** With at least one check the report is produced; here for one failed
    check. *)
Lemma generate_validation_report_run :
  DataValidator.generate_validation_report Sample.format_1f
    {| DataValidator.validation_results :=
         [ {| DataValidator.dataset := "referential_integrity";
              DataValidator.checks :=
                [ {| DataValidator.test := "visits_patient_id_exists";
                     DataValidator.passed := false;
                     DataValidator.message :=
                       "found 1 orphaned patient ids in visits" |} ] |} ] |}
  = Ok (Py.join (String Re.newline "")
          [ DataValidator.banner "="; "DATA VALIDATION REPORT";
            DataValidator.banner "="; "";
            String Re.newline "Dataset: referential_integrity";
            DataValidator.banner "-";
            "✗ FAIL | visits_patient_id_exists";
            "       found 1 orphaned patient ids in visits"; "";
            DataValidator.banner "=";
            "SUMMARY: 0/1 checks passed (0.0%)";
            DataValidator.banner "=" ]).
Proof. vm_compute. reflexivity. Qed.

(** ** Referential integrity *)

Lemma all_isin (s values : list value) :
  Pd.all (Pd.isin s values) = true <-> (forall v, v ∈ s -> v ∈ values).
Proof.
  unfold Pd.all, Pd.isin. rewrite forallb_forall. split.
  - intros H v Hv. apply list_elem_of_In in Hv.
    specialize (H (bool_decide (v ∈ values))).
    apply (bool_decide_eq_true_1 _). apply H. apply in_map_iff. eauto.
  - intros H b Hb. apply in_map_iff in Hb as (v & <- & Hv).
    apply bool_decide_eq_true_2. apply H. apply list_elem_of_In. exact Hv.
Qed.

Lemma sum_not_isin (s values : list value) :
  Pd.sum (Pd.mask_not (Pd.isin s values))
  = Z.of_nat (length (filter (fun v => v ∉ values) s)).
Proof.
  unfold Pd.sum, Pd.mask_not, Pd.isin. f_equal.
  induction s as [|v s IH]; [reflexivity|].
  cbn [map List.filter]. rewrite filter_cons.
  destruct (decide (v ∉ values)) as [Hn|Hn].
  - rewrite bool_decide_eq_false_2 by exact Hn. cbn. f_equal. exact IH.
  - rewrite bool_decide_eq_true_2 by (destruct (decide (v ∈ values)); tauto).
    cbn. exact IH.
Qed.

(** C7: when both sets have a [patient_id] column, the referential-integrity
    group holds exactly one check; it passes if and only if every
    [patient_id] of the visits occurs in the patients' [patient_id] column,
    and when it fails its message gives the number of visits rows whose
    [patient_id] does not occur there.  With patients P1, P2 and visits
    (V1,P1), (V2,P3) the check fails and reports 1 orphaned row. *)
Theorem referential_integrity_check :
  (forall (self : DataValidator.t) (patients_df visits_df : DataFrame),
      Pd.has_column patients_df "patient_id" = true ->
      Pd.has_column visits_df "patient_id" = true ->
      exists c,
        DataValidator.checks
          (fst (DataValidator.validate_referential_integrity
                  self patients_df visits_df)) = [c]
        /\ DataValidator.test c = "visits_patient_id_exists"
        /\ (DataValidator.passed c = true <->
            forall v, v ∈ Pd.col visits_df "patient_id" ->
                      v ∈ Pd.col patients_df "patient_id")
        /\ (DataValidator.passed c = false ->
            DataValidator.message c
            = "found "
              ++ Py.str_of_Z
                   (Z.of_nat
                      (length
                         (filter (fun v => v ∉ Pd.col patients_df "patient_id")
                                 (Pd.col visits_df "patient_id"))))
              ++ " orphaned patient ids in visits"))
  /\ DataValidator.checks
       (fst (DataValidator.validate_referential_integrity DataValidator.init
               (Sample.frame ["patient_id"] [[Str "P1"]; [Str "P2"]])
               (Sample.frame ["visit_id"; "patient_id"]
                  [[Str "V1"; Str "P1"]; [Str "V2"; Str "P3"]])))
     = [ {| DataValidator.test := "visits_patient_id_exists";
            DataValidator.passed := false;
            DataValidator.message := "found 1 orphaned patient ids in visits" |} ].
Proof.
  split; [|vm_compute; reflexivity].
  intros self patients_df visits_df Hp Hv.
  unfold DataValidator.validate_referential_integrity. rewrite Hp, Hv.
  cbn [andb fst DataValidator.checks].
  eexists. split; [reflexivity|].
  cbn [DataValidator.test DataValidator.passed DataValidator.message].
  split; [reflexivity|]. split; [apply all_isin|].
  intros ->. rewrite sum_not_isin. reflexivity.
Qed.

Lemma referential_integrity_check_witness :
  Pd.has_column (Sample.frame ["patient_id"] [[Str "P1"]; [Str "P2"]])
                "patient_id" = true
  /\ Pd.has_column (Sample.frame ["visit_id"; "patient_id"]
                      [[Str "V1"; Str "P1"]; [Str "V2"; Str "P3"]])
                   "patient_id" = true
  /\ exists c,
      DataValidator.checks
        (fst (DataValidator.validate_referential_integrity DataValidator.init
                (Sample.frame ["patient_id"] [[Str "P1"]; [Str "P2"]])
                (Sample.frame ["visit_id"; "patient_id"]
                   [[Str "V1"; Str "P1"]; [Str "V2"; Str "P3"]]))) = [c]
      /\ DataValidator.test c = "visits_patient_id_exists"
      /\ (DataValidator.passed c = true <->
          forall v,
            v ∈ Pd.col (Sample.frame ["visit_id"; "patient_id"]
                          [[Str "V1"; Str "P1"]; [Str "V2"; Str "P3"]])
                       "patient_id" ->
            v ∈ Pd.col (Sample.frame ["patient_id"] [[Str "P1"]; [Str "P2"]])
                       "patient_id")
      /\ (DataValidator.passed c = false ->
          DataValidator.message c
          = "found "
            ++ Py.str_of_Z
                 (Z.of_nat
                    (length
                       (filter
                          (fun v =>
                             v ∉ Pd.col (Sample.frame ["patient_id"]
                                           [[Str "P1"]; [Str "P2"]])
                                        "patient_id")
                          (Pd.col (Sample.frame ["visit_id"; "patient_id"]
                                     [[Str "V1"; Str "P1"]; [Str "V2"; Str "P3"]])
                                  "patient_id"))))
            ++ " orphaned patient ids in visits").
Proof.
  split; [reflexivity|]. split; [reflexivity|].
  apply (proj1 referential_integrity_check); reflexivity.
Defined.

(** ** Outlier detection *)

Lemma zip_with_map_diag {A B C D : Type} (f : B -> C -> D) (g : A -> B)
      (h : A -> C) (l : list A) :
  zip_with f (map g l) (map h l) = map (fun x => f (g x) (h x)) l.
Proof. induction l as [|x l IH]; [reflexivity|]. cbn. rewrite IH. reflexivity. Qed.


Lemma Qltb_lt (a b : Q) : Utils.Qltb a b = true <-> (a < b)%Q.
Proof.
  unfold Utils.Qltb. rewrite negb_true_iff. split.
  - intros H. apply Qnot_le_lt. intros Hle.
    apply Qle_bool_iff in Hle. congruence.
  - intros H. destruct (Qle_bool b a) eqn:E; [|reflexivity].
    apply Qle_bool_iff in E. exfalso. exact (Qlt_not_le _ _ H E).
Qed.

Lemma float_lt_spec (A : Float.arithmetic) (a b : option (Float.num A)) :
  Utils.float_lt A a b = true <->
  exists x y, a = Some x /\ b = Some y /\ Float.ltb A x y = true.
Proof.
  destruct a as [x|], b as [y|]; cbn.
  - split; [eauto|]. intros (? & ? & [= <-] & [= <-] & H). exact H.
  - split; [discriminate|]. intros (? & ? & _ & [=] & _).
  - split; [discriminate|]. intros (? & ? & [=] & _).
  - split; [discriminate|]. intros (? & ? & [=] & _).
Qed.

(** [sort_values] puts the sample in ascending order without changing its
    members, so [quantile] reads order statistics. *)
Lemma insert_sorted_perm (A : Float.arithmetic) (x : Float.num A)
      (l : list (Float.num A)) :
  Permutation (x :: l) (Utils.insert_sorted A x l).
Proof.
  induction l as [|y l IH]; [reflexivity|].
  cbn. destruct (Float.ltb A y x); [|reflexivity].
  rewrite perm_swap. apply perm_skip. exact IH.
Qed.

Lemma sort_values_perm (A : Float.arithmetic) (l : list (Float.num A)) :
  Permutation l (Utils.sort_values A l).
Proof.
  induction l as [|x l IH]; [reflexivity|].
  cbn. rewrite <- insert_sorted_perm. apply perm_skip. exact IH.
Qed.

Lemma insert_sorted_sorted (A : Float.arithmetic) (x : Float.num A)
      (l : list (Float.num A)) :
  Float.asymmetric A ->
  Sorted (Float.not_after A) l ->
  Sorted (Float.not_after A) (Utils.insert_sorted A x l).
Proof.
  intros Hasym. induction l as [|y l IH]; intros Hs; cbn.
  - repeat constructor.
  - destruct (Float.ltb A y x) eqn:E.
    + apply Sorted_inv in Hs as [Hs Hd]. constructor; [apply IH; exact Hs|].
      destruct l as [|z l]; cbn.
      * constructor. apply Hasym. exact E.
      * destruct (Float.ltb A z x); constructor.
        -- apply HdRel_inv in Hd. exact Hd.
        -- apply Hasym. exact E.
    + constructor; [exact Hs|]. constructor. exact E.
Qed.

Lemma sort_values_sorted (A : Float.arithmetic) (l : list (Float.num A)) :
  Float.asymmetric A -> Sorted (Float.not_after A) (Utils.sort_values A l).
Proof.
  intros Hasym. induction l as [|x l IH]; [constructor|].
  cbn. apply insert_sorted_sorted; [exact Hasym|exact IH].
Qed.

(** The order of the rationals and the order of binary64 are asymmetric. *)
Lemma exact_asymmetric : Float.asymmetric Float.exact.
Proof.
  intros x y H. apply Qltb_lt in H. apply not_true_is_false. intros H'.
  apply Qltb_lt in H'. exact (Qlt_irrefl _ (Qlt_trans _ _ _ H H')).
Qed.

Lemma SFltb_asym (x y : SpecFloat.spec_float) :
  SpecFloat.SFltb x y = true -> SpecFloat.SFltb y x = false.
Proof.
  unfold SpecFloat.SFltb, SpecFloat.SFcompare.
  destruct x as [sx|sx| |sx mx ex], y as [sy|sy| |sy my ey];
    try (destruct sx); try (destruct sy); try discriminate; try reflexivity.
  all: rewrite (Z.compare_antisym ey ex);
    change (Pos.compare_cont Eq mx my) with (mx ?= my)%positive;
    change (Pos.compare_cont Eq my mx) with (my ?= mx)%positive;
    rewrite (Pos.compare_antisym my mx);
    destruct (ey ?= ex)%Z; cbn; try discriminate; try reflexivity;
    destruct (my ?= mx)%positive; cbn; try discriminate; reflexivity.
Qed.

Lemma binary64_asymmetric : Float.asymmetric Float.binary64.
Proof.
  intros x y. cbn. rewrite !FloatAxioms.ltb_spec. apply SFltb_asym.
Qed.

Lemma sort_values_ascending (l : list Q) :
  Sorted Qle (Utils.sort_values Float.exact l).
Proof.
  pose proof (sort_values_sorted Float.exact l exact_asymmetric) as Hs.
  induction Hs as [|a s Hs IH Hd]; constructor; [exact IH|].
  destruct Hd as [|b s Hab]; constructor.
  apply Qnot_lt_le. intros H. apply Qltb_lt in H.
  unfold Float.not_after in Hab. cbn in Hab. unfold Utils.Qltb in H.
  congruence.
Qed.

(** The position [(n - 1) * p / 4] of a quartile: its whole part and its
    fractional part, by integer division. *)
Lemma quartile_position (a p : Z) :
  Qfloor (inject_Z a * (p # 4)) = a * p / 4
  /\ (inject_Z a * (p # 4) - inject_Z (Qfloor (inject_Z a * (p # 4))))%Q
     = ((a * p) mod 4) # 4.
Proof.
  assert (E : Qfloor (inject_Z a * (p # 4)) = a * p / 4) by reflexivity.
  split; [exact E|]. rewrite E.
  unfold Qminus, Qplus, Qopp, Qmult, inject_Z. cbn [Qnum Qden].
  f_equal. rewrite Z.mod_eq by lia. lia.
Qed.

(** Over the rationals both branches of [lerp] are the linear
    interpolation. *)
Lemma lerp_exact (a b t : Q) :
  (Utils.lerp Float.exact a b t == a + (b - a) * t)%Q.
Proof.
  unfold Utils.lerp. cbn. destruct (Qle_bool (1 # 2) t); ring.
Qed.

Lemma outlier_mask (A : Float.arithmetic) (series : list (option (Float.num A)))
      (multiplier : Float.num A) :
  Utils.detect_outliers_iqr A series multiplier
  = map (fun x =>
           Utils.float_lt A x
             (q1 ← Utils.quantile A series (1 # 4);
              q3 ← Utils.quantile A series (3 # 4);
              Some (Float.sub A q1
                      (Float.mul A multiplier (Float.sub A q3 q1))))
           || Utils.float_lt A
                (q1 ← Utils.quantile A series (1 # 4);
                 q3 ← Utils.quantile A series (3 # 4);
                 Some (Float.add A q3
                         (Float.mul A multiplier (Float.sub A q3 q1))))
                x)
        series.
Proof.
  unfold Utils.detect_outliers_iqr, Pd.mask_or. cbv zeta.
  rewrite zip_with_map_diag.
  destruct (Utils.quantile A series (1 # 4)) as [q1|],
           (Utils.quantile A series (3 # 4)) as [q3|]; reflexivity.
Qed.

Lemma quantile_quartile (A : Float.arithmetic)
      (series : list (option (Float.num A))) (p : Z) :
  Utils.quantile A series (p # 4)
  = match Utils.sort_values A (omap id series) with
    | [] => None
    | x0 :: _ =>
        let sorted := Utils.sort_values A (omap id series) in
        let n := Z.of_nat (length sorted) in
        let k := (n - 1) * p / 4 in
        Some (Utils.lerp A (nth (Z.to_nat k) sorted x0)
                (nth (Z.to_nat (Z.min (k + 1) (n - 1))) sorted x0)
                (((n - 1) * p) mod 4 # 4))
    end.
Proof.
  unfold Utils.quantile. cbv zeta.
  destruct (Utils.sort_values A (omap id series)) as [|x0 s]; [reflexivity|].
  destruct (quartile_position (Z.of_nat (length (x0 :: s)) - 1) p) as [E1 E2].
  rewrite E2, E1. reflexivity.
Qed.

(** C8: [detect_outliers_iqr] on floats.  The quartiles are read off the
    present values in ascending order: with [n] values, Q1 and Q3 are the
    linear interpolations ([lerp], in real numbers [a + (b - a) * t]) of the
    two neighbours at the positions [(n - 1) / 4] and [3 (n - 1) / 4], whose
    fractional parts are the remainders over 4.  The mask flags a value
    exactly when it is present and strictly below
    [Q1 - multiplier * (Q3 - Q1)] or strictly above
    [Q3 + multiplier * (Q3 - Q1)]; a series with no present value has no
    quartile and no flag.  In binary64: on [1,2,2,3,3,3,4,4,100] with
    multiplier 1.5 only 100 is flagged; on [6.5, 1, NaN, 3, 2] the
    quartiles are 1.75 and 3.875, and 6.5 is flagged with multiplier 0.5
    but not with 1.5; and with multiplier 0.07 and quartiles 0 and 100 the
    lower bound is [- (0.07 * 100.0)], which is -7.000000000000001, so that
    this value is not flagged. *)
Theorem detect_outliers_iqr_spec :
  (forall A : Float.arithmetic,
      Float.asymmetric A ->
      forall (series : list (option (Float.num A)))
             (multiplier : Float.num A),
        let sorted := Utils.sort_values A (omap id series) in
        let n := Z.of_nat (length (omap id series)) in
        Permutation (omap id series) sorted
        /\ Sorted (Float.not_after A) sorted
        /\ match sorted with
           | [] =>
               Utils.quantile A series (1 # 4) = None
               /\ Utils.quantile A series (3 # 4) = None
               /\ Utils.detect_outliers_iqr A series multiplier
                  = map (fun _ => false) series
           | x0 :: _ =>
               let quartile (p : Z) :=
                 let k := (n - 1) * p / 4 in
                 Utils.lerp A (nth (Z.to_nat k) sorted x0)
                   (nth (Z.to_nat (Z.min (k + 1) (n - 1))) sorted x0)
                   (((n - 1) * p) mod 4 # 4) in
               let q1 := quartile 1 in
               let q3 := quartile 3 in
               let iqr := Float.sub A q3 q1 in
               let lower_bound := Float.sub A q1 (Float.mul A multiplier iqr) in
               let upper_bound := Float.add A q3 (Float.mul A multiplier iqr) in
               Utils.quantile A series (1 # 4) = Some q1
               /\ Utils.quantile A series (3 # 4) = Some q3
               /\ Utils.detect_outliers_iqr A series multiplier
                  = map (fun x =>
                           match x with
                           | Some v => Float.ltb A v lower_bound
                                       || Float.ltb A upper_bound v
                           | None => false
                           end) series
           end)
  /\ (forall a b t : Q, (Utils.lerp Float.exact a b t == a + (b - a) * t)%Q)
  /\ Utils.detect_outliers_iqr Float.binary64
       (Float.series_of (map Float.of_Z [1; 2; 2; 3; 3; 3; 4; 4; 100]))
       (Float.of_Q Float.binary64 (3 # 2))
     = [false; false; false; false; false; false; false; false; true]
  /\ (let series :=
        Float.series_of
          [Float.of_Q Float.binary64 (13 # 2); Float.of_Z 1; PrimFloat.nan;
           Float.of_Z 3; Float.of_Z 2] in
      Utils.quantile Float.binary64 series (1 # 4)
      = Some (Float.of_Q Float.binary64 (7 # 4))
      /\ Utils.quantile Float.binary64 series (3 # 4)
         = Some (Float.of_Q Float.binary64 (31 # 8))
      /\ Utils.detect_outliers_iqr Float.binary64 series
           (Float.of_Q Float.binary64 (1 # 2))
         = [true; false; false; false; false]
      /\ Utils.detect_outliers_iqr Float.binary64 series
           (Float.of_Q Float.binary64 (3 # 2))
         = [false; false; false; false; false])
  /\ (let multiplier := Float.of_Q Float.binary64 (7 # 100) in
      let x := PrimFloat.opp (PrimFloat.mul multiplier (Float.of_Z 100)) in
      x = Float.of_Q Float.binary64 (-7000000000000001 # 1000000000000000)
      /\ Utils.detect_outliers_iqr Float.binary64
           (Float.series_of
              [Float.of_Z 100; x; Float.of_Z 0; Float.of_Z 100; Float.of_Z 50;
               Float.of_Z 0; Float.of_Z 100; Float.of_Z 0; Float.of_Z 100])
           multiplier
         = [false; false; false; false; false; false; false; false; false]).
Proof.
  split; [|split; [exact lerp_exact|repeat split; vm_compute; reflexivity]].
  intros A Hasym series multiplier. cbv zeta.
  pose proof (sort_values_perm A (omap id series)) as Hp.
  split; [exact Hp|]. split; [apply sort_values_sorted; exact Hasym|].
  rewrite outlier_mask, !quantile_quartile.
  rewrite (Permutation_length Hp).
  destruct (Utils.sort_values A (omap id series)) as [|x0 s].
  - split; [reflexivity|]. split; [reflexivity|].
    apply map_ext. intros [v|]; reflexivity.
  - cbv zeta. split; [reflexivity|]. split; [reflexivity|].
    apply map_ext. intros [v|]; reflexivity.
Qed.

Lemma detect_outliers_iqr_spec_witness :
  Float.asymmetric Float.binary64
  /\ Permutation
       (omap id (Float.series_of
                   [Float.of_Z 100; PrimFloat.nan; Float.of_Z 1; Float.of_Z 2]))
       (Utils.sort_values Float.binary64
          (omap id (Float.series_of
                      [Float.of_Z 100; PrimFloat.nan; Float.of_Z 1;
                       Float.of_Z 2])))
  /\ Utils.sort_values Float.binary64
       (omap id (Float.series_of
                   [Float.of_Z 100; PrimFloat.nan; Float.of_Z 1; Float.of_Z 2]))
     = [Float.of_Z 1; Float.of_Z 2; Float.of_Z 100].
Proof.
  split; [exact binary64_asymmetric|].
  split; [|vm_compute; reflexivity].
  exact (proj1 (proj1 detect_outliers_iqr_spec Float.binary64
                  binary64_asymmetric
                  (Float.series_of
                     [Float.of_Z 100; PrimFloat.nan; Float.of_Z 1;
                      Float.of_Z 2])
                  (Float.of_Q Float.binary64 (3 # 2)))).
Defined.

(** ** Frames, row by row *)

Lemma frame_eta (df : DataFrame) : df = mkFrame (columns df) (rows df).
Proof. destruct df; reflexivity. Qed.

Lemma has_column_mk (cols : list string) (l : list (gmap string value))
      (c : string) :
  Pd.has_column (mkFrame cols l) c = bool_decide (c ∈ cols).
Proof. reflexivity. Qed.

Lemma elem_of_add_column (c c' : string) (cols : list string) :
  c' ∈ add_column c cols <-> c' ∈ cols \/ c' = c.
Proof.
  unfold add_column. case_bool_decide as Hc.
  - split; [auto|]. intros [H| ->]; assumption.
  - rewrite elem_of_app, list_elem_of_singleton. reflexivity.
Qed.

Lemma has_add_column_ne (c c' : string) (cols : list string) :
  c' <> c ->
  bool_decide (c' ∈ add_column c cols) = bool_decide (c' ∈ cols).
Proof.
  intros Hne. apply bool_decide_ext. rewrite elem_of_add_column. tauto.
Qed.

Lemma has_add_column_eq (c : string) (cols : list string) :
  bool_decide (c ∈ add_column c cols) = true.
Proof. apply bool_decide_eq_true_2. apply elem_of_add_column. auto. Qed.

Lemma add_column_present (c : string) (cols : list string) :
  bool_decide (c ∈ cols) = true -> add_column c cols = cols.
Proof. intros H. unfold add_column. rewrite H. reflexivity. Qed.

Lemma keep_map_filter {A : Type} (p : A -> bool) (l : list A) :
  Pd.keep l (map p l) = List.filter p l.
Proof.
  induction l as [|x l IH]; [reflexivity|].
  cbn. rewrite IH. reflexivity.
Qed.

Lemma zip_with_map_r {A B C : Type} (f : A -> B -> C) (g : A -> B) (l : list A) :
  zip_with f l (map g l) = map (fun x => f x (g x)) l.
Proof. induction l as [|x l IH]; [reflexivity|]. cbn. rewrite IH. reflexivity. Qed.

(** [df[c] = series], the series computed row by row. *)
Lemma assign_rowwise (cols : list string) (l : list (gmap string value))
      (c : string) (f : gmap string value -> value) :
  Pd.assign (mkFrame cols l) c (map f l)
  = mkFrame (add_column c cols) (map (fun r => <[c := f r]> r) l).
Proof.
  unfold Pd.assign, add_column, Pd.has_column. cbn [columns rows].
  rewrite zip_with_map_r. reflexivity.
Qed.

(** [df[mask]], the mask computed row by row. *)
Lemma select_rowwise (cols : list string) (l : list (gmap string value))
      (p : gmap string value -> bool) :
  Pd.select (mkFrame cols l) (map p l) = mkFrame cols (List.filter p l).
Proof. unfold Pd.select. cbn [columns rows]. rewrite keep_map_filter. reflexivity. Qed.

Lemma keep_not_duplicated (key : gmap string value -> list value)
      (seen : list (list value)) (l : list (gmap string value)) :
  Pd.keep l (Pd.mask_not (Pd.duplicated_from seen (map key l)))
  = first_occurrences key seen l.
Proof.
  revert seen. induction l as [|r l IH]; intros seen; [reflexivity|].
  cbn. rewrite IH. destruct (bool_decide (key r ∈ seen)); reflexivity.
Qed.

(** [df[~df.duplicated(subset=subset, keep='first')]] *)
Lemma drop_duplicates_rowwise (cols : list string)
      (l : list (gmap string value)) (subset : list string) :
  Pd.select (mkFrame cols l)
            (Pd.mask_not (Pd.duplicated (mkFrame cols l) subset))
  = mkFrame cols (first_occurrences (Pd.key_of subset) [] l).
Proof.
  unfold Pd.select, Pd.duplicated. cbn [columns rows].
  rewrite keep_not_duplicated. reflexivity.
Qed.

Lemma col_mk (cols : list string) (l : list (gmap string value)) (c : string) :
  Pd.col (mkFrame cols l) c = map (fun r => Pd.cell r c) l.
Proof. reflexivity. Qed.

Lemma len_mk (cols : list string) (l : list (gmap string value)) :
  Pd.len (mkFrame cols l) = Z.of_nat (length l).
Proof. reflexivity. Qed.

Lemma assign_mk (cols : list string) (l : list (gmap string value))
      (c : string) (series : list value) :
  Pd.assign (mkFrame cols l) c series
  = mkFrame (add_column c cols) (zip_with (fun r v => <[c := v]> r) l series).
Proof. reflexivity. Qed.

Lemma dropna_rowwise (cols : list string) (l : list (gmap string value))
      (subset : list string) :
  Pd.dropna (mkFrame cols l) subset
  = mkFrame cols (List.filter (Pd.complete subset) l).
Proof. unfold Pd.dropna. cbn [rows]. apply select_rowwise. Qed.

(** Names the value of the outermost [let] of the goal. *)
Ltac step_let x :=
  match goal with
  | |- context C [let y := ?A in @?B y] =>
      set (x := A);
      let g := context C [B x] in
      change g; cbv beta
  end.

(** Gives a name to the rows of a frame that are not a variable yet. *)
Ltac name_rows :=
  repeat match goal with
    | |- context [mkFrame _ ?L] =>
        tryif is_var L then fail else (let l' := fresh "l" in set (l' := L))
    end.

Ltac unname_rows :=
  repeat match goal with
    | l := _ : list (gmap string value) |- _ => subst l
    end.

(** Series and frame operations on a frame given by its rows, rewritten as
    maps and filters over the rows. *)
Ltac rowwise :=
  name_rows;
  repeat progress
    (unfold Pd.to_datetime, Pd.lt, Pd.lt_scalar, Pd.gt_scalar,
       Pd.le_scalar, Pd.ge_scalar, Pd.mask_not, Pd.mask_and, Pd.mask_or,
       Pd.sub, Pd.rsub_scalar, Pd.dt_days, Pd.div_float, Pd.fillna,
       Pd.map_dict, Pd.str_method, Pd.astype_str;
     cbn [List.filter];
     rewrite ?col_mk, ?has_column_mk;
     repeat (rewrite List.map_map || rewrite zip_with_map_diag);
     rewrite ?has_add_column_ne by discriminate;
     rewrite ?has_add_column_eq;
     repeat match goal with
       | H : bool_decide (_ ∈ _) = _ |- _ => rewrite H
       end;
     cbn [andb orb];
     rewrite ?assign_rowwise, ?select_rowwise, ?drop_duplicates_rowwise,
       ?dropna_rowwise;
     repeat match goal with
       | H : bool_decide (?c ∈ ?cols) = true |- _ =>
           rewrite (add_column_present c cols H)
       end;
     name_rows).

(** One [let] of a pipeline: its value is put in row-wise form and
    substituted. *)
Ltac stage :=
  let x := fresh "x" in
  let E := fresh "E" in
  step_let x;
  eassert (E : x = _)
    by (subst x; cbv zeta; rowwise; unname_rows; reflexivity);
  clearbody x; subst x; name_rows.

(** ** The cleaning calls, row by row *)

Lemma clean_visits_data_frame (parse_datetime : string -> option Z)
      (self : DataCleaner.t) (df : DataFrame) :
  let out :=
    mkFrame (if Pd.has_column df "admission_date"
                && Pd.has_column df "discharge_date"
             then add_column "length_of_stay" (columns df)
             else columns df)
            (Rowwise.visits parse_datetime
               (Pd.has_column df "admission_date")
               (Pd.has_column df "discharge_date")
               (Pd.has_column df "visit_id") (rows df)) in
  DataCleaner.clean_visits_data parse_datetime self df
  = (out, report_of "visits" self df out).
Proof.
  destruct df as [cols l].
  cbv delta [DataCleaner.clean_visits_data Rowwise.visits report_of]; cbv beta.
  rewrite !has_column_mk. cbv beta iota delta [rows columns].
  destruct (bool_decide ("admission_date" ∈ cols)) eqn:Ha,
           (bool_decide ("discharge_date" ∈ cols)) eqn:Hd,
           (bool_decide ("visit_id" ∈ cols)) eqn:Hv.
  all: repeat stage; unname_rows; reflexivity.
Qed.

Lemma clean_diagnoses_data_frame (str_of_timestamp : Z -> string)
      (self : DataCleaner.t) (df : DataFrame) :
  let out :=
    mkFrame (if Pd.has_column df "icd_code"
             then add_column "icd_code_valid" (columns df)
             else columns df)
            (Rowwise.diagnoses str_of_timestamp
               (Pd.has_column df "icd_code")
               (Pd.has_column df "visit_id") (rows df)) in
  DataCleaner.clean_diagnoses_data str_of_timestamp self df
  = (out, report_of "diagnoses" self df out).
Proof.
  destruct df as [cols l].
  cbv delta [DataCleaner.clean_diagnoses_data Rowwise.diagnoses report_of];
    cbv beta.
  rewrite !has_column_mk. cbv beta iota delta [rows columns].
  destruct (bool_decide ("icd_code" ∈ cols)) eqn:Hi,
           (bool_decide ("visit_id" ∈ cols)) eqn:Hv.
  all: repeat stage; unname_rows; reflexivity.
Qed.

Lemma clean_medications_data_frame (self : DataCleaner.t) (df : DataFrame) :
  let out :=
    mkFrame (columns df)
            (Rowwise.medications
               (Pd.has_column df "visit_id")
               (Pd.has_column df "medication_name") (rows df)) in
  DataCleaner.clean_medications_data self df
  = (out, report_of "medications" self df out).
Proof.
  destruct df as [cols l].
  cbv delta [DataCleaner.clean_medications_data Rowwise.medications report_of];
    cbv beta.
  rewrite !has_column_mk. cbv beta iota delta [rows columns].
  destruct (bool_decide ("visit_id" ∈ cols)) eqn:Hv,
           (bool_decide ("medication_name" ∈ cols)) eqn:Hm.
  all: repeat stage; unname_rows; reflexivity.
Qed.

Lemma clean_staff_data_frame (self : DataCleaner.t) (df : DataFrame) :
  let out :=
    mkFrame (columns df)
            (Rowwise.staff
               (Pd.has_column df "staff_name")
               (Pd.has_column df "name")
               (Pd.has_column df "staff_id") (rows df)) in
  DataCleaner.clean_staff_data self df
  = (out, report_of "staff" self df out).
Proof.
  destruct df as [cols l].
  cbv delta [DataCleaner.clean_staff_data Rowwise.staff report_of]; cbv beta.
  rewrite !has_column_mk. cbv beta iota delta [rows columns].
  destruct (bool_decide ("staff_name" ∈ cols)) eqn:Hs,
           (bool_decide ("name" ∈ cols)) eqn:Hn,
           (bool_decide ("staff_id" ∈ cols)) eqn:Hi.
  all: repeat stage; unname_rows; reflexivity.
Qed.

Lemma clean_patients_data_frame (parse_datetime : string -> option Z)
      (now_dob now_age : Z) (self : DataCleaner.t) (df : DataFrame) :
  DataCleaner.clean_patients_data parse_datetime now_dob now_age self df
  = match Rowwise.patients parse_datetime now_dob now_age
            (Pd.has_column df "gender")
            (Pd.has_column df "date_of_birth")
            (Pd.has_column df "patient_id") (rows df) with
    | Ok l' =>
        let out :=
          mkFrame (if Pd.has_column df "date_of_birth"
                   then add_column "age" (columns df) else columns df) l' in
        Ok (out, report_of "patients" self df out)
    | Raise e => Raise e
    end.
Proof.
  destruct df as [cols l].
  cbv delta [DataCleaner.clean_patients_data
               DataCleaner._handle_missing_patient_info
               DataCleaner._standardize_gender
               DataCleaner._clean_date_of_birth
               DataCleaner._remove_duplicate_patients
               report_of]; cbv beta.
  rewrite !has_column_mk. cbv beta iota delta [rows columns].
  destruct (bool_decide ("gender" ∈ cols)) eqn:Hg,
           (bool_decide ("date_of_birth" ∈ cols)) eqn:Hd,
           (bool_decide ("patient_id" ∈ cols)) eqn:Hp.
  all: do 4 stage.
  all: rowwise.
  all: unname_rows.
  all: try match goal with
       | |- context [Utils.calculate_age _ (map _ ?L) None] =>
           match goal with
           | |- context [Rowwise.patients _ ?n1 _ ?hg ?hd _ _] =>
               change L with (Rowwise.patients_dob parse_datetime n1 hg hd l)
           end
       end.
  all: cbv delta [Rowwise.patients]; cbv beta zeta.
  all: try match goal with
       | |- context [Utils.calculate_age ?n ?s None] =>
           destruct (Utils.calculate_age n s None) as [age|e]
       end.
  all: cbn [mbind result_bind]; try reflexivity.
  all: rewrite ?assign_mk; rowwise; unname_rows; reflexivity.
Qed.

(** ** Cells of an updated row *)

Lemma cell_insert_eq (c : string) (v : value) (r : gmap string value) :
  Pd.cell (<[c := v]> r) c = v.
Proof. unfold Pd.cell. rewrite lookup_insert_eq. reflexivity. Qed.

Lemma cell_insert_ne (c c' : string) (v : value) (r : gmap string value) :
  c <> c' -> Pd.cell (<[c := v]> r) c' = Pd.cell r c'.
Proof. intros H. unfold Pd.cell. rewrite lookup_insert_ne by exact H. reflexivity. Qed.

Create Rewrite HintDb cells.
#[local] Hint Rewrite cell_insert_eq : cells.
#[local] Hint Rewrite cell_insert_ne using discriminate : cells.

Ltac cells :=
  unfold Rowwise.parse_cell, Rowwise.set_stay, Rowwise.stay, Rowwise.fill_gender,
    Rowwise.standard_gender, Rowwise.normalize_code, Rowwise.flag_code,
    Rowwise.clean_name in *;
  autorewrite with cells in *.

(** ** Lists: filters that keep everything, first occurrences *)

Lemma filter_all {A : Type} (p : A -> bool) (l : list A) :
  (forall x, In x l -> p x = true) -> List.filter p l = l.
Proof.
  induction l as [|x l IH]; intros H; [reflexivity|].
  cbn. rewrite (H x (or_introl eq_refl)). f_equal. apply IH.
  intros y Hy. apply H. right. exact Hy.
Qed.

Lemma filter_length_le {A : Type} (p : A -> bool) (l : list A) :
  (length (List.filter p l) <= length l)%nat.
Proof.
  induction l as [|x l IH]; [reflexivity|].
  cbn. destruct (p x); cbn; lia.
Qed.

Section FirstOccurrences.
Context {K : Type} `{EqDecision K}.
Variable key : gmap string value -> K.

Lemma first_occurrences_In (seen : list K) (l : list (gmap string value))
      (r : gmap string value) :
  In r (first_occurrences key seen l) -> In r l /\ key r ∉ seen.
Proof.
  revert seen. induction l as [|x l IH]; intros seen; cbn; [tauto|].
  case_bool_decide as Hx.
  - intros Hr. apply IH in Hr as [Hr Hs]. split; [auto|].
    intros Hin. apply Hs. right. exact Hin.
  - intros [<-|Hr]; [auto|].
    apply IH in Hr as [Hr Hs]. split; [auto|].
    intros Hin. apply Hs. right. exact Hin.
Qed.

Lemma first_occurrences_length (seen : list K) (l : list (gmap string value)) :
  (length (first_occurrences key seen l) <= length l)%nat.
Proof.
  revert seen. induction l as [|x l IH]; intros seen; cbn; [lia|].
  case_bool_decide; cbn; specialize (IH (key x :: seen)); lia.
Qed.

Lemma first_occurrences_NoDup (seen : list K) (l : list (gmap string value)) :
  NoDup (map key (first_occurrences key seen l)).
Proof.
  revert seen. induction l as [|x l IH]; intros seen; cbn; [constructor|].
  case_bool_decide as Hx; [apply IH|].
  cbn. constructor; [|apply IH].
  intros Hin. apply list_elem_of_In, in_map_iff in Hin as (r & Hk & Hr).
  apply first_occurrences_In in Hr as [_ Hs]. apply Hs.
  rewrite Hk. left.
Qed.

(** A list without repeated keys is its own list of first occurrences. *)
Lemma first_occurrences_fixed (seen : list K) (l : list (gmap string value)) :
  NoDup (map key l) ->
  (forall r, In r l -> key r ∉ seen) ->
  first_occurrences key seen l = l.
Proof.
  revert seen. induction l as [|x l IH]; intros seen Hnd Hs; [reflexivity|].
  cbn. cbn in Hnd. apply NoDup_cons in Hnd as [Hx Hnd].
  rewrite bool_decide_eq_false_2 by (apply Hs; left; reflexivity).
  f_equal. apply IH; [exact Hnd|].
  intros r Hr Hin. apply elem_of_cons in Hin as [Hk|Hin].
  - apply Hx. rewrite <- Hk. apply list_elem_of_In, in_map. exact Hr.
  - apply (Hs r); [right; exact Hr | exact Hin].
Qed.

(** Every key of the list is still represented. *)
Lemma first_occurrences_covers (seen : list K) (l : list (gmap string value))
      (r : gmap string value) :
  In r l -> key r ∉ seen ->
  exists r', In r' (first_occurrences key seen l) /\ key r' = key r.
Proof.
  revert seen. induction l as [|x l IH]; intros seen; cbn; [tauto|].
  intros [->|Hr] Hs.
  - rewrite bool_decide_eq_false_2 by exact Hs. exists r. cbn. auto.
  - destruct (decide (key r = key x)) as [Hk|Hk].
    + case_bool_decide as Hx.
      * exfalso. apply Hs. rewrite Hk. exact Hx.
      * exists x. cbn. auto.
    + destruct (IH (key x :: seen) Hr) as (r' & Hr' & Hk').
      { intros Hin. apply elem_of_cons in Hin as [?|?]; [auto|auto]. }
      exists r'. split; [|exact Hk'].
      case_bool_decide; [exact Hr'|right; exact Hr'].
Qed.
End FirstOccurrences.

(** A second pass over rows whose keys are distinct, when the pass changes no
    key and its filter accepts every row: nothing is removed. *)
Lemma pass_keeps_all {K : Type} `{EqDecision K}
      (key : gmap string value -> K)
      (G : gmap string value -> gmap string value)
      (l : list (gmap string value)) :
  NoDup (map key l) ->
  (forall r, In r l -> key (G r) = key r) ->
  first_occurrences key [] (map G l) = map G l.
Proof.
  intros Hnd Hk. apply first_occurrences_fixed.
  - rewrite List.map_map. rewrite (map_ext_in _ key _ Hk). exact Hnd.
  - intros r _ Hin. apply elem_of_nil in Hin. exact Hin.
Qed.

(** ** Parsed dates *)

Lemma to_datetime_cell_parsed (parse_datetime : string -> option Z) (v : value) :
  Pd.to_datetime_cell parse_datetime v = NaN
  \/ exists t, Pd.to_datetime_cell parse_datetime v = Timestamp t.
Proof.
  destruct v as [|s|z|t|b|]; cbn; eauto.
  destruct (parse_datetime s); eauto.
Qed.

Lemma to_datetime_cell_idem (parse_datetime : string -> option Z) (v : value) :
  Pd.to_datetime_cell parse_datetime (Pd.to_datetime_cell parse_datetime v)
  = Pd.to_datetime_cell parse_datetime v.
Proof.
  destruct (to_datetime_cell_parsed parse_datetime v) as [->|[t ->]]; reflexivity.
Qed.

(** ** Visits *)

Lemma visits_row (parse_datetime : string -> option Z) (hv : bool)
      (l : list (gmap string value)) (r : gmap string value) :
  In r (Rowwise.visits parse_datetime true true hv l) ->
  exists r0,
    In r0 l
    /\ r = Rowwise.set_stay
             (Rowwise.parse_cell parse_datetime "discharge_date"
                (Rowwise.parse_cell parse_datetime "admission_date" r0))
    /\ Pd.cell r "admission_date"
       = Pd.to_datetime_cell parse_datetime (Pd.cell r0 "admission_date")
    /\ Pd.cell r "discharge_date"
       = Pd.to_datetime_cell parse_datetime (Pd.cell r0 "discharge_date")
    /\ Pd.cell r "length_of_stay"
       = Pd.days_cell (Pd.timedelta (Pd.cell r "discharge_date")
                                    (Pd.cell r "admission_date"))
    /\ Rowwise.dates_in_order r = true
    /\ Rowwise.stay_in_range r = true.
Proof.
  unfold Rowwise.visits. cbn [andb]. intros Hr.
  assert (Hr' : In r (List.filter Rowwise.stay_in_range
                        (map Rowwise.set_stay
                           (List.filter Rowwise.dates_in_order
                              (map (Rowwise.parse_cell parse_datetime "discharge_date")
                                 (map (Rowwise.parse_cell parse_datetime "admission_date")
                                    l)))))).
  { destruct hv; [|exact Hr]. apply first_occurrences_In in Hr. tauto. }
  clear Hr. apply filter_In in Hr' as [Hr Hrange].
  apply in_map_iff in Hr as (r1 & <- & Hr1).
  apply filter_In in Hr1 as [Hr1 Horder].
  apply in_map_iff in Hr1 as (r2 & <- & Hr2).
  apply in_map_iff in Hr2 as (r0 & <- & Hr0).
  exists r0. split; [exact Hr0|]. split; [reflexivity|].
  split; [|split; [|split; [|split]]]; try exact Hrange.
  - cells. reflexivity.
  - cells. reflexivity.
  - cells. reflexivity.
  - revert Horder. unfold Rowwise.dates_in_order. cells. auto.
Qed.

Lemma visits_missing_date_run :
  fst (DataCleaner.clean_visits_data Sample.parse_datetime DataCleaner.init
         (Sample.frame ["visit_id"; "admission_date"; "discharge_date"]
            [[Str "V1"; NaN; Str "2020-01-05"]]))
  = Sample.frame
      ["visit_id"; "admission_date"; "discharge_date"; "length_of_stay"]
      [[Str "V1"; NaN; Timestamp (Sample.at_date "2020-01-05"); NaN]].
Proof. vm_compute. reflexivity. Qed.

(** C4: a visit whose admission date is missing is kept by
    [clean_visits_data], with a missing [length_of_stay]: the returned row
    has no admission date to compare and no stay between 0 and 365.  The
    set returned then fails the date check and the stay check of
    [validate_visits]. *)
Theorem clean_visits_data_keeps_missing_dates :
  fst (DataCleaner.clean_visits_data Sample.parse_datetime DataCleaner.init
         (Sample.frame ["visit_id"; "admission_date"; "discharge_date"]
            [[Str "V1"; NaN; Str "2020-01-05"]]))
  = Sample.frame
      ["visit_id"; "admission_date"; "discharge_date"; "length_of_stay"]
      [[Str "V1"; NaN; Timestamp (Sample.at_date "2020-01-05"); NaN]]
  /\ ~ (forall r,
          r ∈ rows (fst (DataCleaner.clean_visits_data Sample.parse_datetime
                           DataCleaner.init
                           (Sample.frame
                              ["visit_id"; "admission_date"; "discharge_date"]
                              [[Str "V1"; NaN; Str "2020-01-05"]]))) ->
          stay_consistent r)
  /\ map DataValidator.passed
       (DataValidator.checks
          (fst (DataValidator.validate_visits DataValidator.init
                  (fst (DataCleaner.clean_visits_data Sample.parse_datetime
                          DataCleaner.init
                          (Sample.frame
                             ["visit_id"; "admission_date"; "discharge_date"]
                             [[Str "V1"; NaN; Str "2020-01-05"]]))))))
     = [true; false; false].
Proof.
  split; [exact visits_missing_date_run|]. split.
  - rewrite visits_missing_date_run. intros H.
    destruct (H _ (list_elem_of_here _ _)) as (a & d & Ha & _).
    vm_compute in Ha. discriminate Ha.
  - vm_compute. reflexivity.
Qed.

(** What the call does establish: when the [admission_date] and
    [discharge_date] columns are present, every returned row has its
    [length_of_stay] recomputed from its parsed dates (the whole days of
    their difference, missing when a date is missing), and every returned
    row whose two dates are present has [admission_date <= discharge_date]
    and [0 <= length_of_stay <= 365]. *)
Lemma clean_visits_data_stay (parse_datetime : string -> option Z)
        (self : DataCleaner.t) (df : DataFrame) (r : gmap string value) :
  Pd.has_column df "admission_date" = true ->
  Pd.has_column df "discharge_date" = true ->
  r ∈ rows (fst (DataCleaner.clean_visits_data parse_datetime self df)) ->
  Pd.cell r "length_of_stay"
  = Pd.days_cell (Pd.timedelta (Pd.cell r "discharge_date")
                               (Pd.cell r "admission_date"))
  /\ (Pd.cell r "admission_date" <> NaN ->
      Pd.cell r "discharge_date" <> NaN ->
      stay_consistent r).
Proof.
  intros Ha Hd Hr. rewrite clean_visits_data_frame in Hr.
  cbn [fst rows] in Hr. rewrite Ha, Hd in Hr.
  apply list_elem_of_In, visits_row
    in Hr as (r0 & _ & _ & Ea & Ed & El & Horder & Hrange).
  split; [exact El|]. intros Hna Hnd.
  unfold Rowwise.dates_in_order in Horder.
  unfold Rowwise.stay_in_range in Hrange.
  unfold stay_consistent. rewrite El in Hrange |- *.
  destruct (to_datetime_cell_parsed parse_datetime (Pd.cell r0 "admission_date"))
    as [Hx|[x Hx]]; rewrite Hx in Ea; [congruence|].
  destruct (to_datetime_cell_parsed parse_datetime (Pd.cell r0 "discharge_date"))
    as [Hy|[y Hy]]; rewrite Hy in Ed; [congruence|].
  rewrite Ea, Ed in *. cbn in Horder, Hrange |- *.
  unfold MIN_LOS_DAYS, MAX_LOS_DAYS in Hrange.
  exists x, y. repeat split; lia.
Qed.

Lemma visits_stay_run :
  fst (DataCleaner.clean_visits_data Sample.parse_datetime DataCleaner.init
         (Sample.frame ["visit_id"; "admission_date"; "discharge_date"]
            [[Str "V1"; Str "2020-01-01"; Str "2020-01-05"]]))
  = Sample.frame
      ["visit_id"; "admission_date"; "discharge_date"; "length_of_stay"]
      [[Str "V1"; Timestamp (Sample.at_date "2020-01-01");
        Timestamp (Sample.at_date "2020-01-05"); Int 4]].
Proof. vm_compute. reflexivity. Qed.

Lemma clean_visits_data_stay_witness :
  Pd.has_column
    (Sample.frame ["visit_id"; "admission_date"; "discharge_date"]
       [[Str "V1"; Str "2020-01-01"; Str "2020-01-05"]])
    "admission_date" = true
  /\ Pd.has_column
       (Sample.frame ["visit_id"; "admission_date"; "discharge_date"]
          [[Str "V1"; Str "2020-01-01"; Str "2020-01-05"]])
       "discharge_date" = true
  /\ Sample.row
       ["visit_id"; "admission_date"; "discharge_date"; "length_of_stay"]
       [Str "V1"; Timestamp (Sample.at_date "2020-01-01");
        Timestamp (Sample.at_date "2020-01-05"); Int 4]
     ∈ rows (fst (DataCleaner.clean_visits_data Sample.parse_datetime
                    DataCleaner.init
                    (Sample.frame
                       ["visit_id"; "admission_date"; "discharge_date"]
                       [[Str "V1"; Str "2020-01-01"; Str "2020-01-05"]])))
  /\ stay_consistent
       (Sample.row
          ["visit_id"; "admission_date"; "discharge_date"; "length_of_stay"]
          [Str "V1"; Timestamp (Sample.at_date "2020-01-01");
           Timestamp (Sample.at_date "2020-01-05"); Int 4]).
Proof.
  assert (Hin :
    Sample.row
       ["visit_id"; "admission_date"; "discharge_date"; "length_of_stay"]
       [Str "V1"; Timestamp (Sample.at_date "2020-01-01");
        Timestamp (Sample.at_date "2020-01-05"); Int 4]
     ∈ rows (fst (DataCleaner.clean_visits_data Sample.parse_datetime
                    DataCleaner.init
                    (Sample.frame
                       ["visit_id"; "admission_date"; "discharge_date"]
                       [[Str "V1"; Str "2020-01-01"; Str "2020-01-05"]])))).
  { rewrite visits_stay_run. apply list_elem_of_here. }
  split; [reflexivity|]. split; [reflexivity|]. split; [exact Hin|].
  apply (fun Ha Hd => proj2 (clean_visits_data_stay _ _ _ _ Ha Hd Hin));
    [reflexivity | reflexivity | vm_compute; discriminate
    | vm_compute; discriminate].
Defined.

(** ** Ages *)

(** [calculate_age] returns the ages when every date of birth is present and
    raises as soon as one is missing. *)
Lemma calculate_age_spec (now : Z) (dob : list value) :
  Utils.calculate_age now dob None
  = if forallb is_timestamp dob then Ok (map (age_cell now) dob)
    else Raise ValueError.
Proof.
  unfold Utils.calculate_age, Pd.rsub_scalar, Pd.dt_days, Pd.div_float.
  rewrite !List.map_map.
  induction dob as [|v dob IH]; [reflexivity|].
  cbn [map forallb].
  destruct v as [|s|z|t|b|]; try reflexivity.
  change (Pd.div_cell (1461 # 4)
            (Pd.days_cell (Pd.timedelta (Timestamp now) (Timestamp t))))
    with (Some (inject_Z ((now - t) / Pd.ns_per_day) / (1461 # 4))%Q).
  cbn [Pd.astype_int]. rewrite IH.
  destruct (forallb is_timestamp dob); reflexivity.
Qed.

Lemma age_at_quot (now dob : Z) :
  age_at now dob = Z.quot (((now - dob) / Pd.ns_per_day) * 4) 1461.
Proof.
  reflexivity.
Qed.

(** The date-of-birth cell of a row that reaches the age computation. *)
Lemma patients_dob_row (parse_datetime : string -> option Z) (now_dob : Z)
      (hg : bool) (l : list (gmap string value)) (r : gmap string value) :
  In r (Rowwise.patients_dob parse_datetime now_dob hg true l) <->
  exists r0,
    In r0 l
    /\ r = Rowwise.parse_cell parse_datetime "date_of_birth"
             (if hg
              then Rowwise.standard_gender (Rowwise.fill_gender r0)
              else r0)
    /\ Rowwise.not_future now_dob r = true.
Proof.
  unfold Rowwise.patients_dob. rewrite filter_In, in_map_iff. split.
  - intros [(r1 & <- & Hr1) Hf]. destruct hg.
    + apply in_map_iff in Hr1 as (r2 & <- & Hr2).
      apply in_map_iff in Hr2 as (r0 & <- & Hr0). eauto.
    + eauto.
  - intros (r0 & Hr0 & -> & Hf). split; [|exact Hf].
    eexists. split; [reflexivity|]. destruct hg; [|exact Hr0].
    apply in_map, in_map. exact Hr0.
Qed.

Lemma patients_dob_cell (parse_datetime : string -> option Z) (hg : bool)
      (r0 : gmap string value) :
  Pd.cell (Rowwise.parse_cell parse_datetime "date_of_birth"
             (if hg
              then Rowwise.standard_gender (Rowwise.fill_gender r0)
              else r0)) "date_of_birth"
  = Pd.to_datetime_cell parse_datetime (Pd.cell r0 "date_of_birth").
Proof. destruct hg; cells; reflexivity. Qed.

Lemma forallb_false_ex {A : Type} (f : A -> bool) (l : list A) :
  forallb f l = false -> exists x, In x l /\ f x = false.
Proof.
  induction l as [|x l IH]; cbn; [discriminate|].
  destruct (f x) eqn:Hx; cbn.
  - intros H. destruct (IH H) as (y & Hy & Hfy). eauto.
  - intros _. eauto.
Qed.

(** The patients call raises exactly on a frame with a missing or
    unreadable date of birth. *)
Lemma patients_rows_raise (parse_datetime : string -> option Z)
      (now_dob now_age : Z) (hg hd hp : bool) (l : list (gmap string value)) :
  (exists e, Rowwise.patients parse_datetime now_dob now_age hg hd hp l = Raise e)
  <-> hd = true
      /\ exists r, In r l
                   /\ Pd.to_datetime_cell parse_datetime
                        (Pd.cell r "date_of_birth") = NaN.
Proof.
  unfold Rowwise.patients. cbv zeta. destruct hd.
  2: { cbn. split; [intros [e [=]]|intros [[=] _]]. }
  rewrite calculate_age_spec.
  destruct (forallb is_timestamp _) eqn:Hall; cbn.
  - split; [intros [e [=]]|]. intros (_ & r0 & Hr0 & Hnan). exfalso.
    rewrite forallb_forall in Hall.
    specialize (Hall (Pd.to_datetime_cell parse_datetime
                        (Pd.cell r0 "date_of_birth"))).
    rewrite Hnan in Hall. cbn in Hall. enough (false = true) by discriminate.
    apply Hall. apply in_map_iff.
    exists (Rowwise.parse_cell parse_datetime "date_of_birth"
              (if hg then Rowwise.standard_gender (Rowwise.fill_gender r0)
               else r0)).
    rewrite patients_dob_cell, to_datetime_cell_idem. split; [exact Hnan|].
    apply patients_dob_row. exists r0. split; [exact Hr0|]. split; [reflexivity|].
    unfold Rowwise.not_future. rewrite patients_dob_cell, Hnan. reflexivity.
  - split; [|eauto]. intros _. split; [reflexivity|].
    apply forallb_false_ex in Hall as (v & Hin & Hv).
    apply in_map_iff in Hin as (r & <- & Hr).
    apply patients_dob_row in Hr as (r0 & Hr0 & -> & _).
    rewrite patients_dob_cell, to_datetime_cell_idem in Hv.
    exists r0. split; [exact Hr0|].
    destruct (to_datetime_cell_parsed parse_datetime (Pd.cell r0 "date_of_birth"))
      as [H|[t H]]; [exact H|]. rewrite H in Hv. cbn in Hv. congruence.
Qed.

(** ** Row counts *)

Lemma zip_with_length_le {A B C : Type} (f : A -> B -> C) (l : list A)
      (k : list B) :
  (length (zip_with f l k) <= length l)%nat.
Proof.
  revert k. induction l as [|x l IH]; intros [|y k]; cbn; try lia.
  specialize (IH k). lia.
Qed.

(** Bounds the length of a chain of maps, filters, zips and first
    occurrences by the length of the list it starts from. *)
Ltac shrink :=
  repeat first
    [ rewrite List.length_map
    | match goal with
      | |- (length (List.filter _ _) <= _)%nat =>
          etransitivity; [apply filter_length_le|]
      | |- (length (first_occurrences _ _ _) <= _)%nat =>
          etransitivity; [apply first_occurrences_length|]
      | |- (length (zip_with _ _ _) <= _)%nat =>
          etransitivity; [apply zip_with_length_le|]
      | |- (length (if ?b then _ else _) <= _)%nat => destruct b
      end ];
  try reflexivity.

Lemma visits_length (parse_datetime : string -> option Z) (ha hd hv : bool)
      (l : list (gmap string value)) :
  (length (Rowwise.visits parse_datetime ha hd hv l) <= length l)%nat.
Proof. unfold Rowwise.visits. cbv zeta. shrink. Qed.

Lemma diagnoses_length (str_of_timestamp : Z -> string) (hi hv : bool)
      (l : list (gmap string value)) :
  (length (Rowwise.diagnoses str_of_timestamp hi hv l) <= length l)%nat.
Proof. unfold Rowwise.diagnoses. cbv zeta. shrink. Qed.

Lemma medications_length (hv hm : bool) (l : list (gmap string value)) :
  (length (Rowwise.medications hv hm l) <= length l)%nat.
Proof. unfold Rowwise.medications. cbv zeta. shrink. Qed.

Lemma staff_length (hs hn hi : bool) (l : list (gmap string value)) :
  (length (Rowwise.staff hs hn hi l) <= length l)%nat.
Proof. unfold Rowwise.staff. cbv zeta. shrink. Qed.

Lemma patients_length (parse_datetime : string -> option Z)
      (now_dob now_age : Z) (hg hd hp : bool)
      (l l' : list (gmap string value)) :
  Rowwise.patients parse_datetime now_dob now_age hg hd hp l = Ok l' ->
  (length l' <= length l)%nat.
Proof.
  unfold Rowwise.patients, Rowwise.patients_dob. cbv zeta.
  destruct hd.
  - destruct (Utils.calculate_age _ _ _) as [age|e]; cbn; [|discriminate].
    intros [= <-]. shrink.
  - cbn. intros [= <-]. shrink.
Qed.

(** C1: a patients set with an unreadable [date_of_birth] makes
    [clean_patients_data] raise: the date is coerced to the missing marker,
    the row passes the future-date filter, and the cast of its missing age
    to an integer raises [ValueError] before the age filter is reached. *)
Theorem clean_patients_data_raises_on_unreadable_dob (now_dob now_age : Z) :
  DataCleaner.clean_patients_data Sample.parse_datetime now_dob now_age
    DataCleaner.init
    (Sample.frame ["patient_id"; "date_of_birth"]
       [[Str "P1"; Str "1980-05-01"]; [Str "P2"; Str "not a date"]])
  = Raise ValueError.
Proof.
  rewrite clean_patients_data_frame.
  destruct (proj2 (patients_rows_raise Sample.parse_datetime now_dob now_age
                     false true true
                     (rows (Sample.frame ["patient_id"; "date_of_birth"]
                              [[Str "P1"; Str "1980-05-01"];
                               [Str "P2"; Str "not a date"]]))))
    as [e He].
  { split; [reflexivity|].
    exists (Sample.row ["patient_id"; "date_of_birth"]
              [Str "P2"; Str "not a date"]).
    split; [cbn; auto | vm_compute; reflexivity]. }
  change (Pd.has_column _ "gender") with false.
  change (Pd.has_column _ "date_of_birth") with true.
  change (Pd.has_column _ "patient_id") with true.
  rewrite He. f_equal.
  revert He. unfold Rowwise.patients. cbv zeta. rewrite calculate_age_spec.
  destruct (forallb _ _); cbn; congruence.
Qed.

(** The patients call raises [ValueError], and nothing else, exactly when a
    date of birth is missing or unreadable. *)
Lemma clean_patients_data_raises (parse_datetime : string -> option Z)
      (now_dob now_age : Z) (self : DataCleaner.t) (df : DataFrame) (e : exn) :
  DataCleaner.clean_patients_data parse_datetime now_dob now_age self df
  = Raise e ->
  e = ValueError /\ unparsable_dob parse_datetime df.
Proof.
  rewrite clean_patients_data_frame. intros H.
  destruct (Rowwise.patients _ _ _ _ _ _ _) as [l'|e'] eqn:Hp; [discriminate|].
  injection H as ->. split.
  - revert Hp. unfold Rowwise.patients. cbv zeta.
    destruct (Pd.has_column df "date_of_birth"); [|discriminate].
    rewrite calculate_age_spec. destruct (forallb _ _); cbn; congruence.
  - destruct (proj1 (patients_rows_raise _ _ _ _ _ _ _) (ex_intro _ e Hp))
      as (Hd & r & Hr & Hnan).
    split; [exact Hd|]. exists r. split; [apply list_elem_of_In; exact Hr|exact Hnan].
Qed.

(** ** The cleaning report *)

(** No step of a pipeline adds rows: a step either sets a column, selects
    rows by a mask, or drops rows with missing cells. *)
Lemma cleaning_steps_add_no_row (df : DataFrame) :
  (forall c series, Pd.len (Pd.assign df c series) <= Pd.len df)
  /\ (forall mask, Pd.len (Pd.select df mask) <= Pd.len df)
  /\ (forall subset, Pd.len (Pd.dropna df subset) <= Pd.len df).
Proof.
  assert (Hkeep : forall (l : list (gmap string value)) mask,
             (length (Pd.keep l mask) <= length l)%nat).
  { induction l as [|r l IH]; intros [|[] mask]; cbn; try lia;
      specialize (IH mask); lia. }
  unfold Pd.len, Pd.dropna, Pd.select, Pd.assign. cbn [rows].
  split; [|split].
  - intros c series.
    pose proof (zip_with_length_le
                  (fun (r : gmap string value) v => <[c := v]> r)
                  (rows df) series). lia.
  - intros m. pose proof (Hkeep (rows df) m). lia.
  - intros subset.
    pose proof (Hkeep (rows df) (map (Pd.complete subset) (rows df))). lia.
Qed.

Lemma clean_appends_entry (parse_datetime : string -> option Z)
      (str_of_timestamp : Z -> string) (ds : dataset) (clk : clock)
      (self : DataCleaner.t) (df : DataFrame) :
  match clean parse_datetime str_of_timestamp ds clk self df with
  | Ok (out, self') =>
      exists e,
        DataCleaner.get_cleaning_report self'
        = (DataCleaner.get_cleaning_report self ++ [e])%list
        /\ DataCleaner.initial_rows e = Pd.len df
        /\ DataCleaner.final_rows e = Pd.len out
        /\ entry_ok e
  | Raise _ => True
  end.
Proof.
  assert (Hentry : forall name out,
             (length (rows out) <= length (rows df))%nat ->
             exists e,
               DataCleaner.cleaning_report (report_of name self df out)
               = (DataCleaner.cleaning_report self ++ [e])%list
               /\ DataCleaner.initial_rows e = Pd.len df
               /\ DataCleaner.final_rows e = Pd.len out
               /\ entry_ok e).
  { intros name out Hle. eexists. split; [reflexivity|].
    unfold entry_ok. cbn. unfold Pd.len. repeat split; lia. }
  unfold DataCleaner.get_cleaning_report. destruct ds; unfold clean.
  - destruct (DataCleaner.clean_patients_data _ _ _ _ _) as [[out self']|e] eqn:Hc.
    + rewrite clean_patients_data_frame in Hc.
      destruct (Rowwise.patients _ _ _ _ _ _ _) as [l'|e'] eqn:Hp; [|discriminate].
      cbv zeta in Hc. injection Hc as <- <-. apply Hentry.
      cbn [rows]. eapply patients_length. exact Hp.
    + exact I.
  - rewrite clean_visits_data_frame. apply Hentry. apply visits_length.
  - rewrite clean_diagnoses_data_frame. apply Hentry. apply diagnoses_length.
  - rewrite clean_medications_data_frame. apply Hentry. apply medications_length.
  - rewrite clean_staff_data_frame. apply Hentry. apply staff_length.
Qed.


(** X30: a cleaning call that returns has appended exactly one entry to the
    cleaning report, with [initial_rows] and [final_rows] the row counts of
    the set given and of the set returned and [removed_rows = initial_rows -
    final_rows >= 0]; hence every entry of the report of a cleaner, however
    many calls it has served, satisfies [removed_rows = initial_rows -
    final_rows >= 0]. *)
Theorem cleaning_report_entry (parse_datetime : string -> option Z)
        (str_of_timestamp : Z -> string) :
  (forall (ds : dataset) (clk : clock) (self self' : DataCleaner.t)
          (df out : DataFrame),
      clean parse_datetime str_of_timestamp ds clk self df = Ok (out, self') ->
      exists e,
        DataCleaner.get_cleaning_report self'
        = (DataCleaner.get_cleaning_report self ++ [e])%list
        /\ DataCleaner.initial_rows e = Pd.len df
        /\ DataCleaner.final_rows e = Pd.len out
        /\ DataCleaner.removed_rows e
           = DataCleaner.initial_rows e - DataCleaner.final_rows e
        /\ 0 <= DataCleaner.removed_rows e)
  /\ (forall self : DataCleaner.t,
         reachable parse_datetime str_of_timestamp self ->
         Forall entry_ok (DataCleaner.get_cleaning_report self)).
Proof.
  split.
  - intros ds clk self self' df out Hc.
    pose proof (clean_appends_entry parse_datetime str_of_timestamp
                  ds clk self df) as H.
    rewrite Hc in H.
    destruct H as (e & He & Hi & Hf & Hr & H0). exists e. auto.
  - intros self Hreach.
    induction Hreach as [|ds clk self self' df out _ IH Hc].
    + constructor.
    + pose proof (clean_appends_entry parse_datetime str_of_timestamp
                    ds clk self df) as H.
      rewrite Hc in H. destruct H as (e & -> & _ & _ & He).
      apply Forall_app. split; [exact IH|]. constructor; [exact He|constructor].
Qed.

Lemma cleaning_report_entry_witness :
  reachable Sample.parse_datetime Sample.str_of_timestamp
    {| DataCleaner.cleaning_report :=
         [ {| DataCleaner.dataset := "visits";
              DataCleaner.initial_rows := 2;
              DataCleaner.final_rows := 1;
              DataCleaner.removed_rows := 1 |} ] |}
  /\ Forall entry_ok
       (DataCleaner.get_cleaning_report
          {| DataCleaner.cleaning_report :=
               [ {| DataCleaner.dataset := "visits";
                    DataCleaner.initial_rows := 2;
                    DataCleaner.final_rows := 1;
                    DataCleaner.removed_rows := 1 |} ] |}).
Proof.
  assert (Hreach :
    reachable Sample.parse_datetime Sample.str_of_timestamp
      {| DataCleaner.cleaning_report :=
           [ {| DataCleaner.dataset := "visits";
                DataCleaner.initial_rows := 2;
                DataCleaner.final_rows := 1;
                DataCleaner.removed_rows := 1 |} ] |}).
  { apply (reach_clean _ _ visits {| now_dob := 0; now_age := 0 |}
             DataCleaner.init _
             (Sample.frame ["visit_id"; "admission_date"; "discharge_date"]
                [[Str "V1"; Str "2020-01-01"; Str "2020-01-05"];
                 [Str "V2"; Str "2020-01-10"; Str "2020-01-05"]])
             (Sample.frame
                ["visit_id"; "admission_date"; "discharge_date"; "length_of_stay"]
                [[Str "V1"; Timestamp (Sample.at_date "2020-01-01");
                  Timestamp (Sample.at_date "2020-01-05"); Int 4]]));
      [apply reach_init | vm_compute; reflexivity]. }
  split; [exact Hreach|].
  exact (proj2 (cleaning_report_entry Sample.parse_datetime
                  Sample.str_of_timestamp) _ Hreach).
Defined.

(** ** Text normalisation is idempotent *)

Ltac all_chars c :=
  destruct c as [[] [] [] [] [] [] [] []]; reflexivity.

Lemma upper_char_idem (c : ascii) :
  Py.upper_char (Py.upper_char c) = Py.upper_char c.
Proof. all_chars c. Qed.

Lemma lower_char_idem (c : ascii) :
  Py.lower_char (Py.lower_char c) = Py.lower_char c.
Proof. all_chars c. Qed.

Lemma isspace_upper_char (c : ascii) :
  Py.isspace (Py.upper_char c) = Py.isspace c.
Proof. all_chars c. Qed.

Lemma isspace_lower_char (c : ascii) :
  Py.isspace (Py.lower_char c) = Py.isspace c.
Proof. all_chars c. Qed.

Lemma iscased_upper_char (c : ascii) :
  Py.iscased (Py.upper_char c) = Py.iscased c.
Proof. all_chars c. Qed.

Lemma iscased_lower_char (c : ascii) :
  Py.iscased (Py.lower_char c) = Py.iscased c.
Proof. all_chars c. Qed.

Lemma upper_idem (s : string) : Py.upper (Py.upper s) = Py.upper s.
Proof.
  induction s as [|c s IH]; [reflexivity|].
  cbn. rewrite upper_char_idem, IH. reflexivity.
Qed.

Lemma lstrip_upper (s : string) : Py.lstrip (Py.upper s) = Py.upper (Py.lstrip s).
Proof.
  induction s as [|c s IH]; [reflexivity|].
  cbn. rewrite isspace_upper_char. destruct (Py.isspace c); [exact IH|reflexivity].
Qed.

Lemma is_empty_upper (s : string) : Py.is_empty (Py.upper s) = Py.is_empty s.
Proof. destruct s; reflexivity. Qed.

Lemma rstrip_upper (s : string) : Py.rstrip (Py.upper s) = Py.upper (Py.rstrip s).
Proof.
  induction s as [|c s IH]; [reflexivity|].
  cbn. rewrite isspace_upper_char, IH, is_empty_upper.
  destruct (Py.isspace c && Py.is_empty (Py.rstrip s)); reflexivity.
Qed.

Lemma strip_upper (s : string) : Py.strip (Py.upper s) = Py.upper (Py.strip s).
Proof. unfold Py.strip. rewrite lstrip_upper, rstrip_upper. reflexivity. Qed.

Lemma lstrip_starts_clean (s : string) : starts_clean (Py.lstrip s).
Proof.
  induction s as [|c s IH]; [exact I|].
  cbn. destruct (Py.isspace c) eqn:Hc; [exact IH|exact Hc].
Qed.

Lemma lstrip_clean (s : string) : starts_clean s -> Py.lstrip s = s.
Proof. destruct s as [|c s]; [reflexivity|]. cbn. intros ->. reflexivity. Qed.

Lemma rstrip_starts_clean (s : string) :
  starts_clean s -> starts_clean (Py.rstrip s).
Proof.
  destruct s as [|c s]; [trivial|]. cbn. intros Hc. rewrite Hc. exact Hc.
Qed.

Lemma rstrip_idem (s : string) : Py.rstrip (Py.rstrip s) = Py.rstrip s.
Proof.
  induction s as [|c s IH]; [reflexivity|].
  cbn. destruct (Py.isspace c && Py.is_empty (Py.rstrip s)) eqn:E; [reflexivity|].
  cbn. rewrite IH, E. reflexivity.
Qed.

Lemma strip_idem (s : string) : Py.strip (Py.strip s) = Py.strip s.
Proof.
  unfold Py.strip.
  rewrite (lstrip_clean (Py.rstrip (Py.lstrip s)))
    by apply rstrip_starts_clean, lstrip_starts_clean.
  apply rstrip_idem.
Qed.

Lemma isspace_not_cased (c : ascii) :
  Py.isspace c = true -> Py.iscased c = false.
Proof.
  destruct c as [[] [] [] [] [] [] [] []]; vm_compute; intros H;
    first [reflexivity | discriminate H].
Qed.

Lemma lstrip_title (s : string) :
  Py.lstrip (Py.title_from false s) = Py.title_from false (Py.lstrip s).
Proof.
  induction s as [|c s IH]; [reflexivity|].
  cbn. rewrite isspace_upper_char.
  destruct (Py.isspace c) eqn:Hc; [|reflexivity].
  rewrite (isspace_not_cased c Hc). exact IH.
Qed.

Lemma is_empty_title (b : bool) (s : string) :
  Py.is_empty (Py.title_from b s) = Py.is_empty s.
Proof. destruct s; reflexivity. Qed.

Lemma rstrip_title (b : bool) (s : string) :
  Py.rstrip (Py.title_from b s) = Py.title_from b (Py.rstrip s).
Proof.
  revert b. induction s as [|c s IH]; intros b; [reflexivity|].
  cbn. rewrite IH, is_empty_title.
  replace (Py.isspace (if b then Py.lower_char c else Py.upper_char c))
    with (Py.isspace c)
    by (destruct b; [rewrite isspace_lower_char|rewrite isspace_upper_char];
        reflexivity).
  destruct (Py.isspace c && Py.is_empty (Py.rstrip s)); reflexivity.
Qed.

Lemma title_from_idem (b : bool) (s : string) :
  Py.title_from b (Py.title_from b s) = Py.title_from b s.
Proof.
  revert b. induction s as [|c s IH]; intros b; [reflexivity|].
  cbn. f_equal.
  - destruct b; [apply lower_char_idem|apply upper_char_idem].
  - replace (Py.iscased (if b then Py.lower_char c else Py.upper_char c))
      with (Py.iscased c)
      by (destruct b; [rewrite iscased_lower_char|rewrite iscased_upper_char];
          reflexivity).
    apply IH.
Qed.

Lemma strip_title (s : string) : Py.strip (Py.title s) = Py.title (Py.strip s).
Proof. unfold Py.strip, Py.title. rewrite lstrip_title, rstrip_title. reflexivity. Qed.

(** [name.strip().title()] twice is [name.strip().title()]. *)
Lemma title_strip_idem (s : string) :
  Py.title (Py.strip (Py.title (Py.strip s))) = Py.title (Py.strip s).
Proof.
  rewrite strip_title, strip_idem. unfold Py.title. apply title_from_idem.
Qed.

(** [code.strip().upper()] twice is [code.strip().upper()]. *)
Lemma upper_strip_idem (s : string) :
  Py.upper (Py.strip (Py.upper (Py.strip s))) = Py.upper (Py.strip s).
Proof. rewrite strip_upper, strip_idem. apply upper_idem. Qed.

(** ** Diagnoses *)

Lemma normal_code_text (str_of_timestamp : Z -> string) (v : value) :
  Rowwise.normal_code str_of_timestamp v
  = Str (Py.upper (Py.strip (Pd.str str_of_timestamp v))).
Proof. reflexivity. Qed.

Lemma normal_code_idem (str_of_timestamp : Z -> string) (v : value) :
  Rowwise.normal_code str_of_timestamp (Rowwise.normal_code str_of_timestamp v)
  = Rowwise.normal_code str_of_timestamp v.
Proof.
  rewrite !normal_code_text. cbn [Pd.str]. rewrite upper_strip_idem. reflexivity.
Qed.

Lemma diagnoses_row (str_of_timestamp : Z -> string) (hv : bool)
      (l : list (gmap string value)) (r : gmap string value) :
  In r (Rowwise.diagnoses str_of_timestamp true hv l) ->
  exists r0,
    In r0 l
    /\ r = Rowwise.flag_code str_of_timestamp
             (Rowwise.normalize_code str_of_timestamp r0).
Proof.
  unfold Rowwise.diagnoses. cbv zeta. rewrite andb_true_r. intros Hr.
  assert (Hr' : In r (map (Rowwise.flag_code str_of_timestamp)
                        (map (Rowwise.normalize_code str_of_timestamp) l))).
  { destruct hv; [|exact Hr]. apply first_occurrences_In in Hr. tauto. }
  apply in_map_iff in Hr' as (r1 & <- & Hr1).
  apply in_map_iff in Hr1 as (r0 & <- & Hr0). eauto.
Qed.

Lemma diagnoses_cells (str_of_timestamp : Z -> string) (r0 : gmap string value) :
  let r := Rowwise.flag_code str_of_timestamp
             (Rowwise.normalize_code str_of_timestamp r0) in
  Pd.cell r "icd_code"
  = Rowwise.normal_code str_of_timestamp (Pd.cell r0 "icd_code")
  /\ Pd.cell r "icd_code_valid"
     = Bool (Utils.validate_icd10_code str_of_timestamp
               (Pd.cell r "icd_code") ICD10_PATTERN)
  /\ Pd.cell r "visit_id" = Pd.cell r0 "visit_id".
Proof. cbv zeta. cells. auto. Qed.

Lemma diagnoses_missing_code_run :
  DataCleaner.clean_diagnoses_data Sample.str_of_timestamp DataCleaner.init
    (Sample.frame ["visit_id"; "icd_code"]
       [[Str "V1"; Str " e11.9 "]; [Str "V2"; NaN]])
  = (Sample.frame ["visit_id"; "icd_code"; "icd_code_valid"]
       [[Str "V1"; Str "E11.9"; Bool true]; [Str "V2"; Str "NAN"; Bool false]],
     {| DataCleaner.cleaning_report :=
          [ {| DataCleaner.dataset := "diagnoses";
               DataCleaner.initial_rows := 2;
               DataCleaner.final_rows := 2;
               DataCleaner.removed_rows := 0 |} ] |}).
Proof. vm_compute. reflexivity. Qed.

Lemma diagnoses_none_code_run :
  DataCleaner.clean_diagnoses_data Sample.str_of_timestamp DataCleaner.init
    (Sample.frame ["visit_id"; "icd_code"]
       [[Str "V1"; Str " e11.9 "]; [Str "V2"; PyNone]])
  = (Sample.frame ["visit_id"; "icd_code"; "icd_code_valid"]
       [[Str "V1"; Str "E11.9"; Bool true]; [Str "V2"; Str "NONE"; Bool false]],
     {| DataCleaner.cleaning_report :=
          [ {| DataCleaner.dataset := "diagnoses";
               DataCleaner.initial_rows := 2;
               DataCleaner.final_rows := 2;
               DataCleaner.removed_rows := 0 |} ] |}).
Proof. vm_compute. reflexivity. Qed.

(** C10, as worded, fails on the code for a code that is missing as
    [None]: [str(None)] is "None", so the cleaned code is "NONE", not
    "NAN". *)
Lemma clean_diagnoses_data_none_code :
  ~ (forall r0,
        r0 ∈ rows (Sample.frame ["visit_id"; "icd_code"]
                     [[Str "V1"; Str " e11.9 "]; [Str "V2"; PyNone]]) ->
        Pd.isna (Pd.cell r0 "icd_code") = true ->
        exists r,
          r ∈ rows (fst (DataCleaner.clean_diagnoses_data
                           Sample.str_of_timestamp DataCleaner.init
                           (Sample.frame ["visit_id"; "icd_code"]
                              [[Str "V1"; Str " e11.9 "];
                               [Str "V2"; PyNone]])))
          /\ Pd.cell r "visit_id" = Pd.cell r0 "visit_id"
          /\ Pd.cell r "icd_code" = Str "NAN").
Proof.
  intros H.
  destruct (H (Sample.row ["visit_id"; "icd_code"] [Str "V2"; PyNone]))
    as (r & Hr & Hid & Hcode).
  - cbn [rows Sample.frame map]. apply list_elem_of_further, list_elem_of_here.
  - reflexivity.
  - rewrite diagnoses_none_code_run in Hr. cbn [fst rows Sample.frame map] in Hr.
    apply list_elem_of_In in Hr. destruct Hr as [<-|[<-|[]]].
    + vm_compute in Hid. discriminate Hid.
    + vm_compute in Hcode. discriminate Hcode.
Qed.

(** C10, amended: in the cleaned diagnoses set the [icd_code] column holds
    text in every row, never a missing marker; a row whose [icd_code] was
    missing gets the upper-cased text of the marker as its code, "NAN" for
    [NaN] and "NONE" for [None], flagged [icd_code_valid = False], and
    stays in the set: the set returned holds a row with its [visit_id],
    that code and the flag [False] (the row itself, or the earlier row it
    duplicates on [visit_id] and [icd_code]). *)
Theorem clean_diagnoses_data_missing_code (str_of_timestamp : Z -> string)
        (self : DataCleaner.t) (df : DataFrame) :
  Pd.has_column df "icd_code" = true ->
  (forall r,
      r ∈ rows (fst (DataCleaner.clean_diagnoses_data str_of_timestamp self df)) ->
      exists code, Pd.cell r "icd_code" = Str code)
  /\ (forall r0,
         r0 ∈ rows df ->
         Pd.isna (Pd.cell r0 "icd_code") = true ->
         exists r,
           r ∈ rows (fst (DataCleaner.clean_diagnoses_data
                            str_of_timestamp self df))
           /\ Pd.cell r "visit_id" = Pd.cell r0 "visit_id"
           /\ (Pd.cell r0 "icd_code" = NaN -> Pd.cell r "icd_code" = Str "NAN")
           /\ (Pd.cell r0 "icd_code" = PyNone ->
               Pd.cell r "icd_code" = Str "NONE")
           /\ Pd.cell r "icd_code_valid" = Bool false).
Proof.
  intros Hi. rewrite clean_diagnoses_data_frame. cbn [fst rows]. rewrite Hi.
  split.
  - intros r Hr. apply list_elem_of_In, diagnoses_row in Hr as (r0 & _ & ->).
    destruct (diagnoses_cells str_of_timestamp r0) as (-> & _).
    rewrite normal_code_text. eauto.
  - intros r0 Hr0 Hna. apply list_elem_of_In in Hr0.
    set (r1 := Rowwise.flag_code str_of_timestamp
                 (Rowwise.normalize_code str_of_timestamp r0)).
    destruct (diagnoses_cells str_of_timestamp r0) as (Ec & Ev & Eid).
    fold r1 in Ec, Ev, Eid.
    assert (Hr1 : In r1 (map (Rowwise.flag_code str_of_timestamp)
                           (map (Rowwise.normalize_code str_of_timestamp)
                              (rows df)))).
    { apply in_map, in_map. exact Hr0. }
    assert (Hrep : exists r,
               In r (Rowwise.diagnoses str_of_timestamp true
                       (Pd.has_column df "visit_id") (rows df))
               /\ Pd.key_of ["visit_id"; "icd_code"] r
                  = Pd.key_of ["visit_id"; "icd_code"] r1).
    { unfold Rowwise.diagnoses. cbv zeta. rewrite andb_true_r.
      destruct (Pd.has_column df "visit_id").
      - apply first_occurrences_covers; [exact Hr1|].
        intros Hin. apply elem_of_nil in Hin. exact Hin.
      - exists r1. auto. }
    destruct Hrep as (r & Hr & Hk). exists r.
    split; [apply list_elem_of_In; exact Hr|].
    injection Hk as Hk1 Hk2.
    apply diagnoses_row in Hr as (r' & _ & ->).
    destruct (diagnoses_cells str_of_timestamp r') as (_ & Ev' & _).
    rewrite Ev', Hk1, Hk2, Eid, Ec.
    destruct (Pd.cell r0 "icd_code"); try discriminate Hna;
      repeat split; intros; try discriminate; reflexivity.
Qed.

Lemma clean_diagnoses_data_missing_code_witness :
  Pd.has_column (Sample.frame ["visit_id"; "icd_code"]
                   [[Str "V1"; Str " e11.9 "]; [Str "V2"; NaN];
                    [Str "V3"; PyNone]])
                "icd_code" = true
  /\ (forall r,
         r ∈ rows (fst (DataCleaner.clean_diagnoses_data Sample.str_of_timestamp
                          DataCleaner.init
                          (Sample.frame ["visit_id"; "icd_code"]
                             [[Str "V1"; Str " e11.9 "]; [Str "V2"; NaN];
                              [Str "V3"; PyNone]]))) ->
         exists code, Pd.cell r "icd_code" = Str code)
  /\ (forall r0,
         r0 ∈ rows (Sample.frame ["visit_id"; "icd_code"]
                      [[Str "V1"; Str " e11.9 "]; [Str "V2"; NaN];
                       [Str "V3"; PyNone]]) ->
         Pd.isna (Pd.cell r0 "icd_code") = true ->
         exists r,
           r ∈ rows (fst (DataCleaner.clean_diagnoses_data
                            Sample.str_of_timestamp DataCleaner.init
                            (Sample.frame ["visit_id"; "icd_code"]
                               [[Str "V1"; Str " e11.9 "]; [Str "V2"; NaN];
                                [Str "V3"; PyNone]])))
           /\ Pd.cell r "visit_id" = Pd.cell r0 "visit_id"
           /\ (Pd.cell r0 "icd_code" = NaN -> Pd.cell r "icd_code" = Str "NAN")
           /\ (Pd.cell r0 "icd_code" = PyNone ->
               Pd.cell r "icd_code" = Str "NONE")
           /\ Pd.cell r "icd_code_valid" = Bool false).
Proof.
  split; [reflexivity|].
  apply (clean_diagnoses_data_missing_code Sample.str_of_timestamp
           DataCleaner.init
           (Sample.frame ["visit_id"; "icd_code"]
              [[Str "V1"; Str " e11.9 "]; [Str "V2"; NaN];
               [Str "V3"; PyNone]])).
  reflexivity.
Defined.

(** The run behind the witness: a code missing as [NaN] becomes "NAN", one
    missing as [None] becomes "NONE"; both are flagged invalid, and every
    row is kept. *)
Lemma diagnoses_markers_run :
  DataCleaner.clean_diagnoses_data Sample.str_of_timestamp DataCleaner.init
    (Sample.frame ["visit_id"; "icd_code"]
       [[Str "V1"; Str " e11.9 "]; [Str "V2"; NaN]; [Str "V3"; PyNone]])
  = (Sample.frame ["visit_id"; "icd_code"; "icd_code_valid"]
       [[Str "V1"; Str "E11.9"; Bool true]; [Str "V2"; Str "NAN"; Bool false];
        [Str "V3"; Str "NONE"; Bool false]],
     {| DataCleaner.cleaning_report :=
          [ {| DataCleaner.dataset := "diagnoses";
               DataCleaner.initial_rows := 3;
               DataCleaner.final_rows := 3;
               DataCleaner.removed_rows := 0 |} ] |}).
Proof. vm_compute. reflexivity. Qed.

(** ** Cleaning a cleaned set *)

Lemma first_occurrences_idem {K : Type} `{EqDecision K}
      (key : gmap string value -> K) (l : list (gmap string value)) :
  first_occurrences key [] (first_occurrences key [] l)
  = first_occurrences key [] l.
Proof.
  apply first_occurrences_fixed; [apply first_occurrences_NoDup|].
  intros r _ Hin. apply elem_of_nil in Hin. exact Hin.
Qed.

Lemma map_fixed {A : Type} (f : A -> A) (l : list A) :
  (forall x, In x l -> f x = x) -> map f l = l.
Proof.
  intros H. rewrite (map_ext_in f id l H). apply map_id.
Qed.

Lemma key_clean_name (c k : string) (r : gmap string value) :
  c <> k -> Pd.key_of [k] (Rowwise.clean_name c r) = Pd.key_of [k] r.
Proof.
  intros Hne. unfold Pd.key_of, Rowwise.clean_name. cbn [map].
  rewrite cell_insert_ne by exact Hne. reflexivity.
Qed.

Lemma staff_twice (hs hn hi : bool) (l : list (gmap string value)) :
  length (Rowwise.staff hs hn hi (Rowwise.staff hs hn hi l))
  = length (Rowwise.staff hs hn hi l).
Proof.
  set (l1 := Rowwise.staff hs hn hi l).
  assert (Hnd : hi = true -> NoDup (map (Pd.key_of ["staff_id"]) l1)).
  { intros ->. apply first_occurrences_NoDup. }
  unfold Rowwise.staff at 1. cbv zeta. clearbody l1.
  destruct hi; [specialize (Hnd eq_refl)|];
    destruct (hs || hn); rewrite ?List.length_map; try reflexivity.
  - rewrite pass_keeps_all; [apply List.length_map|exact Hnd|].
    intros r _. apply key_clean_name. destruct hs; discriminate.
  - rewrite first_occurrences_fixed; [reflexivity|exact Hnd|].
    intros r _ Hin. apply elem_of_nil in Hin. exact Hin.
Qed.

Lemma diagnoses_twice (str_of_timestamp : Z -> string) (hi hv : bool)
      (l : list (gmap string value)) :
  length (Rowwise.diagnoses str_of_timestamp hi hv
            (Rowwise.diagnoses str_of_timestamp hi hv l))
  = length (Rowwise.diagnoses str_of_timestamp hi hv l).
Proof.
  destruct hi.
  2: { unfold Rowwise.diagnoses. rewrite andb_false_r. reflexivity. }
  set (l1 := Rowwise.diagnoses str_of_timestamp true hv l).
  assert (Hrow : forall r, In r l1 ->
                   exists r0, r = Rowwise.flag_code str_of_timestamp
                                    (Rowwise.normalize_code str_of_timestamp r0))
    by (intros r Hr; apply diagnoses_row in Hr as (r0 & _ & ->); eauto).
  assert (Hnd : hv = true ->
                NoDup (map (Pd.key_of ["visit_id"; "icd_code"]) l1)).
  { intros ->. apply first_occurrences_NoDup. }
  unfold Rowwise.diagnoses at 1. cbv zeta. rewrite andb_true_r. clearbody l1.
  destruct hv; [specialize (Hnd eq_refl)|]; rewrite ?List.length_map; auto.
  rewrite List.map_map, pass_keeps_all; [apply List.length_map|exact Hnd|].
  intros r Hr. destruct (Hrow r Hr) as (r0 & ->).
  unfold Pd.key_of. cbn [map]. cells.
  rewrite normal_code_idem. reflexivity.
Qed.

Lemma medications_row (hv hm : bool) (l : list (gmap string value))
      (r : gmap string value) :
  In r (Rowwise.medications hv hm l) ->
  Pd.complete ((if hv then ["visit_id"] else [])
               ++ (if hm then ["medication_name"] else [])) r = true
  /\ (hm = true -> Rowwise.clean_name "medication_name" r = r).
Proof.
  unfold Rowwise.medications. cbv zeta. intros Hr.
  assert (Hr' : In r (List.filter
                        (Pd.complete ((if hv then ["visit_id"] else [])
                                      ++ (if hm then ["medication_name"] else [])))
                        (if hm then map (Rowwise.clean_name "medication_name") l
                         else l))).
  { destruct (hv && hm); [|exact Hr]. apply first_occurrences_In in Hr. tauto. }
  apply filter_In in Hr' as [Hr' Hc]. split; [exact Hc|].
  intros ->. apply in_map_iff in Hr' as (r0 & <- & _).
  unfold Rowwise.clean_name. cells.
  destruct (Pd.cell r0 "medication_name") as [|s| | | |]; cbn [Pd.str_cell];
    rewrite ?title_strip_idem; apply insert_insert_eq.
Qed.

Lemma medications_twice (hv hm : bool) (l : list (gmap string value)) :
  length (Rowwise.medications hv hm (Rowwise.medications hv hm l))
  = length (Rowwise.medications hv hm l).
Proof.
  set (l1 := Rowwise.medications hv hm l).
  pose proof (medications_row hv hm l) as Hrow. fold l1 in Hrow.
  assert (Hnd : hv && hm = true ->
                NoDup (map (Pd.key_of ["visit_id"; "medication_name"]) l1)).
  { unfold l1, Rowwise.medications. cbv zeta. intros ->.
    apply first_occurrences_NoDup. }
  unfold Rowwise.medications at 1. cbv zeta. clearbody l1.
  assert (Hm : (if hm then map (Rowwise.clean_name "medication_name") l1 else l1)
               = l1).
  { destruct hm; [|reflexivity]. apply map_fixed.
    intros r Hr. apply (Hrow r Hr). reflexivity. }
  rewrite Hm. rewrite filter_all by (intros r Hr; apply (Hrow r Hr)).
  destruct (hv && hm); [|reflexivity].
  rewrite first_occurrences_fixed; [reflexivity|auto|].
  intros r _ Hin. apply elem_of_nil in Hin. exact Hin.
Qed.

Lemma key_parse_cell (parse_datetime : string -> option Z) (c k : string)
      (r : gmap string value) :
  c <> k ->
  Pd.key_of [k] (Rowwise.parse_cell parse_datetime c r) = Pd.key_of [k] r.
Proof.
  intros Hne. unfold Pd.key_of, Rowwise.parse_cell. cbn [map].
  rewrite cell_insert_ne by exact Hne. reflexivity.
Qed.

Lemma visits_twice (parse_datetime : string -> option Z) (ha hd hv : bool)
      (l : list (gmap string value)) :
  length (Rowwise.visits parse_datetime ha hd hv
            (Rowwise.visits parse_datetime ha hd hv l))
  = length (Rowwise.visits parse_datetime ha hd hv l).
Proof.
  set (l1 := Rowwise.visits parse_datetime ha hd hv l).
  assert (Hnd : hv = true -> NoDup (map (Pd.key_of ["visit_id"]) l1)).
  { unfold l1, Rowwise.visits. cbv zeta. intros ->.
    apply first_occurrences_NoDup. }
  assert (Hfix : forall G : gmap string value -> gmap string value,
             (forall r, In r l1 ->
                        Pd.key_of ["visit_id"] (G r) = Pd.key_of ["visit_id"] r) ->
             length (if hv
                     then first_occurrences (Pd.key_of ["visit_id"]) [] (map G l1)
                     else map G l1) = length l1).
  { intros G HG. destruct hv; [|apply List.length_map].
    rewrite pass_keeps_all; [apply List.length_map|auto|exact HG]. }
  destruct (ha && hd) eqn:Hboth.
  - apply andb_true_iff in Hboth as [-> ->].
    pose proof (visits_row parse_datetime hv l) as Hrow. fold l1 in Hrow.
    unfold Rowwise.visits at 1. cbv zeta. cbn [andb]. clearbody l1.
    assert (Hcells : forall r, In r l1 ->
              Pd.cell (Rowwise.parse_cell parse_datetime "discharge_date"
                         (Rowwise.parse_cell parse_datetime "admission_date" r))
                      "admission_date" = Pd.cell r "admission_date"
              /\ Pd.cell (Rowwise.parse_cell parse_datetime "discharge_date"
                            (Rowwise.parse_cell parse_datetime "admission_date" r))
                         "discharge_date" = Pd.cell r "discharge_date").
    { intros r Hr. destruct (Hrow r Hr) as (r0 & _ & _ & Ea & Ed & _).
      cells. rewrite Ea, Ed, !to_datetime_cell_idem. auto. }
    rewrite (filter_all Rowwise.dates_in_order).
    2: { intros y Hy. apply in_map_iff in Hy as (y1 & <- & Hy1).
         apply in_map_iff in Hy1 as (r & <- & Hr).
         destruct (Hcells r Hr) as [Ea Ed].
         destruct (Hrow r Hr) as (_ & _ & _ & _ & _ & _ & Ho & _).
         unfold Rowwise.dates_in_order in *. rewrite Ea, Ed. exact Ho. }
    rewrite (filter_all Rowwise.stay_in_range).
    2: { intros y Hy. apply in_map_iff in Hy as (y1 & <- & Hy1).
         apply in_map_iff in Hy1 as (y2 & <- & Hy2).
         apply in_map_iff in Hy2 as (r & <- & Hr).
         destruct (Hcells r Hr) as [Ea Ed].
         destruct (Hrow r Hr) as (_ & _ & _ & _ & _ & El & _ & Hs).
         unfold Rowwise.stay_in_range in *.
         unfold Rowwise.set_stay at 1 2. rewrite !cell_insert_eq.
         unfold Rowwise.stay. rewrite Ea, Ed, <- El. exact Hs. }
    rewrite !List.map_map. apply Hfix.
    intros r _. unfold Pd.key_of. cbn [map]. cells. reflexivity.
  - unfold Rowwise.visits at 1. cbv zeta. rewrite Hboth. clearbody l1.
    destruct ha, hd; try discriminate Hboth;
      rewrite ?List.map_map;
      try (apply Hfix; intros r _; unfold Pd.key_of; cbn [map]; cells;
           reflexivity).
    destruct hv; [|reflexivity].
    rewrite first_occurrences_fixed; [reflexivity|auto|].
    intros r _ Hin. apply elem_of_nil in Hin. exact Hin.
Qed.

Lemma forallb_map {A B : Type} (f : B -> bool) (g : A -> B) (l : list A) :
  forallb f (map g l) = forallb (fun x => f (g x)) l.
Proof. induction l as [|x l IH]; [reflexivity|]. cbn. rewrite IH. reflexivity. Qed.

(** The patients pipeline without the age computation spelled out. *)
Lemma patients_rows_spec (parse_datetime : string -> option Z)
      (now_dob now_age : Z) (hg hd hp : bool) (l : list (gmap string value)) :
  Rowwise.patients parse_datetime now_dob now_age hg hd hp l
  = let pd := Rowwise.patients_dob parse_datetime now_dob hg hd l in
    if hd && negb (forallb (fun r => is_timestamp (Rowwise.born parse_datetime r)) pd)
    then Raise ValueError
    else
      let aged := if hd
                  then List.filter Rowwise.age_in_range
                         (map (set_age parse_datetime now_age) pd)
                  else pd in
      Ok (if hp then first_occurrences (Pd.key_of ["patient_id"]) [] aged
          else aged).
Proof.
  unfold Rowwise.patients. cbv zeta. destruct hd; [|reflexivity].
  rewrite calculate_age_spec, forallb_map. cbn [andb]. unfold Rowwise.born.
  destruct (forallb _ _); [|reflexivity]. cbn [negb mbind result_bind].
  rewrite List.map_map, zip_with_map_r. reflexivity.
Qed.

Lemma age_at_mono (now now' dob : Z) :
  now <= now' -> 0 <= age_at now dob -> 0 <= age_at now' dob.
Proof.
  rewrite !age_at_quot. intros Hle H0.
  etransitivity; [exact H0|].
  apply Z.quot_le_mono; [lia|].
  apply Z.mul_le_mono_nonneg_r; [lia|].
  apply Z.div_le_mono; [reflexivity|lia].
Qed.

Lemma key_gender (r : gmap string value) :
  Pd.key_of ["patient_id"] (Rowwise.standard_gender (Rowwise.fill_gender r))
  = Pd.key_of ["patient_id"] r.
Proof. unfold Pd.key_of. cbn [map]. cells. reflexivity. Qed.

(** What the patients call leaves in a row when the frame has a
    [date_of_birth] column. *)
Lemma patients_row (parse_datetime : string -> option Z) (now_dob now_age : Z)
      (hg hp : bool) (l l1 : list (gmap string value)) (r : gmap string value) :
  Rowwise.patients parse_datetime now_dob now_age hg true hp l = Ok l1 ->
  In r l1 ->
  exists t,
    Pd.cell r "date_of_birth" = Timestamp t
    /\ t <= now_dob
    /\ Pd.cell r "age" = Int (age_at now_age t)
    /\ MIN_AGE <= age_at now_age t <= MAX_AGE.
Proof.
  rewrite patients_rows_spec. cbv zeta. cbn [andb].
  destruct (forallb _ _) eqn:Hall; [|discriminate]. cbn [negb].
  intros [= <-] Hr.
  assert (Hr' : In r (List.filter Rowwise.age_in_range
                        (map (set_age parse_datetime now_age)
                           (Rowwise.patients_dob parse_datetime now_dob hg true l)))).
  { destruct hp; [|exact Hr]. apply first_occurrences_In in Hr. tauto. }
  clear Hr. apply filter_In in Hr' as [Hr Hage].
  apply in_map_iff in Hr as (rp & <- & Hrp).
  rewrite forallb_forall in Hall. specialize (Hall rp Hrp).
  apply patients_dob_row in Hrp as (r0 & _ & -> & Hnf).
  unfold Rowwise.born in Hall. unfold Rowwise.not_future in Hnf.
  unfold Rowwise.age_in_range, set_age, Rowwise.born in Hage.
  unfold set_age, Rowwise.born.
  rewrite cell_insert_eq in Hage |- *.
  rewrite cell_insert_ne by discriminate.
  rewrite patients_dob_cell in *. rewrite to_datetime_cell_idem in *.
  destruct (Pd.to_datetime_cell parse_datetime (Pd.cell r0 "date_of_birth"))
    as [| | |t| |]; try discriminate Hall.
  exists t. cbn in Hnf, Hage |- *. repeat split; lia.
Qed.

Lemma patients_twice (parse_datetime : string -> option Z)
      (now_dob now_age now_dob' now_age' : Z) (hg hd hp : bool)
      (l l1 : list (gmap string value)) :
  Rowwise.patients parse_datetime now_dob now_age hg hd hp l = Ok l1 ->
  now_dob <= now_dob' ->
  now_age <= now_age' ->
  (forall r t, In r l1 -> Pd.cell r "date_of_birth" = Timestamp t ->
               age_at now_age' t <= MAX_AGE) ->
  exists l2,
    Rowwise.patients parse_datetime now_dob' now_age' hg hd hp l1 = Ok l2
    /\ length l2 = length l1.
Proof.
  intros H1 Hdob Hage Hold.
  assert (Hnd : hp = true -> NoDup (map (Pd.key_of ["patient_id"]) l1)).
  { intros ->. revert H1. rewrite patients_rows_spec. cbv zeta.
    destruct (_ && _); [discriminate|]. intros [= <-].
    apply first_occurrences_NoDup. }
  assert (Hfix : forall G : gmap string value -> gmap string value,
             (forall r, In r l1 ->
                        Pd.key_of ["patient_id"] (G r)
                        = Pd.key_of ["patient_id"] r) ->
             length (if hp
                     then first_occurrences (Pd.key_of ["patient_id"]) []
                            (map G l1)
                     else map G l1) = length l1).
  { intros G HG. destruct hp; [|apply List.length_map].
    rewrite pass_keeps_all; [apply List.length_map|auto|exact HG]. }
  rewrite patients_rows_spec. cbv zeta. destruct hd.
  - pose proof (fun r => patients_row _ _ _ _ _ _ _ r H1) as Hrow.
    set (G := fun r => Rowwise.parse_cell parse_datetime "date_of_birth"
                         (if hg
                          then Rowwise.standard_gender (Rowwise.fill_gender r)
                          else r)).
    assert (Hborn : forall r, In r l1 ->
               exists t, Pd.cell r "date_of_birth" = Timestamp t
                         /\ t <= now_dob
                         /\ 0 <= age_at now_age t
                         /\ Pd.cell (G r) "date_of_birth" = Timestamp t).
    { intros r Hr. destruct (Hrow r Hr) as (t & Et & Ht & _ & Ha).
      exists t. unfold G. rewrite patients_dob_cell, Et.
      unfold MIN_AGE in Ha. repeat split; try assumption; lia. }
    assert (Hpd : Rowwise.patients_dob parse_datetime now_dob' hg true l1
                  = map G l1).
    { unfold Rowwise.patients_dob. cbv zeta.
      match goal with
      | |- List.filter _ ?X = _ =>
          replace X with (map G l1)
            by (unfold G; destruct hg; rewrite ?List.map_map; reflexivity)
      end.
      apply filter_all. intros y Hy. apply in_map_iff in Hy as (r & <- & Hr).
      destruct (Hborn r Hr) as (t & _ & Ht & _ & Et).
      unfold Rowwise.not_future. rewrite Et. cbn. lia. }
    rewrite Hpd, forallb_map.
    rewrite (proj2 (forallb_forall _ l1)).
    2: { intros r Hr. destruct (Hborn r Hr) as (t & _ & _ & _ & Et).
         unfold Rowwise.born. rewrite Et. reflexivity. }
    cbn [andb negb]. rewrite (filter_all Rowwise.age_in_range).
    2: { intros y Hy. apply in_map_iff in Hy as (y1 & <- & Hy1).
         apply in_map_iff in Hy1 as (r & <- & Hr).
         destruct (Hborn r Hr) as (t & Et0 & _ & H0 & Et).
         unfold Rowwise.age_in_range, set_age, Rowwise.born.
         rewrite cell_insert_eq, Et. cbn.
         pose proof (age_at_mono _ _ t Hage H0).
         pose proof (Hold r t Hr Et0). unfold MIN_AGE. lia. }
    eexists. split; [reflexivity|].
    rewrite List.map_map. apply Hfix.
    intros r _. unfold G, set_age, Pd.key_of. cbn [map].
    destruct hg; cells; reflexivity.
  - cbn [andb]. eexists. split; [reflexivity|].
    unfold Rowwise.patients_dob. cbv zeta.
    destruct hg.
    + rewrite List.map_map. apply Hfix. intros r _. apply key_gender.
    + destruct hp; [|reflexivity].
      rewrite first_occurrences_fixed; [reflexivity|auto|].
      intros r _ Hin. apply elem_of_nil in Hin. exact Hin.
Qed.

Lemma has_column_kept (b : bool) (x c : string) (cols : list string)
      (l : list (gmap string value)) :
  c <> x ->
  Pd.has_column (mkFrame (if b then add_column x cols else cols) l) c
  = bool_decide (c ∈ cols).
Proof.
  intros Hne. rewrite has_column_mk. destruct b; [|reflexivity].
  apply has_add_column_ne. exact Hne.
Qed.

Lemma report_of_same_length (name : string) (self : DataCleaner.t)
      (out out2 : DataFrame) :
  length (rows out2) = length (rows out) ->
  exists e,
    DataCleaner.cleaning_report (report_of name self out out2)
    = (DataCleaner.cleaning_report self ++ [e])%list
    /\ DataCleaner.removed_rows e = 0.
Proof.
  intros Hlen. eexists. split; [reflexivity|].
  cbn. unfold Pd.len. rewrite Hlen. lia.
Qed.

(** C3, as worded, fails on the code for the patients set: the age is
    computed against the clock, so a patient kept at age 120 on 2020-06-01 is
    removed, at age 121, when the cleaned set is cleaned again on
    2021-06-01.  The second report entry has [removed_rows = 1]. *)
Lemma cleaning_patients_twice_removes_a_row :
  clean Sample.parse_datetime Sample.str_of_timestamp patients
    {| now_dob := Sample.at_date "2020-06-01";
       now_age := Sample.at_date "2020-06-01" |}
    DataCleaner.init
    (Sample.frame ["patient_id"; "date_of_birth"]
       [[Str "P1"; Str "1900-01-01"]])
  = Ok (Sample.frame ["patient_id"; "date_of_birth"; "age"]
          [[Str "P1"; Timestamp (Sample.at_date "1900-01-01"); Int 120]],
        {| DataCleaner.cleaning_report :=
             [ {| DataCleaner.dataset := "patients";
                  DataCleaner.initial_rows := 1;
                  DataCleaner.final_rows := 1;
                  DataCleaner.removed_rows := 0 |} ] |})
  /\ clean Sample.parse_datetime Sample.str_of_timestamp patients
       {| now_dob := Sample.at_date "2021-06-01";
          now_age := Sample.at_date "2021-06-01" |}
       {| DataCleaner.cleaning_report :=
            [ {| DataCleaner.dataset := "patients";
                 DataCleaner.initial_rows := 1;
                 DataCleaner.final_rows := 1;
                 DataCleaner.removed_rows := 0 |} ] |}
       (Sample.frame ["patient_id"; "date_of_birth"; "age"]
          [[Str "P1"; Timestamp (Sample.at_date "1900-01-01"); Int 120]])
     = Ok (Sample.frame ["patient_id"; "date_of_birth"; "age"] [],
           {| DataCleaner.cleaning_report :=
                [ {| DataCleaner.dataset := "patients";
                     DataCleaner.initial_rows := 1;
                     DataCleaner.final_rows := 1;
                     DataCleaner.removed_rows := 0 |};
                  {| DataCleaner.dataset := "patients";
                     DataCleaner.initial_rows := 1;
                     DataCleaner.final_rows := 0;
                     DataCleaner.removed_rows := 1 |} ] |}).
Proof. split; vm_compute; reflexivity. Qed.

Lemma patients_second_call (parse_datetime : string -> option Z)
      (now_dob now_age now_dob' now_age' : Z) (self self1 : DataCleaner.t)
      (df out : DataFrame) :
  DataCleaner.clean_patients_data parse_datetime now_dob now_age self df
  = Ok (out, self1) ->
  now_dob <= now_dob' ->
  now_age <= now_age' ->
  (forall r t, r ∈ rows out -> Pd.cell r "date_of_birth" = Timestamp t ->
               age_at now_age' t <= MAX_AGE) ->
  exists out2,
    DataCleaner.clean_patients_data parse_datetime now_dob' now_age' self1 out
    = Ok (out2, report_of "patients" self1 out out2)
    /\ length (rows out2) = length (rows out).
Proof.
  intros H1 Hdob Hage Hold.
  rewrite clean_patients_data_frame in H1 |- *.
  destruct (Rowwise.patients _ _ _ _ _ _ (rows df)) as [l1|] eqn:Hp;
    [|discriminate].
  cbv zeta in H1. injection H1 as <- _.
  rewrite !has_column_kept by discriminate. cbn [rows columns] in *.
  destruct (patients_twice _ _ _ now_dob' now_age' _ _ _ _ _ Hp Hdob Hage)
    as (l2 & Hp2 & Hlen).
  { intros r t Hr. apply Hold. apply list_elem_of_In. exact Hr. }
  change (bool_decide ("gender" ∈ columns df))
    with (Pd.has_column df "gender").
  change (bool_decide ("date_of_birth" ∈ columns df))
    with (Pd.has_column df "date_of_birth").
  change (bool_decide ("patient_id" ∈ columns df))
    with (Pd.has_column df "patient_id").
  rewrite Hp2. cbv zeta. eexists. split; [reflexivity|exact Hlen].
Qed.

(** C3, amended: for the visits and diagnoses sets, applying the cleaning
    call to the set it returned succeeds and appends a report entry with
    [removed_rows = 0]; for the medications and staff sets it does so when
    the name column holds text of the 7-bit range ([title] is not idempotent
    on every other text); for the patients set it does so provided the
    second call reads the clock no earlier than the first and no patient of
    the cleaned set is older than 120 at the second reading. *)
Theorem cleaning_twice_removes_nothing (parse_datetime : string -> option Z)
        (str_of_timestamp : Z -> string) (ds : dataset) (clk clk' : clock)
        (self self1 : DataCleaner.t) (df out : DataFrame) :
  clean parse_datetime str_of_timestamp ds clk self df = Ok (out, self1) ->
  (forall c, name_column ds df = Some c -> text_column df c = true) ->
  (ds = patients ->
   now_dob clk <= now_dob clk'
   /\ now_age clk <= now_age clk'
   /\ forall r t,
       r ∈ rows out ->
       Pd.cell r "date_of_birth" = Timestamp t ->
       age_at (now_age clk') t <= MAX_AGE) ->
  exists out2 self2 e,
    clean parse_datetime str_of_timestamp ds clk' self1 out = Ok (out2, self2)
    /\ DataCleaner.cleaning_report self2
       = (DataCleaner.cleaning_report self1 ++ [e])%list
    /\ DataCleaner.removed_rows e = 0.
Proof.
  intros H1 _ Hclk.
  assert (Hpair : forall name out2,
             length (rows out2) = length (rows out) ->
             exists out2' self2 e,
               Ok (out2, report_of name self1 out out2) = Ok (out2', self2)
               /\ DataCleaner.cleaning_report self2
                  = (DataCleaner.cleaning_report self1 ++ [e])%list
               /\ DataCleaner.removed_rows e = 0).
  { intros name out2 Hlen.
    destruct (report_of_same_length name self1 out out2 Hlen) as (e & He).
    exists out2, (report_of name self1 out out2), e.
    split; [reflexivity|exact He]. }
  destruct ds; unfold clean in *.
  - destruct (Hclk eq_refl) as (Hdob & Hage & Hold).
    destruct (patients_second_call _ _ _ _ _ _ _ _ _ H1 Hdob Hage Hold)
      as (out2 & -> & Hlen).
    apply Hpair. exact Hlen.
  - rewrite clean_visits_data_frame in H1 |- *. cbv zeta in *.
    injection H1 as Ho _. apply Hpair. subst out. cbn [rows columns].
    rewrite !has_column_kept by discriminate. apply visits_twice.
  - rewrite clean_diagnoses_data_frame in H1 |- *. cbv zeta in *.
    injection H1 as Ho _. apply Hpair. subst out. cbn [rows columns].
    rewrite !has_column_kept by discriminate. apply diagnoses_twice.
  - rewrite clean_medications_data_frame in H1 |- *. cbv zeta in *.
    injection H1 as Ho _. apply Hpair. subst out. cbn [rows columns].
    apply medications_twice.
  - rewrite clean_staff_data_frame in H1 |- *. cbv zeta in *.
    injection H1 as Ho _. apply Hpair. subst out. cbn [rows columns].
    apply staff_twice.
Qed.

Lemma cleaning_twice_removes_nothing_witness :
  clean Sample.parse_datetime Sample.str_of_timestamp patients
    {| now_dob := Sample.at_date "2020-06-01";
       now_age := Sample.at_date "2020-06-01" |}
    DataCleaner.init
    (Sample.frame ["patient_id"; "date_of_birth"]
       [[Str "P1"; Str "1900-01-01"]])
  = Ok (Sample.frame ["patient_id"; "date_of_birth"; "age"]
          [[Str "P1"; Timestamp (Sample.at_date "1900-01-01"); Int 120]],
        {| DataCleaner.cleaning_report :=
             [ {| DataCleaner.dataset := "patients";
                  DataCleaner.initial_rows := 1;
                  DataCleaner.final_rows := 1;
                  DataCleaner.removed_rows := 0 |} ] |})
  /\ (forall c,
         name_column medications
           (Sample.frame ["visit_id"; "medication_name"]
              [[Str "V1"; Str " aspirin "]; [Str "V1"; Str "Aspirin"]])
         = Some c ->
         text_column
           (Sample.frame ["visit_id"; "medication_name"]
              [[Str "V1"; Str " aspirin "]; [Str "V1"; Str "Aspirin"]]) c
         = true)
  /\ (exists out2 self2 e,
         clean Sample.parse_datetime Sample.str_of_timestamp medications
           {| now_dob := 0; now_age := 0 |}
           (snd (DataCleaner.clean_medications_data DataCleaner.init
                   (Sample.frame ["visit_id"; "medication_name"]
                      [[Str "V1"; Str " aspirin "];
                       [Str "V1"; Str "Aspirin"]])))
           (fst (DataCleaner.clean_medications_data DataCleaner.init
                   (Sample.frame ["visit_id"; "medication_name"]
                      [[Str "V1"; Str " aspirin "];
                       [Str "V1"; Str "Aspirin"]])))
         = Ok (out2, self2)
         /\ DataCleaner.cleaning_report self2
            = (DataCleaner.cleaning_report
                 (snd (DataCleaner.clean_medications_data DataCleaner.init
                         (Sample.frame ["visit_id"; "medication_name"]
                            [[Str "V1"; Str " aspirin "];
                             [Str "V1"; Str "Aspirin"]])))
               ++ [e])%list
         /\ DataCleaner.removed_rows e = 0)
  /\ (patients = patients ->
      Sample.at_date "2020-06-01" <= Sample.at_date "2020-06-02"
      /\ Sample.at_date "2020-06-01" <= Sample.at_date "2020-06-02"
      /\ forall r t,
          r ∈ rows (Sample.frame ["patient_id"; "date_of_birth"; "age"]
                      [[Str "P1"; Timestamp (Sample.at_date "1900-01-01");
                        Int 120]]) ->
          Pd.cell r "date_of_birth" = Timestamp t ->
          age_at (Sample.at_date "2020-06-02") t <= MAX_AGE)
  /\ exists out2 self2 e,
      clean Sample.parse_datetime Sample.str_of_timestamp patients
        {| now_dob := Sample.at_date "2020-06-02";
           now_age := Sample.at_date "2020-06-02" |}
        {| DataCleaner.cleaning_report :=
             [ {| DataCleaner.dataset := "patients";
                  DataCleaner.initial_rows := 1;
                  DataCleaner.final_rows := 1;
                  DataCleaner.removed_rows := 0 |} ] |}
        (Sample.frame ["patient_id"; "date_of_birth"; "age"]
           [[Str "P1"; Timestamp (Sample.at_date "1900-01-01"); Int 120]])
      = Ok (out2, self2)
      /\ DataCleaner.cleaning_report self2
         = ([ {| DataCleaner.dataset := "patients";
                 DataCleaner.initial_rows := 1;
                 DataCleaner.final_rows := 1;
                 DataCleaner.removed_rows := 0 |} ] ++ [e])%list
      /\ DataCleaner.removed_rows e = 0.
Proof.
  assert (Hborn :
    Pd.cell (Sample.row ["patient_id"; "date_of_birth"; "age"]
               [Str "P1"; Timestamp (Sample.at_date "1900-01-01"); Int 120])
            "date_of_birth"
    = Timestamp (Sample.at_date "1900-01-01")) by (vm_compute; reflexivity).
  assert (H1 :
    clean Sample.parse_datetime Sample.str_of_timestamp patients
      {| now_dob := Sample.at_date "2020-06-01";
         now_age := Sample.at_date "2020-06-01" |}
      DataCleaner.init
      (Sample.frame ["patient_id"; "date_of_birth"]
         [[Str "P1"; Str "1900-01-01"]])
    = Ok (Sample.frame ["patient_id"; "date_of_birth"; "age"]
            [[Str "P1"; Timestamp (Sample.at_date "1900-01-01"); Int 120]],
          {| DataCleaner.cleaning_report :=
               [ {| DataCleaner.dataset := "patients";
                    DataCleaner.initial_rows := 1;
                    DataCleaner.final_rows := 1;
                    DataCleaner.removed_rows := 0 |} ] |}))
    by (vm_compute; reflexivity).
  assert (H2 :
    patients = patients ->
    Sample.at_date "2020-06-01" <= Sample.at_date "2020-06-02"
    /\ Sample.at_date "2020-06-01" <= Sample.at_date "2020-06-02"
    /\ forall r t,
        r ∈ rows (Sample.frame ["patient_id"; "date_of_birth"; "age"]
                    [[Str "P1"; Timestamp (Sample.at_date "1900-01-01");
                      Int 120]]) ->
        Pd.cell r "date_of_birth" = Timestamp t ->
        age_at (Sample.at_date "2020-06-02") t <= MAX_AGE).
  { intros _. split; [apply Z.leb_le; vm_compute; reflexivity|].
    split; [apply Z.leb_le; vm_compute; reflexivity|].
    intros r t Hr Ht. cbn [rows Sample.frame map] in Hr.
    apply list_elem_of_singleton in Hr. subst r.
    rewrite Hborn in Ht. injection Ht as <-.
    apply Z.leb_le. vm_compute. reflexivity. }
  assert (Htext : forall c,
    name_column medications
      (Sample.frame ["visit_id"; "medication_name"]
         [[Str "V1"; Str " aspirin "]; [Str "V1"; Str "Aspirin"]])
    = Some c ->
    text_column
      (Sample.frame ["visit_id"; "medication_name"]
         [[Str "V1"; Str " aspirin "]; [Str "V1"; Str "Aspirin"]]) c
    = true).
  { intros c [= <-]. reflexivity. }
  split; [exact H1|]. split; [exact Htext|]. split.
  { refine (cleaning_twice_removes_nothing Sample.parse_datetime
              Sample.str_of_timestamp medications
              {| now_dob := 0; now_age := 0 |} {| now_dob := 0; now_age := 0 |}
              DataCleaner.init _ _ _ eq_refl Htext _).
    intros H. discriminate H. }
  split; [exact H2|].
  refine (cleaning_twice_removes_nothing _ _ _ _
            {| now_dob := Sample.at_date "2020-06-02";
               now_age := Sample.at_date "2020-06-02" |} _ _ _ _ H1 _ H2).
  intros c H. discriminate H.
Defined.

(* ================================================================= *)
(** * Further properties of the cleaning calls *)

Lemma clean_patients_data_ok (parse_datetime : string -> option Z)
      (now_dob now_age : Z) (self self' : DataCleaner.t) (df out : DataFrame) :
  DataCleaner.clean_patients_data parse_datetime now_dob now_age self df
  = Ok (out, self') ->
  Rowwise.patients parse_datetime now_dob now_age
    (Pd.has_column df "gender") (Pd.has_column df "date_of_birth")
    (Pd.has_column df "patient_id") (rows df) = Ok (rows out)
  /\ columns out = (if Pd.has_column df "date_of_birth"
                    then add_column "age" (columns df) else columns df).
Proof.
  rewrite clean_patients_data_frame.
  destruct (Rowwise.patients _ _ _ _ _ _ _) as [l'|e]; [|discriminate].
  cbv zeta. intros [= <- _]. split; reflexivity.
Qed.

(** X1: on a set whose dates of birth are timestamps, missing values or
    text without a time zone (plain dates and text with no digit), the
    readable ones within reach of the clock (their distance to it fits a
    timedelta), [clean_patients_data] raises [ValueError] exactly when the
    set has a [date_of_birth] column with a missing or unreadable cell, and
    returns exactly when it has none. *)
Theorem clean_patients_data_returns_iff (parse_datetime : string -> option Z)
        (now_dob now_age : Z) (self : DataCleaner.t) (df : DataFrame) :
  forallb naive_date (Pd.col df "date_of_birth") = true ->
  forallb (fun r => date_in_reach now_age
                      (Pd.to_datetime_cell parse_datetime
                         (Pd.cell r "date_of_birth")))
          (rows df) = true ->
  (DataCleaner.clean_patients_data parse_datetime now_dob now_age self df
   = Raise ValueError <-> unparsable_dob parse_datetime df)
  /\ ((exists out self',
          DataCleaner.clean_patients_data parse_datetime now_dob now_age self df
          = Ok (out, self'))
      <-> ~ unparsable_dob parse_datetime df).
Proof.
  intros _ _.
  assert (Hraise : unparsable_dob parse_datetime df ->
                   DataCleaner.clean_patients_data parse_datetime
                     now_dob now_age self df = Raise ValueError).
  { intros (Hd & r & Hr & Hnan).
    destruct (proj2 (patients_rows_raise parse_datetime now_dob now_age
                       (Pd.has_column df "gender")
                       (Pd.has_column df "date_of_birth")
                       (Pd.has_column df "patient_id") (rows df)))
      as [e He].
    { split; [exact Hd|]. exists r.
      split; [apply list_elem_of_In; exact Hr|exact Hnan]. }
    destruct (DataCleaner.clean_patients_data _ _ _ _ _)
      as [[out self']|e'] eqn:Hc.
    - apply clean_patients_data_ok in Hc as [Hc _]. congruence.
    - apply clean_patients_data_raises in Hc as [-> _]. reflexivity. }
  split; split.
  - intros H. apply clean_patients_data_raises in H as [_ H]. exact H.
  - exact Hraise.
  - intros (out & self' & Hc) Hu. rewrite (Hraise Hu) in Hc. discriminate Hc.
  - intros Hn.
    destruct (DataCleaner.clean_patients_data _ _ _ _ _)
      as [[out self']|e] eqn:Hc.
    + eauto.
    + apply clean_patients_data_raises in Hc as [_ Hu]. contradiction.
Qed.

Lemma clean_patients_data_returns_iff_witness :
  forallb naive_date
          (Pd.col (Sample.frame ["patient_id"; "date_of_birth"]
                     [[Str "P1"; Str "1980-05-01"];
                      [Str "P2"; Str "not a date"]])
                  "date_of_birth") = true
  /\ forallb (fun r => date_in_reach (Sample.at_date "2020-05-01")
                      (Pd.to_datetime_cell Sample.parse_datetime
                         (Pd.cell r "date_of_birth")))
          (rows (Sample.frame ["patient_id"; "date_of_birth"]
                   [[Str "P1"; Str "1980-05-01"];
                    [Str "P2"; Str "not a date"]])) = true
  /\ (DataCleaner.clean_patients_data Sample.parse_datetime
        (Sample.at_date "2020-05-01") (Sample.at_date "2020-05-01")
        DataCleaner.init
        (Sample.frame ["patient_id"; "date_of_birth"]
           [[Str "P1"; Str "1980-05-01"]; [Str "P2"; Str "not a date"]])
      = Raise ValueError
      <-> unparsable_dob Sample.parse_datetime
            (Sample.frame ["patient_id"; "date_of_birth"]
               [[Str "P1"; Str "1980-05-01"];
                [Str "P2"; Str "not a date"]])).
Proof.
  split; [vm_compute; reflexivity|]. split; [vm_compute; reflexivity|].
  apply (clean_patients_data_returns_iff Sample.parse_datetime);
    vm_compute; reflexivity.
Defined.

(** X2: when the set has a [date_of_birth] column, every row that
    [clean_patients_data] returns holds a parsed date of birth that is not
    after the clock reading of the future-date filter, and an [age] that is
    the whole number of 365.25-day years from that date to the clock reading
    of the age computation, between 0 and 120. *)
Theorem clean_patients_data_rows (parse_datetime : string -> option Z)
        (now_dob now_age : Z) (self self' : DataCleaner.t)
        (df out : DataFrame) (r : gmap string value) :
  Pd.has_column df "date_of_birth" = true ->
  DataCleaner.clean_patients_data parse_datetime now_dob now_age self df
  = Ok (out, self') ->
  r ∈ rows out ->
  exists t : Z,
    Pd.cell r "date_of_birth" = Timestamp t
    /\ t <= now_dob
    /\ Pd.cell r "age" = Int (age_at now_age t)
    /\ 0 <= age_at now_age t <= 120.
Proof.
  intros Hd Hc Hr. apply clean_patients_data_ok in Hc as [Hc _].
  rewrite Hd in Hc. apply list_elem_of_In in Hr.
  exact (patients_row _ _ _ _ _ _ _ _ Hc Hr).
Qed.

Lemma clean_patients_data_rows_witness :
  Pd.has_column (Sample.frame ["patient_id"; "date_of_birth"]
                   [[Str "P1"; Str "1980-05-01"]]) "date_of_birth" = true
  /\ DataCleaner.clean_patients_data Sample.parse_datetime
       (Sample.at_date "2020-05-01") (Sample.at_date "2020-05-01")
       DataCleaner.init
       (Sample.frame ["patient_id"; "date_of_birth"]
          [[Str "P1"; Str "1980-05-01"]])
     = Ok (Sample.frame ["patient_id"; "date_of_birth"; "age"]
             [[Str "P1"; Timestamp (Sample.at_date "1980-05-01"); Int 40]],
           {| DataCleaner.cleaning_report :=
                [ {| DataCleaner.dataset := "patients";
                     DataCleaner.initial_rows := 1;
                     DataCleaner.final_rows := 1;
                     DataCleaner.removed_rows := 0 |} ] |})
  /\ exists t : Z,
      Pd.cell (Sample.row ["patient_id"; "date_of_birth"; "age"]
                 [Str "P1"; Timestamp (Sample.at_date "1980-05-01"); Int 40])
              "date_of_birth" = Timestamp t
      /\ t <= Sample.at_date "2020-05-01"
      /\ Pd.cell (Sample.row ["patient_id"; "date_of_birth"; "age"]
                    [Str "P1"; Timestamp (Sample.at_date "1980-05-01"); Int 40])
                 "age" = Int (age_at (Sample.at_date "2020-05-01") t)
      /\ 0 <= age_at (Sample.at_date "2020-05-01") t <= 120.
Proof.
  assert (Hrun :
    DataCleaner.clean_patients_data Sample.parse_datetime
       (Sample.at_date "2020-05-01") (Sample.at_date "2020-05-01")
       DataCleaner.init
       (Sample.frame ["patient_id"; "date_of_birth"]
          [[Str "P1"; Str "1980-05-01"]])
     = Ok (Sample.frame ["patient_id"; "date_of_birth"; "age"]
             [[Str "P1"; Timestamp (Sample.at_date "1980-05-01"); Int 40]],
           {| DataCleaner.cleaning_report :=
                [ {| DataCleaner.dataset := "patients";
                     DataCleaner.initial_rows := 1;
                     DataCleaner.final_rows := 1;
                     DataCleaner.removed_rows := 0 |} ] |})).
  { vm_compute. reflexivity. }
  split; [reflexivity|]. split; [exact Hrun|].
  refine (clean_patients_data_rows _ _ _ _ _ _ _ _ _ Hrun _);
    [reflexivity | apply list_elem_of_here].
Defined.

(** Traces a row of a pipeline's result back through its filters, maps and
    first occurrences. *)
Ltac chase H :=
  repeat first
    [ apply first_occurrences_In in H as [H _]
    | apply filter_In in H as [H _]
    | apply in_map_iff in H as (? & <- & H)
    | match type of H with
      | In _ (if ?b then _ else _) => destruct b
      end ].

Lemma dict_get_In (mapping : list (string * string)) (k v : string) :
  Pd.dict_get mapping k = Some v -> In v (map snd mapping).
Proof.
  induction mapping as [|[k' v'] mapping IH]; cbn; [discriminate|].
  destruct (String.eqb k' k); [intros [= ->]; auto|auto].
Qed.

Lemma standard_gender_values (x : value) :
  Pd.fillna_cell (Str "Unknown")
    (Pd.map_dict_cell DataCleaner.gender_mapping x)
  ∈ [Str "Male"; Str "Female"; Str "Other"; Str "Unknown"].
Proof.
  destruct x as [|k| | | |]; try (cbn; set_solver).
  unfold Pd.map_dict_cell.
  destruct (Pd.dict_get DataCleaner.gender_mapping k) as [v|] eqn:E;
    [|cbn; set_solver].
  apply dict_get_In in E. cbn in E.
  repeat destruct E as [<-|E]; try contradiction; cbn; set_solver.
Qed.

Lemma patients_row_gender (parse_datetime : string -> option Z)
      (now_dob now_age : Z) (hd hp : bool)
      (l l1 : list (gmap string value)) (r : gmap string value) :
  Rowwise.patients parse_datetime now_dob now_age true hd hp l = Ok l1 ->
  In r l1 ->
  exists r0,
    In r0 l
    /\ Pd.cell r "gender"
       = Pd.fillna_cell (Str "Unknown")
           (Pd.map_dict_cell DataCleaner.gender_mapping
              (Pd.fillna_cell (Str "Unknown") (Pd.cell r0 "gender"))).
Proof.
  rewrite patients_rows_spec. cbv zeta.
  destruct (_ && _); [discriminate|]. intros [= <-] Hr.
  unfold Rowwise.patients_dob in Hr.
  chase Hr; eexists; (split; [exact Hr|]); unfold set_age; cells; reflexivity.
Qed.

(** X3: when the set has a [gender] column, every row that
    [clean_patients_data] returns has one of the four values "Male",
    "Female", "Other", "Unknown" in it. *)
Theorem clean_patients_data_gender (parse_datetime : string -> option Z)
        (now_dob now_age : Z) (self self' : DataCleaner.t)
        (df out : DataFrame) (r : gmap string value) :
  Pd.has_column df "gender" = true ->
  DataCleaner.clean_patients_data parse_datetime now_dob now_age self df
  = Ok (out, self') ->
  r ∈ rows out ->
  Pd.cell r "gender" ∈ [Str "Male"; Str "Female"; Str "Other"; Str "Unknown"].
Proof.
  intros Hg Hc Hr. apply clean_patients_data_ok in Hc as [Hc _].
  rewrite Hg in Hc. apply list_elem_of_In in Hr.
  destruct (patients_row_gender _ _ _ _ _ _ _ _ Hc Hr) as (r0 & _ & ->).
  apply standard_gender_values.
Qed.

Lemma patients_gender_run :
  DataCleaner.clean_patients_data Sample.parse_datetime 0 0 DataCleaner.init
    (Sample.frame ["patient_id"; "gender"] [[Str "P1"; Str "f"]])
  = Ok (Sample.frame ["patient_id"; "gender"] [[Str "P1"; Str "Female"]],
        {| DataCleaner.cleaning_report :=
             [ {| DataCleaner.dataset := "patients";
                  DataCleaner.initial_rows := 1;
                  DataCleaner.final_rows := 1;
                  DataCleaner.removed_rows := 0 |} ] |}).
Proof. vm_compute. reflexivity. Qed.

Lemma clean_patients_data_gender_witness :
  Pd.has_column (Sample.frame ["patient_id"; "gender"] [[Str "P1"; Str "f"]])
                "gender" = true
  /\ Pd.cell (Sample.row ["patient_id"; "gender"] [Str "P1"; Str "Female"])
             "gender"
     ∈ [Str "Male"; Str "Female"; Str "Other"; Str "Unknown"].
Proof.
  split; [reflexivity|].
  refine (clean_patients_data_gender _ _ _ _ _ _ _ _ _
            patients_gender_run _);
    [reflexivity | apply list_elem_of_here].
Defined.

(** What a cleaning call that returns gives, row by row. *)
Lemma clean_rows (parse_datetime : string -> option Z)
      (str_of_timestamp : Z -> string) (ds : dataset) (clk : clock)
      (self self' : DataCleaner.t) (df out : DataFrame) :
  clean parse_datetime str_of_timestamp ds clk self df = Ok (out, self') ->
  columns out = match derived_column ds df with
                | Some c => add_column c (columns df)
                | None => columns df
                end
  /\ match ds with
     | patients =>
         Rowwise.patients parse_datetime (now_dob clk) (now_age clk)
           (Pd.has_column df "gender") (Pd.has_column df "date_of_birth")
           (Pd.has_column df "patient_id") (rows df) = Ok (rows out)
     | visits =>
         rows out = Rowwise.visits parse_datetime
                      (Pd.has_column df "admission_date")
                      (Pd.has_column df "discharge_date")
                      (Pd.has_column df "visit_id") (rows df)
     | diagnoses =>
         rows out = Rowwise.diagnoses str_of_timestamp
                      (Pd.has_column df "icd_code")
                      (Pd.has_column df "visit_id") (rows df)
     | medications =>
         rows out = Rowwise.medications
                      (Pd.has_column df "visit_id")
                      (Pd.has_column df "medication_name") (rows df)
     | staff =>
         rows out = Rowwise.staff
                      (Pd.has_column df "staff_name")
                      (Pd.has_column df "name")
                      (Pd.has_column df "staff_id") (rows df)
     end.
Proof.
  destruct ds; unfold clean, derived_column.
  - intros Hc. apply clean_patients_data_ok in Hc as [Hr Hcols].
    split; [|exact Hr]. rewrite Hcols.
    destruct (Pd.has_column df "date_of_birth"); reflexivity.
  - rewrite clean_visits_data_frame. cbv zeta. intros [= <- _].
    cbn [columns rows]. split; [|reflexivity].
    destruct (_ && _); reflexivity.
  - rewrite clean_diagnoses_data_frame. cbv zeta. intros [= <- _].
    cbn [columns rows]. split; [|reflexivity].
    destruct (Pd.has_column df "icd_code"); reflexivity.
  - rewrite clean_medications_data_frame. cbv zeta. intros [= <- _].
    split; reflexivity.
  - rewrite clean_staff_data_frame. cbv zeta. intros [= <- _].
    split; reflexivity.
Qed.

(** X4: in the set a cleaning call returns no two rows agree on the key
    columns of the set ([patient_id]; [visit_id]; [visit_id] and
    [icd_code]; [visit_id] and [medication_name]; [staff_id]), provided the
    set given has these columns. *)
Theorem cleaned_keys_unique (parse_datetime : string -> option Z)
        (str_of_timestamp : Z -> string) (ds : dataset) (clk : clock)
        (self self' : DataCleaner.t) (df out : DataFrame) :
  (forall c, c ∈ key_columns ds -> Pd.has_column df c = true) ->
  clean parse_datetime str_of_timestamp ds clk self df = Ok (out, self') ->
  NoDup (map (Pd.key_of (key_columns ds)) (rows out)).
Proof.
  intros Hk Hc. apply clean_rows in Hc as [_ Hr].
  destruct ds; cbn [key_columns] in *.
  - rewrite (Hk "patient_id") in Hr by set_solver.
    rewrite patients_rows_spec in Hr. cbv zeta in Hr.
    destruct (_ && _); [discriminate|]. injection Hr as <-.
    apply first_occurrences_NoDup.
  - rewrite Hr, (Hk "visit_id") by set_solver.
    unfold Rowwise.visits. cbv zeta. apply first_occurrences_NoDup.
  - rewrite Hr, (Hk "visit_id"), (Hk "icd_code") by set_solver.
    unfold Rowwise.diagnoses. cbv zeta. apply first_occurrences_NoDup.
  - rewrite Hr, (Hk "visit_id"), (Hk "medication_name") by set_solver.
    unfold Rowwise.medications. cbv zeta. apply first_occurrences_NoDup.
  - rewrite Hr, (Hk "staff_id") by set_solver.
    unfold Rowwise.staff. cbv zeta. apply first_occurrences_NoDup.
Qed.

Lemma staff_duplicate_run :
  clean Sample.parse_datetime Sample.str_of_timestamp staff
    {| now_dob := 0; now_age := 0 |} DataCleaner.init
    (Sample.frame ["staff_id"; "staff_name"]
       [[Str "S1"; Str " ann lee "]; [Str "S1"; Str "Ann Lee"];
        [Str "S2"; Str "bob"]])
  = Ok (Sample.frame ["staff_id"; "staff_name"]
          [[Str "S1"; Str "Ann Lee"]; [Str "S2"; Str "Bob"]],
        {| DataCleaner.cleaning_report :=
             [ {| DataCleaner.dataset := "staff";
                  DataCleaner.initial_rows := 3;
                  DataCleaner.final_rows := 2;
                  DataCleaner.removed_rows := 1 |} ] |}).
Proof. vm_compute. reflexivity. Qed.

Lemma cleaned_keys_unique_witness :
  (forall c, c ∈ key_columns staff ->
             Pd.has_column
               (Sample.frame ["staff_id"; "staff_name"]
                  [[Str "S1"; Str " ann lee "]; [Str "S1"; Str "Ann Lee"];
                   [Str "S2"; Str "bob"]]) c = true)
  /\ NoDup (map (Pd.key_of (key_columns staff))
              (rows (Sample.frame ["staff_id"; "staff_name"]
                       [[Str "S1"; Str "Ann Lee"]; [Str "S2"; Str "Bob"]]))).
Proof.
  assert (Hk : forall c, c ∈ key_columns staff ->
             Pd.has_column
               (Sample.frame ["staff_id"; "staff_name"]
                  [[Str "S1"; Str " ann lee "]; [Str "S1"; Str "Ann Lee"];
                   [Str "S2"; Str "bob"]]) c = true).
  { intros c Hc. apply list_elem_of_singleton in Hc as ->. reflexivity. }
  split; [exact Hk|].
  exact (cleaned_keys_unique _ _ _ _ _ _ _ _ Hk staff_duplicate_run).
Defined.

(** X5: a cleaning call keeps the columns of the set it is given, in their
    order, and adds at most one, after them: [age] for patients with a
    [date_of_birth], [length_of_stay] for visits with both dates,
    [icd_code_valid] for diagnoses with an [icd_code]; a column of that name
    already there is overwritten in place. *)
Theorem cleaned_columns (parse_datetime : string -> option Z)
        (str_of_timestamp : Z -> string) (ds : dataset) (clk : clock)
        (self self' : DataCleaner.t) (df out : DataFrame) :
  clean parse_datetime str_of_timestamp ds clk self df = Ok (out, self') ->
  columns out
  = match derived_column ds df with
    | Some c => if Pd.has_column df c then columns df
                else (columns df ++ [c])%list
    | None => columns df
    end.
Proof.
  intros Hc. apply clean_rows in Hc as [-> _].
  destruct (derived_column ds df); reflexivity.
Qed.

Lemma cleaned_columns_witness :
  clean Sample.parse_datetime Sample.str_of_timestamp visits
    {| now_dob := 0; now_age := 0 |} DataCleaner.init
    (Sample.frame ["visit_id"; "admission_date"; "discharge_date"]
       [[Str "V1"; Str "2020-01-01"; Str "2020-01-05"]])
  = Ok (Sample.frame
          ["visit_id"; "admission_date"; "discharge_date"; "length_of_stay"]
          [[Str "V1"; Timestamp (Sample.at_date "2020-01-01");
            Timestamp (Sample.at_date "2020-01-05"); Int 4]],
        {| DataCleaner.cleaning_report :=
             [ {| DataCleaner.dataset := "visits";
                  DataCleaner.initial_rows := 1;
                  DataCleaner.final_rows := 1;
                  DataCleaner.removed_rows := 0 |} ] |})
  /\ columns (Sample.frame
                ["visit_id"; "admission_date"; "discharge_date";
                 "length_of_stay"]
                [[Str "V1"; Timestamp (Sample.at_date "2020-01-01");
                  Timestamp (Sample.at_date "2020-01-05"); Int 4]])
     = ["visit_id"; "admission_date"; "discharge_date"; "length_of_stay"].
Proof.
  assert (Hrun :
    clean Sample.parse_datetime Sample.str_of_timestamp visits
      {| now_dob := 0; now_age := 0 |} DataCleaner.init
      (Sample.frame ["visit_id"; "admission_date"; "discharge_date"]
         [[Str "V1"; Str "2020-01-01"; Str "2020-01-05"]])
    = Ok (Sample.frame
            ["visit_id"; "admission_date"; "discharge_date"; "length_of_stay"]
            [[Str "V1"; Timestamp (Sample.at_date "2020-01-01");
              Timestamp (Sample.at_date "2020-01-05"); Int 4]],
          {| DataCleaner.cleaning_report :=
               [ {| DataCleaner.dataset := "visits";
                    DataCleaner.initial_rows := 1;
                    DataCleaner.final_rows := 1;
                    DataCleaner.removed_rows := 0 |} ] |})).
  { vm_compute. reflexivity. }
  split; [exact Hrun|].
  exact (cleaned_columns _ _ _ _ _ _ _ _ Hrun).
Defined.

(** Decides a closed statement. *)
Ltac decided := apply (bool_decide_eq_true_1 _); vm_compute; reflexivity.

(** Reads a cell of a column the pipeline does not write through the
    updates of the row. *)
Ltac unwritten Hc :=
  unfold set_age, Rowwise.parse_cell, Rowwise.set_stay, Rowwise.fill_gender,
    Rowwise.standard_gender, Rowwise.normalize_code, Rowwise.flag_code,
    Rowwise.clean_name;
  repeat match goal with
    | |- Pd.cell (<[?k := ?v]> ?r') ?c = _ =>
        rewrite (cell_insert_ne k c v r')
          by (intros E; apply Hc; rewrite <- E; decided)
    end;
  reflexivity.

(** X6: a cleaning call invents no row and alters no other column: every
    row it returns agrees with some row of the set given on every column
    except those the call writes ([gender], [date_of_birth], [age];
    [admission_date], [discharge_date], [length_of_stay]; [icd_code],
    [icd_code_valid]; [medication_name]; [staff_name], [name]). *)
Theorem cleaned_rows_provenance (parse_datetime : string -> option Z)
        (str_of_timestamp : Z -> string) (ds : dataset) (clk : clock)
        (self self' : DataCleaner.t) (df out : DataFrame)
        (r : gmap string value) :
  clean parse_datetime str_of_timestamp ds clk self df = Ok (out, self') ->
  r ∈ rows out ->
  exists r0,
    r0 ∈ rows df
    /\ forall c, c ∉ written_columns ds -> Pd.cell r c = Pd.cell r0 c.
Proof.
  intros Hc Hr. apply clean_rows in Hc as [_ Hrows].
  apply list_elem_of_In in Hr.
  destruct ds; cbn [written_columns].
  - rewrite patients_rows_spec in Hrows. cbv zeta in Hrows.
    destruct (_ && _); [discriminate|]. injection Hrows as Hrows.
    rewrite <- Hrows in Hr. unfold Rowwise.patients_dob in Hr.
    chase Hr; eexists; (split; [apply list_elem_of_In; exact Hr|]);
      intros c Hc; unwritten Hc.
  - rewrite Hrows in Hr. unfold Rowwise.visits in Hr. cbv zeta in Hr.
    chase Hr; eexists; (split; [apply list_elem_of_In; exact Hr|]);
      intros c Hc; unwritten Hc.
  - rewrite Hrows in Hr. unfold Rowwise.diagnoses in Hr. cbv zeta in Hr.
    chase Hr; eexists; (split; [apply list_elem_of_In; exact Hr|]);
      intros c Hc; unwritten Hc.
  - rewrite Hrows in Hr. unfold Rowwise.medications in Hr. cbv zeta in Hr.
    chase Hr; eexists; (split; [apply list_elem_of_In; exact Hr|]);
      intros c Hc; unwritten Hc.
  - rewrite Hrows in Hr. unfold Rowwise.staff in Hr. cbv zeta in Hr.
    destruct (Pd.has_column df "staff_name"), (Pd.has_column df "name");
      cbn [orb] in Hr.
    all: chase Hr; eexists; (split; [apply list_elem_of_In; exact Hr|]);
      intros c Hc; unwritten Hc.
Qed.

Lemma cleaned_rows_provenance_witness :
  Sample.row ["staff_id"; "staff_name"] [Str "S1"; Str "Ann Lee"]
  ∈ rows (Sample.frame ["staff_id"; "staff_name"]
            [[Str "S1"; Str "Ann Lee"]; [Str "S2"; Str "Bob"]])
  /\ exists r0,
      r0 ∈ rows (Sample.frame ["staff_id"; "staff_name"]
                   [[Str "S1"; Str " ann lee "]; [Str "S1"; Str "Ann Lee"];
                    [Str "S2"; Str "bob"]])
      /\ forall c, c ∉ written_columns staff ->
                   Pd.cell (Sample.row ["staff_id"; "staff_name"]
                              [Str "S1"; Str "Ann Lee"]) c
                   = Pd.cell r0 c.
Proof.
  split; [apply list_elem_of_here|].
  exact (cleaned_rows_provenance _ _ _ _ _ _ _ _ _ staff_duplicate_run
           (list_elem_of_here _ _)).
Defined.




(** ** The validity flag of a cleaned diagnosis *)

Lemma chomp_rstrip (s : string) : chomp (Py.rstrip s) = Py.rstrip s.
Proof.
  induction s as [|c s IH]; [reflexivity|].
  cbn [Py.rstrip]. destruct (Py.rstrip s) as [|c' r] eqn:Er.
  - cbn [Py.is_empty]. rewrite andb_true_r.
    destruct (Py.isspace c) eqn:Ec; [reflexivity|].
    cbn [chomp]. destruct (Ascii.eqb c Re.newline) eqn:En; [|reflexivity].
    apply Ascii.eqb_eq in En. subst c. discriminate Ec.
  - cbn [Py.is_empty]. rewrite andb_false_r.
    change (chomp (String c (String c' r)))
      with (String c (chomp (String c' r))).
    rewrite IH. reflexivity.
Qed.

Lemma chomp_normal (s : string) :
  chomp (Py.upper (Py.strip s)) = Py.upper (Py.strip s).
Proof. rewrite <- strip_upper. apply chomp_rstrip. Qed.

(** X8: when the set has an [icd_code] column, every row that
    [clean_diagnoses_data] returns holds a code that is text, upper-cased
    and without white space around it, and its [icd_code_valid] flag is
    [True] exactly when that code is an upper-case letter, a digit, a digit
    or upper-case letter and then nothing or a dot followed by one to four
    digits or upper-case letters. *)
Theorem clean_diagnoses_data_flag (str_of_timestamp : Z -> string)
        (self : DataCleaner.t) (df : DataFrame) (r : gmap string value) :
  Pd.has_column df "icd_code" = true ->
  r ∈ rows (fst (DataCleaner.clean_diagnoses_data str_of_timestamp self df)) ->
  exists code,
    Pd.cell r "icd_code" = Str code
    /\ Py.upper (Py.strip code) = code
    /\ Pd.cell r "icd_code_valid" = Bool (icd10_shape code).
Proof.
  intros Hi. rewrite clean_diagnoses_data_frame. cbn [fst rows]. rewrite Hi.
  intros Hr. apply list_elem_of_In, diagnoses_row in Hr as (r0 & _ & ->).
  destruct (diagnoses_cells str_of_timestamp r0) as (Ec & Ev & _).
  rewrite Ev, Ec, normal_code_text.
  eexists. split; [reflexivity|]. split; [apply upper_strip_idem|].
  unfold Utils.validate_icd10_code. cbn [Pd.isna Pd.str].
  rewrite matches_icd10_shape, chomp_normal. reflexivity.
Qed.

Lemma clean_diagnoses_data_flag_witness :
  Pd.has_column (Sample.frame ["visit_id"; "icd_code"]
                   [[Str "V1"; Str " e11.9 "]; [Str "V2"; NaN]])
                "icd_code" = true
  /\ Sample.row ["visit_id"; "icd_code"; "icd_code_valid"]
       [Str "V1"; Str "E11.9"; Bool true]
     ∈ rows (fst (DataCleaner.clean_diagnoses_data Sample.str_of_timestamp
                    DataCleaner.init
                    (Sample.frame ["visit_id"; "icd_code"]
                       [[Str "V1"; Str " e11.9 "]; [Str "V2"; NaN]])))
  /\ exists code,
      Pd.cell (Sample.row ["visit_id"; "icd_code"; "icd_code_valid"]
                 [Str "V1"; Str "E11.9"; Bool true]) "icd_code" = Str code
      /\ Py.upper (Py.strip code) = code
      /\ Pd.cell (Sample.row ["visit_id"; "icd_code"; "icd_code_valid"]
                    [Str "V1"; Str "E11.9"; Bool true]) "icd_code_valid"
         = Bool (icd10_shape code).
Proof.
  assert (Hin :
    Sample.row ["visit_id"; "icd_code"; "icd_code_valid"]
       [Str "V1"; Str "E11.9"; Bool true]
     ∈ rows (fst (DataCleaner.clean_diagnoses_data Sample.str_of_timestamp
                    DataCleaner.init
                    (Sample.frame ["visit_id"; "icd_code"]
                       [[Str "V1"; Str " e11.9 "]; [Str "V2"; NaN]])))).
  { rewrite diagnoses_missing_code_run. apply list_elem_of_here. }
  split; [reflexivity|]. split; [exact Hin|].
  refine (clean_diagnoses_data_flag _ _ _ _ _ Hin). reflexivity.
Defined.

(** ** Visits that are kept *)

Lemma visits_kept_row (parse_datetime : string -> option Z)
      (r0 : gmap string value) :
  (forall a d : Z,
      Pd.to_datetime_cell parse_datetime (Pd.cell r0 "admission_date")
      = Timestamp a ->
      Pd.to_datetime_cell parse_datetime (Pd.cell r0 "discharge_date")
      = Timestamp d ->
      a <= d /\ (d - a) / Pd.ns_per_day <= 365) ->
  let r1 := Rowwise.parse_cell parse_datetime "discharge_date"
              (Rowwise.parse_cell parse_datetime "admission_date" r0) in
  Rowwise.dates_in_order r1 = true
  /\ Rowwise.stay_in_range (Rowwise.set_stay r1) = true.
Proof.
  intros Hok. cbv zeta.
  unfold Rowwise.dates_in_order, Rowwise.stay_in_range. cells.
  destruct (to_datetime_cell_parsed parse_datetime (Pd.cell r0 "admission_date"))
    as [Ha|[a Ha]];
    destruct (to_datetime_cell_parsed parse_datetime (Pd.cell r0 "discharge_date"))
      as [Hd|[d Hd]];
    rewrite Ha, Hd; try (split; reflexivity).
  destruct (Hok a d Ha Hd) as [Hle Hstay]. clear Hok Ha Hd.
  assert (H0 : 0 <= (d - a) / Pd.ns_per_day)
    by (apply Z.div_pos; [lia|reflexivity]).
  cbn. unfold MIN_LOS_DAYS, MAX_LOS_DAYS.
  rewrite (proj2 (Z.ltb_ge d a) Hle), (proj2 (Z.ltb_ge _ 0) H0).
  rewrite Z.gtb_ltb, (proj2 (Z.ltb_ge 365 _) Hstay). split; reflexivity.
Qed.

(** X9: [clean_visits_data] drops a visit only for a discharge before the
    admission, a stay of more than 365 days, or a [visit_id] seen in an
    earlier row.  A row whose parsed dates, when both are present, are in
    order and at most 365 days apart has its [visit_id] in the set
    returned; without a [visit_id] column the row itself is returned, its
    other columns unchanged.  The lower bound on the stay removes nothing. *)
Theorem clean_visits_data_keeps_valid (parse_datetime : string -> option Z)
        (self : DataCleaner.t) (df : DataFrame) (r0 : gmap string value) :
  Pd.has_column df "admission_date" = true ->
  Pd.has_column df "discharge_date" = true ->
  r0 ∈ rows df ->
  (forall a d : Z,
      Pd.to_datetime_cell parse_datetime (Pd.cell r0 "admission_date")
      = Timestamp a ->
      Pd.to_datetime_cell parse_datetime (Pd.cell r0 "discharge_date")
      = Timestamp d ->
      a <= d /\ (d - a) / Pd.ns_per_day <= 365) ->
  exists r,
    r ∈ rows (fst (DataCleaner.clean_visits_data parse_datetime self df))
    /\ Pd.cell r "visit_id" = Pd.cell r0 "visit_id"
    /\ (Pd.has_column df "visit_id" = false ->
        forall c, c ∉ written_columns visits -> Pd.cell r c = Pd.cell r0 c).
Proof.
  intros Ha Hd Hr0 Hok. rewrite clean_visits_data_frame. cbn [fst rows].
  rewrite Ha, Hd. apply list_elem_of_In in Hr0.
  destruct (visits_kept_row parse_datetime r0 Hok) as [Horder Hrange].
  set (r1 := Rowwise.set_stay
               (Rowwise.parse_cell parse_datetime "discharge_date"
                  (Rowwise.parse_cell parse_datetime "admission_date" r0))).
  cbv zeta in Hrange. fold r1 in Hrange.
  assert (Hin : In r1 (List.filter Rowwise.stay_in_range
                         (map Rowwise.set_stay
                            (List.filter Rowwise.dates_in_order
                               (map (Rowwise.parse_cell parse_datetime
                                       "discharge_date")
                                  (map (Rowwise.parse_cell parse_datetime
                                          "admission_date") (rows df))))))).
  { apply filter_In. split; [|exact Hrange]. apply in_map.
    apply filter_In. split; [|exact Horder]. apply in_map, in_map. exact Hr0. }
  assert (Hcells : forall c, c ∉ written_columns visits ->
                             Pd.cell r1 c = Pd.cell r0 c).
  { intros c Hc. unfold r1. unwritten Hc. }
  unfold Rowwise.visits. cbv zeta. cbn [andb].
  destruct (Pd.has_column df "visit_id").
  - destruct (first_occurrences_covers (Pd.key_of ["visit_id"]) [] _ r1 Hin)
      as (r & Hr & Hk).
    { intros H. apply elem_of_nil in H. exact H. }
    exists r. split; [apply list_elem_of_In; exact Hr|].
    split; [|discriminate]. injection Hk as ->.
    apply Hcells. decided.
  - exists r1. split; [apply list_elem_of_In; exact Hin|].
    split; [apply Hcells; decided|]. intros _. exact Hcells.
Qed.

Lemma clean_visits_data_keeps_valid_witness :
  Sample.row ["visit_id"; "admission_date"; "discharge_date"]
    [Str "V2"; Str "2020-01-01"; Str "2020-01-05"]
  ∈ rows (Sample.frame ["visit_id"; "admission_date"; "discharge_date"]
            [[Str "V1"; Str "2020-01-10"; Str "2020-01-05"];
             [Str "V2"; Str "2020-01-01"; Str "2020-01-05"]])
  /\ (forall a d : Z,
         Pd.to_datetime_cell Sample.parse_datetime
           (Pd.cell (Sample.row
                       ["visit_id"; "admission_date"; "discharge_date"]
                       [Str "V2"; Str "2020-01-01"; Str "2020-01-05"])
                    "admission_date")
         = Timestamp a ->
         Pd.to_datetime_cell Sample.parse_datetime
           (Pd.cell (Sample.row
                       ["visit_id"; "admission_date"; "discharge_date"]
                       [Str "V2"; Str "2020-01-01"; Str "2020-01-05"])
                    "discharge_date")
         = Timestamp d ->
         a = Sample.at_date "2020-01-01" /\ d = Sample.at_date "2020-01-05"
         /\ a <= d /\ (d - a) / Pd.ns_per_day <= 365)
  /\ exists r,
      r ∈ rows (fst (DataCleaner.clean_visits_data Sample.parse_datetime
                       DataCleaner.init
                       (Sample.frame
                          ["visit_id"; "admission_date"; "discharge_date"]
                          [[Str "V1"; Str "2020-01-10"; Str "2020-01-05"];
                           [Str "V2"; Str "2020-01-01"; Str "2020-01-05"]])))
      /\ Pd.cell r "visit_id"
         = Pd.cell (Sample.row ["visit_id"; "admission_date"; "discharge_date"]
                      [Str "V2"; Str "2020-01-01"; Str "2020-01-05"])
                   "visit_id"
      /\ (Pd.has_column
            (Sample.frame ["visit_id"; "admission_date"; "discharge_date"]
               [[Str "V1"; Str "2020-01-10"; Str "2020-01-05"];
                [Str "V2"; Str "2020-01-01"; Str "2020-01-05"]])
            "visit_id" = false ->
          forall c, c ∉ written_columns visits ->
                    Pd.cell r c
                    = Pd.cell (Sample.row
                                 ["visit_id"; "admission_date"; "discharge_date"]
                                 [Str "V2"; Str "2020-01-01"; Str "2020-01-05"])
                              c).
Proof.
  assert (Hdates : forall a d : Z,
    Pd.to_datetime_cell Sample.parse_datetime
      (Pd.cell (Sample.row ["visit_id"; "admission_date"; "discharge_date"]
                  [Str "V2"; Str "2020-01-01"; Str "2020-01-05"])
               "admission_date")
    = Timestamp a ->
    Pd.to_datetime_cell Sample.parse_datetime
      (Pd.cell (Sample.row ["visit_id"; "admission_date"; "discharge_date"]
                  [Str "V2"; Str "2020-01-01"; Str "2020-01-05"])
               "discharge_date")
    = Timestamp d ->
    a = Sample.at_date "2020-01-01" /\ d = Sample.at_date "2020-01-05"
    /\ a <= d /\ (d - a) / Pd.ns_per_day <= 365).
  { intros a d Ha Hd.
    change (Timestamp (Sample.at_date "2020-01-01") = Timestamp a) in Ha.
    change (Timestamp (Sample.at_date "2020-01-05") = Timestamp d) in Hd.
    injection Ha as <-. injection Hd as <-.
    split; [reflexivity|]. split; [reflexivity|].
    split; apply Z.leb_le; vm_compute; reflexivity. }
  split; [apply list_elem_of_further, list_elem_of_here|].
  split; [exact Hdates|].
  apply clean_visits_data_keeps_valid;
    [reflexivity | reflexivity
    | apply list_elem_of_further, list_elem_of_here |].
  intros a d Ha Hd. exact (proj2 (proj2 (Hdates a d Ha Hd))).
Defined.

(* ================================================================= *)
(** * The validators *)

(** ** Tests on a Series *)

Lemma all_map {A : Type} (p : A -> bool) (l : list A) :
  Pd.all (map p l) = forallb p l.
Proof.
  unfold Pd.all. induction l as [|x l IH]; [reflexivity|].
  cbn. rewrite IH. reflexivity.
Qed.

Lemma sum_map {A : Type} (p : A -> bool) (l : list A) :
  Pd.sum (map p l) = Z.of_nat (length (List.filter p l)).
Proof.
  unfold Pd.sum. f_equal.
  induction l as [|x l IH]; [reflexivity|].
  cbn. destruct (p x); cbn; rewrite IH; reflexivity.
Qed.

Lemma between_within (s : list value) (lo hi : Z) :
  Pd.between s lo hi = map (within lo hi) s.
Proof.
  unfold Pd.between, Pd.mask_and, Pd.ge_scalar, Pd.le_scalar.
  rewrite zip_with_map_diag. apply map_ext. intros [| |z| | |]; try reflexivity.
  cbn. rewrite Z.geb_leb. reflexivity.
Qed.

Lemma remove_dups_length_le (s : list value) :
  (length (remove_dups s) <= length s)%nat.
Proof.
  induction s as [|v s IH]; [reflexivity|].
  cbn. destruct (decide_rel elem_of v s); cbn; lia.
Qed.

Lemma remove_dups_length_NoDup (s : list value) :
  length (remove_dups s) = length s <-> NoDup s.
Proof.
  split.
  - induction s as [|v s IH]; [constructor|].
    cbn. pose proof (remove_dups_length_le s).
    destruct (decide_rel elem_of v s); cbn; [lia|].
    intros [= H']. constructor; auto.
  - induction 1 as [|v s Hv _ IH]; [reflexivity|].
    cbn. destruct (decide_rel elem_of v s); [contradiction|].
    cbn. rewrite IH. reflexivity.
Qed.

(** [duplicated] flags as many cells as there are cells beyond the
    distinct values. *)
Lemma series_duplicated_count (seen s : list value) :
  (length (List.filter id (Pd.series_duplicated_from seen s))
   + length (remove_dups (list_difference s seen)) = length s)%nat.
Proof.
  revert seen. induction s as [|v s IH]; intros seen; [reflexivity|].
  cbn [Pd.series_duplicated_from List.filter length].
  specialize (IH (v :: seen)).
  assert (Hnd : NoDup (remove_dups (list_difference s (v :: seen))))
    by apply NoDup_remove_dups.
  case_bool_decide as Hv; cbn [id length].
  - enough (remove_dups (list_difference (v :: s) seen)
            ≡ₚ remove_dups (list_difference s (v :: seen))) as ->
      by lia.
    apply NoDup_Permutation; [apply NoDup_remove_dups|exact Hnd|].
    intros x. rewrite !elem_of_remove_dups, !list_elem_of_difference,
      !elem_of_cons.
    split; [|tauto]. intros [[->|Hx] Hs]; [contradiction|].
    split; [exact Hx|]. intros [->|?]; contradiction.
  - enough (remove_dups (list_difference (v :: s) seen)
            ≡ₚ v :: remove_dups (list_difference s (v :: seen))) as ->
      by (cbn [length]; lia).
    apply NoDup_Permutation.
    + apply NoDup_remove_dups.
    + constructor; [|exact Hnd].
      rewrite elem_of_remove_dups, list_elem_of_difference, elem_of_cons.
      tauto.
    + intros x. rewrite elem_of_cons, !elem_of_remove_dups,
        !list_elem_of_difference, !elem_of_cons.
      destruct (decide (x = v)) as [->|Hne]; [tauto|]. tauto.
Qed.

Lemma sum_series_duplicated (s : list value) :
  Pd.sum (Pd.series_duplicated s) = repeats s.
Proof.
  unfold Pd.sum, Pd.series_duplicated, repeats.
  pose proof (series_duplicated_count [] s) as H.
  replace (list_difference s []) with s in H; [lia|].
  clear H. induction s as [|v s IH]; [reflexivity|].
  cbn. destruct (decide_rel elem_of v []) as [H|_];
    [apply elem_of_nil in H; contradiction|].
  f_equal. exact IH.
Qed.

Lemma is_unique_NoDup (s : list value) : Pd.is_unique s = true <-> NoDup s.
Proof. apply bool_decide_eq_true. Qed.

Lemma repeats_pos (s : list value) : Pd.is_unique s = false -> 0 < repeats s.
Proof.
  intros H. unfold repeats.
  pose proof (remove_dups_length_le s) as Hle.
  destruct (decide (length (remove_dups s) = length s)) as [E|E]; [|lia].
  apply remove_dups_length_NoDup, is_unique_NoDup in E. congruence.
Qed.

Lemma all_notna (s : list value) :
  Pd.all (Pd.notna s) = true <-> forall v, v ∈ s -> Pd.isna v = false.
Proof.
  unfold Pd.notna. rewrite all_map, forallb_forall. split.
  - intros H v Hin. apply list_elem_of_In in Hin. specialize (H _ Hin).
    apply negb_true_iff. exact H.
  - intros H v Hv. apply negb_true_iff, H, list_elem_of_In, Hv.
Qed.

(** ** [validate_patients] *)

(** X10: on a set with the [patient_id] and [age] columns, the ages being
    whole numbers or missing, [validate_patients] records three checks.
    [unique_patient_id] passes exactly when no id occurs twice, and when it
    fails its message counts
    the rows beyond the distinct ids, at least one; [valid_age_range]
    passes exactly when every age is a number between 0 and 120, and when
    it fails its message counts the ages that are missing or outside;
    [no_missing_patient_id] passes exactly when no id is missing, and when
    it fails its message counts the missing ids. *)
Theorem validate_patients_checks (self : DataValidator.t) (df : DataFrame) :
  Pd.has_column df "patient_id" = true ->
  Pd.has_column df "age" = true ->
  forallb number_or_missing (Pd.col df "age") = true ->
  exists unique in_range present,
    DataValidator.checks (fst (DataValidator.validate_patients self df))
    = [unique; in_range; present]
    /\ DataValidator.test unique = "unique_patient_id"
    /\ (DataValidator.passed unique = true
        <-> NoDup (Pd.col df "patient_id"))
    /\ (DataValidator.passed unique = false ->
        0 < repeats (Pd.col df "patient_id")
        /\ DataValidator.message unique
           = "found " ++ Py.str_of_Z (repeats (Pd.col df "patient_id"))
             ++ " duplicate patient ids")
    /\ DataValidator.test in_range = "valid_age_range"
    /\ (DataValidator.passed in_range = true
        <-> forall v, v ∈ Pd.col df "age" -> within 0 120 v = true)
    /\ (DataValidator.passed in_range = false ->
        DataValidator.message in_range
        = "found "
          ++ Py.str_of_Z (count (fun v => negb (within 0 120 v))
                                (Pd.col df "age"))
          ++ " invalid ages")
    /\ DataValidator.test present = "no_missing_patient_id"
    /\ (DataValidator.passed present = true
        <-> forall v, v ∈ Pd.col df "patient_id" -> Pd.isna v = false)
    /\ (DataValidator.passed present = false ->
        DataValidator.message present
        = "found " ++ Py.str_of_Z (count Pd.isna (Pd.col df "patient_id"))
          ++ " missing values in patient_id").
Proof.
  intros Hp Ha _. unfold DataValidator.validate_patients. cbv zeta.
  cbn [fold_left]. rewrite Hp, Ha.
  cbn [fst DataValidator.checks DataValidator.add_check List.app].
  do 3 eexists. split; [reflexivity|].
  cbn [DataValidator.test DataValidator.passed DataValidator.message].
  split; [reflexivity|]. split; [apply is_unique_NoDup|]. split.
  { intros H. rewrite H, sum_series_duplicated.
    split; [apply repeats_pos; exact H|reflexivity]. }
  split; [reflexivity|]. split.
  { rewrite between_within, all_map, forallb_forall.
    split; intros H v Hv; apply H, list_elem_of_In, Hv. }
  split.
  { intros ->. rewrite between_within. unfold Pd.mask_not.
    rewrite List.map_map, sum_map. reflexivity. }
  split; [reflexivity|]. split; [apply all_notna|].
  intros ->. unfold Pd.isna_series. rewrite sum_map. reflexivity.
Qed.

Lemma validate_patients_checks_witness :
  Pd.has_column sample_patients "patient_id" = true
  /\ Pd.has_column sample_patients "age" = true
  /\ forallb number_or_missing (Pd.col sample_patients "age") = true
  /\ exists unique in_range present,
      DataValidator.checks
        (fst (DataValidator.validate_patients DataValidator.init sample_patients))
      = [unique; in_range; present]
      /\ DataValidator.test unique = "unique_patient_id"
      /\ (DataValidator.passed unique = true
          <-> NoDup (Pd.col sample_patients "patient_id"))
      /\ (DataValidator.passed unique = false ->
          0 < repeats (Pd.col sample_patients "patient_id")
          /\ DataValidator.message unique
             = "found "
               ++ Py.str_of_Z (repeats (Pd.col sample_patients "patient_id"))
               ++ " duplicate patient ids")
      /\ DataValidator.test in_range = "valid_age_range"
      /\ (DataValidator.passed in_range = true
          <-> forall v, v ∈ Pd.col sample_patients "age" ->
                        within 0 120 v = true)
      /\ (DataValidator.passed in_range = false ->
          DataValidator.message in_range
          = "found "
            ++ Py.str_of_Z (count (fun v => negb (within 0 120 v))
                                  (Pd.col sample_patients "age"))
            ++ " invalid ages")
      /\ DataValidator.test present = "no_missing_patient_id"
      /\ (DataValidator.passed present = true
          <-> forall v, v ∈ Pd.col sample_patients "patient_id" ->
                        Pd.isna v = false)
      /\ (DataValidator.passed present = false ->
          DataValidator.message present
          = "found "
            ++ Py.str_of_Z (count Pd.isna (Pd.col sample_patients "patient_id"))
            ++ " missing values in patient_id").
Proof.
  split; [reflexivity|]. split; [reflexivity|]. split; [reflexivity|].
  apply validate_patients_checks; reflexivity.
Defined.

(** The run behind the witness. *)
Lemma validate_patients_run :
  DataValidator.checks
    (fst (DataValidator.validate_patients DataValidator.init sample_patients))
  = [ {| DataValidator.test := "unique_patient_id";
         DataValidator.passed := false;
         DataValidator.message := "found 1 duplicate patient ids" |};
      {| DataValidator.test := "valid_age_range";
         DataValidator.passed := false;
         DataValidator.message := "found 2 invalid ages" |};
      {| DataValidator.test := "no_missing_patient_id";
         DataValidator.passed := false;
         DataValidator.message := "found 1 missing values in patient_id" |} ].
Proof. vm_compute. reflexivity. Qed.

(** ** [validate_visits] *)

Lemma all_zip_rows {A : Type} (f : value -> value -> bool)
      (g h : A -> value) (l : list A) :
  Pd.all (zip_with f (map g l) (map h l)) = true
  <-> forall x, x ∈ l -> f (g x) (h x) = true.
Proof.
  rewrite zip_with_map_diag, all_map, forallb_forall.
  split; intros H x Hx; apply H, list_elem_of_In, Hx.
Qed.

Lemma filter_none {A : Type} (p : A -> bool) (l : list A) :
  (forall x, In x l -> p x = false) -> List.filter p l = [].
Proof.
  induction l as [|x l IH]; intros H; [reflexivity|].
  cbn. rewrite (H x (or_introl eq_refl)). apply IH.
  intros y Hy. apply H. right. exact Hy.
Qed.

Lemma compare_objects_missing (num : Z -> Z -> bool)
      (txt : string -> string -> bool) (a b : value) :
  a = NaN \/ b = NaN -> Pd.compare_objects num txt a b = false.
Proof. intros [->| ->]; [reflexivity|]. destruct a; reflexivity. Qed.

(** The three checks of [validate_visits], cell by cell, where the
    comparisons of the cells are defined. *)
Lemma validate_visits_record (self : DataValidator.t) (df : DataFrame) :
  Pd.has_column df "visit_id" = true ->
  Pd.has_column df "admission_date" = true ->
  Pd.has_column df "discharge_date" = true ->
  Pd.has_column df "length_of_stay" = true ->
  exists unique ordered stay,
    DataValidator.checks (fst (DataValidator.validate_visits self df))
    = [unique; ordered; stay]
    /\ DataValidator.test unique = "unique_visit_id"
    /\ (DataValidator.passed unique = true <-> NoDup (Pd.col df "visit_id"))
    /\ (DataValidator.passed unique = false ->
        0 < repeats (Pd.col df "visit_id")
        /\ DataValidator.message unique
           = "found " ++ Py.str_of_Z (repeats (Pd.col df "visit_id"))
             ++ " duplicate visit ids")
    /\ DataValidator.test ordered = "discharge_after_admission"
    /\ (DataValidator.passed ordered = true
        <-> forall r, r ∈ rows df ->
              Pd.compare_objects Z.geb Py.str_ge
                (Pd.cell r "discharge_date") (Pd.cell r "admission_date")
              = true)
    /\ ((exists r, r ∈ rows df
                   /\ (Pd.cell r "admission_date" = NaN
                       \/ Pd.cell r "discharge_date" = NaN)) ->
        DataValidator.passed ordered = false)
    /\ (DataValidator.passed ordered = false ->
        DataValidator.message ordered
        = "found "
          ++ Py.str_of_Z
               (Z.of_nat
                  (length
                     (List.filter
                        (fun r => Pd.compare_objects Z.ltb Py.str_lt
                                    (Pd.cell r "discharge_date")
                                    (Pd.cell r "admission_date"))
                        (rows df))))
          ++ " invalid date sequences")
    /\ (DataValidator.passed ordered = false ->
        (forall r, r ∈ rows df ->
           Pd.compare_objects Z.ltb Py.str_lt
             (Pd.cell r "discharge_date") (Pd.cell r "admission_date")
           = false) ->
        DataValidator.message ordered = "found 0 invalid date sequences")
    /\ DataValidator.test stay = "valid_length_of_stay"
    /\ (DataValidator.passed stay = true
        <-> forall v, v ∈ Pd.col df "length_of_stay" -> within 0 365 v = true)
    /\ (DataValidator.passed stay = false ->
        DataValidator.message stay
        = "found "
          ++ Py.str_of_Z (count (fun v => negb (within 0 365 v))
                                (Pd.col df "length_of_stay"))
          ++ " invalid los values").
Proof.
  intros Hv Ha Hd Hl. unfold DataValidator.validate_visits. cbv zeta.
  rewrite Hv, Ha, Hd, Hl.
  cbn [andb fst DataValidator.checks DataValidator.add_check List.app].
  do 3 eexists. split; [reflexivity|].
  cbn [DataValidator.test DataValidator.passed DataValidator.message].
  assert (Hcount :
    Pd.sum (Pd.lt_objects (Pd.col df "discharge_date")
                          (Pd.col df "admission_date"))
    = Z.of_nat
        (length
           (List.filter
              (fun r => Pd.compare_objects Z.ltb Py.str_lt
                          (Pd.cell r "discharge_date")
                          (Pd.cell r "admission_date"))
              (rows df)))).
  { unfold Pd.lt_objects, Pd.col. rewrite zip_with_map_diag. apply sum_map. }
  split; [reflexivity|]. split; [apply is_unique_NoDup|]. split.
  { intros H. rewrite H, sum_series_duplicated.
    split; [apply repeats_pos; exact H|reflexivity]. }
  split; [reflexivity|]. split; [apply all_zip_rows|]. split.
  { intros (r & Hr & Hmiss). apply not_true_is_false. intros H.
    pose proof (proj1 (all_zip_rows _
                         (fun r => Pd.cell r "discharge_date")
                         (fun r => Pd.cell r "admission_date") (rows df)) H
                  r Hr) as H'.
    clear H. rename H' into H. cbv beta in H.
    rewrite compare_objects_missing in H by tauto. discriminate H. }
  split.
  { intros ->. rewrite Hcount. reflexivity. }
  split.
  { intros -> Hnone. rewrite Hcount, filter_none; [reflexivity|].
    intros r Hr. apply Hnone, list_elem_of_In, Hr. }
  split; [reflexivity|]. split.
  { rewrite between_within, all_map, forallb_forall.
    split; intros H v Hv'; apply H, list_elem_of_In, Hv'. }
  intros ->. rewrite between_within. unfold Pd.mask_not.
  rewrite List.map_map, sum_map. reflexivity.
Qed.

(** On dates held as text in the form YYYY-MM-DD the comparison is that of
    the texts; the second row fails the date check although no discharge is
    before its admission there. *)
Lemma validate_visits_run :
  DataValidator.checks
    (fst (DataValidator.validate_visits DataValidator.init sample_visits))
  = [ {| DataValidator.test := "unique_visit_id";
         DataValidator.passed := false;
         DataValidator.message := "found 1 duplicate visit ids" |};
      {| DataValidator.test := "discharge_after_admission";
         DataValidator.passed := false;
         DataValidator.message := "found 1 invalid date sequences" |};
      {| DataValidator.test := "valid_length_of_stay";
         DataValidator.passed := false;
         DataValidator.message := "found 3 invalid los values" |} ].
Proof. vm_compute. reflexivity. Qed.

(** ** [validate_diagnoses] *)

(** X12: on a set with the [icd_code] and [visit_id] columns
    [validate_diagnoses] records two checks.  [valid_icd10_format] passes
    exactly when every code is present and, as it stands in the cell, has
    the ICD-10 shape; when it fails its message counts the codes that are
    missing or have another shape.  [no_missing_visit_id] passes exactly
    when no visit id is missing, and when it fails its message counts the
    missing ids. *)
Theorem validate_diagnoses_checks (str_of_timestamp : Z -> string)
        (self : DataValidator.t) (df : DataFrame) :
  Pd.has_column df "icd_code" = true ->
  Pd.has_column df "visit_id" = true ->
  exists format present,
    DataValidator.checks
      (fst (DataValidator.validate_diagnoses str_of_timestamp self df))
    = [format; present]
    /\ DataValidator.test format = "valid_icd10_format"
    /\ (DataValidator.passed format = true
        <-> forall v, v ∈ Pd.col df "icd_code" ->
              Pd.isna v = false
              /\ icd10_shape (chomp (Pd.str str_of_timestamp v)) = true)
    /\ (DataValidator.passed format = false ->
        DataValidator.message format
        = "found "
          ++ Py.str_of_Z
               (count (fun v => Pd.isna v
                                || negb (icd10_shape
                                           (chomp (Pd.str str_of_timestamp v))))
                      (Pd.col df "icd_code"))
          ++ " invalid icd-10 codes")
    /\ DataValidator.test present = "no_missing_visit_id"
    /\ (DataValidator.passed present = true
        <-> forall v, v ∈ Pd.col df "visit_id" -> Pd.isna v = false)
    /\ (DataValidator.passed present = false ->
        DataValidator.message present
        = "found " ++ Py.str_of_Z (count Pd.isna (Pd.col df "visit_id"))
          ++ " missing visit ids").
Proof.
  intros Hi Hv. unfold DataValidator.validate_diagnoses. cbv zeta.
  rewrite Hi, Hv.
  cbn [fst DataValidator.checks DataValidator.add_check List.app].
  do 2 eexists. split; [reflexivity|].
  cbn [DataValidator.test DataValidator.passed DataValidator.message].
  assert (Hcode : forall v,
             Utils.validate_icd10_code str_of_timestamp v ICD10_PATTERN
             = negb (Pd.isna v
                     || negb (icd10_shape (chomp (Pd.str str_of_timestamp v))))).
  { intros v. unfold Utils.validate_icd10_code.
    rewrite matches_icd10_shape.
    destruct (Pd.isna v); [reflexivity|]. cbn. rewrite negb_involutive.
    reflexivity. }
  split; [reflexivity|]. split.
  { rewrite all_map, forallb_forall. split.
    - intros H v Hin. apply list_elem_of_In in Hin. specialize (H v Hin).
      rewrite Hcode in H. apply negb_true_iff, orb_false_iff in H as [Hna Hs].
      apply negb_false_iff in Hs. split; [exact Hna|exact Hs].
    - intros H v Hin. apply list_elem_of_In in Hin.
      destruct (H v Hin) as [Hna Hs]. rewrite Hcode, Hs, Hna. reflexivity. }
  split.
  { intros ->. unfold Pd.mask_not. rewrite List.map_map, sum_map.
    unfold count. do 5 f_equal. apply filter_ext. intros v.
    rewrite Hcode. apply negb_involutive. }
  split; [reflexivity|]. split; [apply all_notna|].
  intros ->. unfold Pd.isna_series. rewrite sum_map. reflexivity.
Qed.

Lemma validate_diagnoses_checks_witness :
  Pd.has_column sample_diagnoses "icd_code" = true
  /\ Pd.has_column sample_diagnoses "visit_id" = true
  /\ exists format present,
    DataValidator.checks
      (fst (DataValidator.validate_diagnoses Sample.str_of_timestamp
              DataValidator.init sample_diagnoses))
    = [format; present]
    /\ DataValidator.test format = "valid_icd10_format"
    /\ (DataValidator.passed format = true
        <-> forall v, v ∈ Pd.col sample_diagnoses "icd_code" ->
              Pd.isna v = false
              /\ icd10_shape (chomp (Pd.str Sample.str_of_timestamp v)) = true)
    /\ (DataValidator.passed format = false ->
        DataValidator.message format
        = "found "
          ++ Py.str_of_Z
               (count (fun v => Pd.isna v
                                || negb (icd10_shape
                                           (chomp (Pd.str Sample.str_of_timestamp
                                                     v))))
                      (Pd.col sample_diagnoses "icd_code"))
          ++ " invalid icd-10 codes")
    /\ DataValidator.test present = "no_missing_visit_id"
    /\ (DataValidator.passed present = true
        <-> forall v, v ∈ Pd.col sample_diagnoses "visit_id" ->
                      Pd.isna v = false)
    /\ (DataValidator.passed present = false ->
        DataValidator.message present
        = "found "
          ++ Py.str_of_Z (count Pd.isna (Pd.col sample_diagnoses "visit_id"))
          ++ " missing visit ids").
Proof.
  repeat (split; [reflexivity|]).
  apply validate_diagnoses_checks; reflexivity.
Defined.

(** The run behind the witness: the code in lower case is counted as
    invalid. *)
Lemma validate_diagnoses_run :
  DataValidator.checks
    (fst (DataValidator.validate_diagnoses Sample.str_of_timestamp
            DataValidator.init sample_diagnoses))
  = [ {| DataValidator.test := "valid_icd10_format";
         DataValidator.passed := false;
         DataValidator.message := "found 2 invalid icd-10 codes" |};
      {| DataValidator.test := "no_missing_visit_id";
         DataValidator.passed := false;
         DataValidator.message := "found 1 missing visit ids" |} ].
Proof. vm_compute. reflexivity. Qed.

(* ================================================================= *)
(** * Validating what the cleaner returns *)

Lemma has_column_cleaned (parse_datetime : string -> option Z)
      (str_of_timestamp : Z -> string) (ds : dataset) (clk : clock)
      (self self' : DataCleaner.t) (df out : DataFrame) (c : string) :
  clean parse_datetime str_of_timestamp ds clk self df = Ok (out, self') ->
  Pd.has_column out c
  = Pd.has_column df c || bool_decide (derived_column ds df = Some c).
Proof.
  intros Hc. apply clean_rows in Hc as [Hcols _].
  unfold Pd.has_column. rewrite Hcols.
  destruct (derived_column ds df) as [c'|].
  - apply eq_true_iff_eq.
    rewrite orb_true_iff, !bool_decide_eq_true, elem_of_add_column.
    split; intros [H|H];
      [ left; exact H | right; subst; reflexivity
      | left; exact H | right; injection H as ->; reflexivity ].
  - rewrite (bool_decide_eq_false_2 (None = Some c)) by discriminate.
    rewrite orb_false_r. reflexivity.
Qed.

Lemma NoDup_key_col (c : string) (l : list (gmap string value)) :
  NoDup (map (Pd.key_of [c]) l) -> NoDup (map (fun r => Pd.cell r c) l).
Proof.
  intros H. apply (NoDup_fmap_1 (fun v : value => [v])).
  change (NoDup (map (fun v : value => [v]) (map (fun r => Pd.cell r c) l))).
  rewrite List.map_map. exact H.
Qed.

(** X13: the patients that [clean_patients_data] returns, for a set with a
    [date_of_birth] column, pass every check of [validate_patients] but,
    possibly, [no_missing_patient_id]: the ids are unique and the ages are
    in range. *)
Theorem cleaned_patients_pass (parse_datetime : string -> option Z)
        (now_dob now_age : Z) (self self' : DataCleaner.t)
        (validator : DataValidator.t) (df out : DataFrame)
        (c : DataValidator.check) :
  Pd.has_column df "date_of_birth" = true ->
  DataCleaner.clean_patients_data parse_datetime now_dob now_age self df
  = Ok (out, self') ->
  In c (DataValidator.checks
          (fst (DataValidator.validate_patients validator out))) ->
  DataValidator.test c <> "no_missing_patient_id" ->
  DataValidator.passed c = true.
Proof.
  intros Hd Hc.
  pose proof (clean_patients_data_ok _ _ _ _ _ _ _ Hc) as [Hrows _].
  change (clean parse_datetime (fun _ => "") patients
            {| now_dob := now_dob; now_age := now_age |} self df
          = Ok (out, self')) in Hc.
  pose proof (has_column_cleaned _ _ _ _ _ _ _ _ "patient_id" Hc) as Hp.
  pose proof (has_column_cleaned _ _ _ _ _ _ _ _ "age" Hc) as Ha.
  cbn [derived_column] in Hp, Ha. rewrite Hd in Hp, Ha, Hrows.
  rewrite (bool_decide_eq_false_2 (Some "age" = Some "patient_id")) in Hp
    by discriminate.
  rewrite (bool_decide_eq_true_2 (Some "age" = Some "age")) in Ha
    by reflexivity.
  rewrite orb_false_r in Hp. rewrite orb_true_r in Ha.
  assert (Hage : Pd.all (Pd.between (Pd.col out "age") MIN_AGE MAX_AGE) = true).
  { rewrite between_within, all_map, forallb_forall.
    intros v Hv. apply in_map_iff in Hv as (r & <- & Hr).
    destruct (patients_row _ _ _ _ _ _ _ _ Hrows Hr)
      as (t & _ & _ & -> & H1 & H2).
    cbn. apply andb_true_iff. split; apply Z.leb_le; assumption. }
  unfold DataValidator.validate_patients. cbv zeta. cbn [fold_left].
  rewrite Hp, Ha, Hage.
  destruct (Pd.has_column df "patient_id") eqn:Hid;
    cbn [fst DataValidator.checks DataValidator.add_check List.app In].
  - assert (Hu : Pd.is_unique (Pd.col out "patient_id") = true).
    { apply is_unique_NoDup, NoDup_key_col.
      rewrite patients_rows_spec in Hrows. cbv zeta in Hrows.
      destruct (_ && _); [discriminate|]. injection Hrows as <-.
      apply first_occurrences_NoDup. }
    rewrite Hu. intros [<-|[<-|[<-|[]]]] Hne; try reflexivity.
    contradiction Hne. reflexivity.
  - intros [<-|[]] _. reflexivity.
Qed.

Lemma patients_age_run :
  DataCleaner.clean_patients_data Sample.parse_datetime
    (Sample.at_date "2020-05-01") (Sample.at_date "2020-05-01")
    DataCleaner.init
    (Sample.frame ["patient_id"; "date_of_birth"]
       [[Str "P1"; Str "1980-05-01"]; [Str "P1"; Str "1990-01-01"];
        [Str "P2"; Str "1890-01-01"]])
  = Ok (Sample.frame ["patient_id"; "date_of_birth"; "age"]
          [[Str "P1"; Timestamp (Sample.at_date "1980-05-01"); Int 40]],
        {| DataCleaner.cleaning_report :=
             [ {| DataCleaner.dataset := "patients";
                  DataCleaner.initial_rows := 3;
                  DataCleaner.final_rows := 1;
                  DataCleaner.removed_rows := 2 |} ] |}).
Proof. vm_compute. reflexivity. Qed.

Lemma cleaned_patients_pass_witness :
  Pd.has_column
    (Sample.frame ["patient_id"; "date_of_birth"]
       [[Str "P1"; Str "1980-05-01"]; [Str "P1"; Str "1990-01-01"];
        [Str "P2"; Str "1890-01-01"]]) "date_of_birth" = true
  /\ In {| DataValidator.test := "valid_age_range";
           DataValidator.passed := true;
           DataValidator.message := "all ages are between 0 and 120" |}
        (DataValidator.checks
           (fst (DataValidator.validate_patients DataValidator.init
                   (Sample.frame ["patient_id"; "date_of_birth"; "age"]
                      [[Str "P1"; Timestamp (Sample.at_date "1980-05-01");
                        Int 40]]))))
  /\ DataValidator.test
       {| DataValidator.test := "valid_age_range";
          DataValidator.passed := true;
          DataValidator.message := "all ages are between 0 and 120" |}
     <> "no_missing_patient_id"
  /\ DataValidator.passed
       {| DataValidator.test := "valid_age_range";
          DataValidator.passed := true;
          DataValidator.message := "all ages are between 0 and 120" |}
     = true.
Proof.
  assert (Hin :
    In {| DataValidator.test := "valid_age_range";
          DataValidator.passed := true;
          DataValidator.message := "all ages are between 0 and 120" |}
       (DataValidator.checks
          (fst (DataValidator.validate_patients DataValidator.init
                  (Sample.frame ["patient_id"; "date_of_birth"; "age"]
                     [[Str "P1"; Timestamp (Sample.at_date "1980-05-01");
                       Int 40]]))))).
  { vm_compute. auto. }
  split; [reflexivity|]. split; [exact Hin|]. split; [discriminate|].
  refine (cleaned_patients_pass _ _ _ _ _ _ _ _ _ _ patients_age_run Hin _);
    [reflexivity | discriminate].
Defined.

(** ** Visits *)

(** X14: on the visits that [clean_visits_data] returns, for a set with
    both date columns, every check of [validate_visits] passes exactly when
    no returned row has a missing admission or discharge date: the ids are
    unique, and a row with both dates has them in order and a stay in
    range, while a row with a missing date, which the cleaner keeps, fails
    the date check and the stay check. *)
Theorem cleaned_visits_pass (parse_datetime : string -> option Z)
        (self : DataCleaner.t) (validator : DataValidator.t)
        (df : DataFrame) :
  Pd.has_column df "admission_date" = true ->
  Pd.has_column df "discharge_date" = true ->
  (forall c,
      In c (DataValidator.checks
              (fst (DataValidator.validate_visits validator
                      (fst (DataCleaner.clean_visits_data
                              parse_datetime self df))))) ->
      DataValidator.passed c = true)
  <-> (forall r,
          r ∈ rows (fst (DataCleaner.clean_visits_data parse_datetime self df)) ->
          Pd.cell r "admission_date" <> NaN
          /\ Pd.cell r "discharge_date" <> NaN).
Proof.
  intros Ha Hd. rewrite clean_visits_data_frame. cbn [fst]. rewrite Ha, Hd.
  cbn [andb].
  set (l1 := Rowwise.visits parse_datetime true true
               (Pd.has_column df "visit_id") (rows df)).
  pose proof (visits_row parse_datetime (Pd.has_column df "visit_id") (rows df))
    as Hrow. fold l1 in Hrow.
  assert (Hu : Pd.has_column df "visit_id" = true ->
               Pd.is_unique (map (fun r => Pd.cell r "visit_id") l1) = true).
  { intros Hv. apply is_unique_NoDup, NoDup_key_col. unfold l1.
    rewrite Hv. unfold Rowwise.visits. cbv zeta.
    apply first_occurrences_NoDup. }
  unfold DataValidator.validate_visits. cbv zeta.
  rewrite !has_column_mk, has_add_column_eq.
  rewrite ?has_add_column_ne by discriminate.
  fold (Pd.has_column df "visit_id").
  fold (Pd.has_column df "admission_date").
  fold (Pd.has_column df "discharge_date"). rewrite Ha, Hd. cbn [andb rows].
  rewrite !col_mk. clearbody l1.
  set (ordered := Pd.all (Pd.ge (map (fun r => Pd.cell r "discharge_date") l1)
                                (map (fun r => Pd.cell r "admission_date") l1))).
  set (stay := Pd.all (Pd.between
                         (map (fun r => Pd.cell r "length_of_stay") l1)
                         MIN_LOS_DAYS MAX_LOS_DAYS)).
  assert (Hordered : ordered = true <->
            forall r, r ∈ l1 ->
              Pd.compare_objects Z.geb Py.str_ge
                (Pd.cell r "discharge_date") (Pd.cell r "admission_date") = true)
    by apply all_zip_rows.
  assert (Hstay : stay = true <->
            forall r, In r l1 ->
              within 0 365 (Pd.cell r "length_of_stay") = true).
  { unfold stay. rewrite between_within, all_map, forallb_map, forallb_forall.
    reflexivity. }
  clearbody ordered stay.
  split.
  - intros Hall r Hr.
    assert (Ho : ordered = true).
    { match type of Hall with
      | context [ {| DataValidator.test := "discharge_after_admission";
                     DataValidator.passed := ordered;
                     DataValidator.message := ?m |} ] =>
          apply (Hall {| DataValidator.test := "discharge_after_admission";
                         DataValidator.passed := ordered;
                         DataValidator.message := m |})
      end.
      destruct (Pd.has_column df "visit_id"); cbn; auto. }
    pose proof (proj1 Hordered Ho r Hr) as Hge.
    split; intros E; rewrite E in Hge;
      [destruct (Pd.cell r "discharge_date")|]; discriminate Hge.
  - intros Hdates.
    assert (Ho : ordered = true).
    { apply Hordered. intros r Hr. destruct (Hdates r Hr) as [Hna Hnd].
      apply list_elem_of_In in Hr.
      destruct (Hrow r Hr) as (r0 & _ & _ & Ea & Ed & _ & Horder & _).
      unfold Rowwise.dates_in_order in Horder.
      destruct (to_datetime_cell_parsed parse_datetime
                  (Pd.cell r0 "admission_date")) as [E|[a E]];
        rewrite E in Ea; [congruence|].
      destruct (to_datetime_cell_parsed parse_datetime
                  (Pd.cell r0 "discharge_date")) as [E'|[d E']];
        rewrite E' in Ed; [congruence|].
      rewrite Ea, Ed in Horder |- *. cbn in Horder |- *.
      apply negb_true_iff, Z.ltb_ge in Horder. apply Z.geb_le. exact Horder. }
    assert (Hs : stay = true).
    { apply Hstay. intros r Hr.
      destruct (Hdates r (proj2 (list_elem_of_In _ _) Hr)) as [Hna Hnd].
      destruct (Hrow r Hr) as (r0 & _ & _ & Ea & Ed & El & Horder & Hrange).
      unfold Rowwise.dates_in_order in Horder.
      unfold Rowwise.stay_in_range in Hrange.
      destruct (to_datetime_cell_parsed parse_datetime
                  (Pd.cell r0 "admission_date")) as [E|[a E]];
        rewrite E in Ea; [congruence|].
      destruct (to_datetime_cell_parsed parse_datetime
                  (Pd.cell r0 "discharge_date")) as [E'|[d E']];
        rewrite E' in Ed; [congruence|].
      rewrite El, Ea, Ed in Hrange |- *. cbn in Hrange |- *.
      unfold MIN_LOS_DAYS, MAX_LOS_DAYS in Hrange.
      apply negb_true_iff, orb_false_iff in Hrange as [H0 H365].
      apply Z.ltb_ge in H0. rewrite Z.gtb_ltb in H365. apply Z.ltb_ge in H365.
      apply andb_true_iff. split; apply Z.leb_le; assumption. }
    rewrite Ho, Hs.
    destruct (Pd.has_column df "visit_id") eqn:Hv;
      cbn [fst DataValidator.checks DataValidator.add_check List.app In].
    + rewrite (Hu eq_refl). intros c [<-|[<-|[<-|[]]]]; reflexivity.
    + intros c [<-|[<-|[]]]; reflexivity.
Qed.

Lemma cleaned_visits_pass_witness :
  Pd.has_column sample_visits_raw "admission_date" = true
  /\ Pd.has_column sample_visits_raw "discharge_date" = true
  /\ ((forall c,
      In c (DataValidator.checks
              (fst (DataValidator.validate_visits DataValidator.init
                      (fst (DataCleaner.clean_visits_data
                              Sample.parse_datetime DataCleaner.init
                              sample_visits_raw))))) ->
      DataValidator.passed c = true)
  <-> (forall r,
          r ∈ rows (fst (DataCleaner.clean_visits_data Sample.parse_datetime
                           DataCleaner.init sample_visits_raw)) ->
          Pd.cell r "admission_date" <> NaN
          /\ Pd.cell r "discharge_date" <> NaN)).
Proof.
  split; [reflexivity|]. split; [reflexivity|].
  apply cleaned_visits_pass; reflexivity.
Defined.

(** A visit without an admission date is kept by the cleaner and then
    fails two checks, the first with a count of 0. *)
Lemma cleaned_visits_missing_date_run :
  DataValidator.checks
    (fst (DataValidator.validate_visits DataValidator.init
            (fst (DataCleaner.clean_visits_data Sample.parse_datetime
                    DataCleaner.init sample_visits_raw))))
  = [ {| DataValidator.test := "unique_visit_id";
         DataValidator.passed := true;
         DataValidator.message := "all visit ids are unique" |};
      {| DataValidator.test := "discharge_after_admission";
         DataValidator.passed := false;
         DataValidator.message := "found 0 invalid date sequences" |};
      {| DataValidator.test := "valid_length_of_stay";
         DataValidator.passed := false;
         DataValidator.message := "found 1 invalid los values" |} ].
Proof. vm_compute. reflexivity. Qed.

(** ** Diagnoses *)

Lemma diagnoses_missing_kept (str_of_timestamp : Z -> string) (hv : bool)
      (l : list (gmap string value)) (r0 : gmap string value) :
  In r0 l ->
  Pd.isna (Pd.cell r0 "icd_code") = true ->
  exists r,
    In r (Rowwise.diagnoses str_of_timestamp true hv l)
    /\ (Pd.cell r "icd_code" = Str "NAN"
        \/ Pd.cell r "icd_code" = Str "NONE").
Proof.
  intros Hr0 Hnan.
  set (r1 := Rowwise.flag_code str_of_timestamp
               (Rowwise.normalize_code str_of_timestamp r0)).
  assert (Ec : Pd.cell r1 "icd_code" = Str "NAN"
               \/ Pd.cell r1 "icd_code" = Str "NONE").
  { destruct (diagnoses_cells str_of_timestamp r0) as (Ec & _ & _).
    fold r1 in Ec. rewrite Ec.
    destruct (Pd.cell r0 "icd_code"); try discriminate Hnan;
      [left|right]; reflexivity. }
  assert (Hr1 : In r1 (map (Rowwise.flag_code str_of_timestamp)
                         (map (Rowwise.normalize_code str_of_timestamp) l)))
    by (apply in_map, in_map; exact Hr0).
  unfold Rowwise.diagnoses. cbv zeta. rewrite andb_true_r. destruct hv.
  - destruct (first_occurrences_covers (Pd.key_of ["visit_id"; "icd_code"])
                [] _ r1 Hr1) as (r & Hr & Hk).
    { intros H. apply elem_of_nil in H. exact H. }
    exists r. split; [exact Hr|]. injection Hk as _ ->. exact Ec.
  - exists r1. auto.
Qed.

(** X15: on the diagnoses that [clean_diagnoses_data] returns, for a set
    with an [icd_code] column, the [valid_icd10_format] check of
    [validate_diagnoses] passes exactly when every returned row is flagged
    [icd_code_valid = True]; it fails whenever the set given had a missing
    code. *)
Theorem cleaned_diagnoses_check (str_of_timestamp : Z -> string)
        (self : DataCleaner.t) (validator : DataValidator.t)
        (df : DataFrame) :
  Pd.has_column df "icd_code" = true ->
  exists c,
    In c (DataValidator.checks
            (fst (DataValidator.validate_diagnoses str_of_timestamp validator
                    (fst (DataCleaner.clean_diagnoses_data
                            str_of_timestamp self df)))))
    /\ DataValidator.test c = "valid_icd10_format"
    /\ (DataValidator.passed c = true
        <-> forall r,
              r ∈ rows (fst (DataCleaner.clean_diagnoses_data
                               str_of_timestamp self df)) ->
              Pd.cell r "icd_code_valid" = Bool true)
    /\ ((exists r0, r0 ∈ rows df /\ Pd.isna (Pd.cell r0 "icd_code") = true) ->
        DataValidator.passed c = false).
Proof.
  intros Hi. rewrite clean_diagnoses_data_frame. cbn [fst]. rewrite Hi.
  set (l1 := Rowwise.diagnoses str_of_timestamp true
               (Pd.has_column df "visit_id") (rows df)).
  pose proof (diagnoses_row str_of_timestamp (Pd.has_column df "visit_id")
                (rows df)) as Hrow. fold l1 in Hrow.
  pose proof (diagnoses_missing_kept str_of_timestamp
                (Pd.has_column df "visit_id") (rows df)) as Hkept.
  fold l1 in Hkept.
  unfold DataValidator.validate_diagnoses. cbv zeta.
  rewrite !has_column_mk. rewrite ?has_add_column_ne by discriminate.
  fold (Pd.has_column df "icd_code"). rewrite Hi. cbn [rows].
  rewrite !col_mk. clearbody l1.
  set (valid := Pd.all (map _ (map (fun r => Pd.cell r "icd_code") l1))).
  assert (Hvalid : valid = true <->
            forall r, In r l1 ->
              Utils.validate_icd10_code str_of_timestamp
                (Pd.cell r "icd_code") ICD10_PATTERN = true).
  { unfold valid. rewrite all_map, forallb_map, forallb_forall. reflexivity. }
  clearbody valid.
  assert (Hflag : forall r, In r l1 ->
            Pd.cell r "icd_code_valid"
            = Bool (Utils.validate_icd10_code str_of_timestamp
                      (Pd.cell r "icd_code") ICD10_PATTERN)).
  { intros r Hr. destruct (Hrow r Hr) as (r0 & _ & ->).
    apply (diagnoses_cells str_of_timestamp r0). }
  eexists. split.
  { cbn [fst DataValidator.checks DataValidator.add_check List.app].
    match goal with
    | |- In _ (if ?b then _ else _) => destruct b
    end; left; reflexivity. }
  cbn [DataValidator.test DataValidator.passed].
  split; [reflexivity|]. split.
  - rewrite Hvalid. split.
    + intros H r Hr. apply list_elem_of_In in Hr.
      rewrite (Hflag r Hr), (H r Hr). reflexivity.
    + intros H r Hr. specialize (H r (proj2 (list_elem_of_In _ _) Hr)).
      rewrite (Hflag r Hr) in H. injection H as ->. reflexivity.
  - intros (r0 & Hr0 & Hnan). apply list_elem_of_In in Hr0.
    destruct (Hkept r0 Hr0 Hnan) as (r & Hr & Hcode).
    apply not_true_is_false. intros Hv.
    pose proof (proj1 Hvalid Hv r Hr) as H.
    destruct Hcode as [Hcode|Hcode]; rewrite Hcode in H;
      vm_compute in H; discriminate H.
Qed.

Lemma cleaned_diagnoses_check_witness :
  Pd.has_column sample_diagnoses "icd_code" = true
  /\ exists c,
    In c (DataValidator.checks
            (fst (DataValidator.validate_diagnoses Sample.str_of_timestamp
                    DataValidator.init
                    (fst (DataCleaner.clean_diagnoses_data
                            Sample.str_of_timestamp DataCleaner.init
                            sample_diagnoses)))))
    /\ DataValidator.test c = "valid_icd10_format"
    /\ (DataValidator.passed c = true
        <-> forall r,
              r ∈ rows (fst (DataCleaner.clean_diagnoses_data
                               Sample.str_of_timestamp DataCleaner.init
                               sample_diagnoses)) ->
              Pd.cell r "icd_code_valid" = Bool true)
    /\ ((exists r0, r0 ∈ rows sample_diagnoses
                    /\ Pd.isna (Pd.cell r0 "icd_code") = true) ->
        DataValidator.passed c = false).
Proof.
  split; [reflexivity|].
  apply cleaned_diagnoses_check; reflexivity.
Defined.

(** After cleaning, the code in lower case is valid; the missing code has
    become "NAN" and fails the check. *)
Lemma cleaned_diagnoses_run :
  DataValidator.checks
    (fst (DataValidator.validate_diagnoses Sample.str_of_timestamp
            DataValidator.init
            (fst (DataCleaner.clean_diagnoses_data Sample.str_of_timestamp
                    DataCleaner.init sample_diagnoses))))
  = [ {| DataValidator.test := "valid_icd10_format";
         DataValidator.passed := false;
         DataValidator.message := "found 1 invalid icd-10 codes" |};
      {| DataValidator.test := "no_missing_visit_id";
         DataValidator.passed := false;
         DataValidator.message := "found 1 missing visit ids" |} ].
Proof. vm_compute. reflexivity. Qed.

(* ================================================================= *)
(** * The validation report, in full *)

Lemma report_check_fold (cs : list DataValidator.check)
      (lines : list string) (total passed : Z) :
  fold_left DataValidator.report_check cs (lines, total, passed)
  = ((lines ++ flat_map check_lines cs)%list,
     total + Z.of_nat (length cs),
     passed + Z.of_nat (length (List.filter DataValidator.passed cs))).
Proof.
  revert lines total passed.
  induction cs as [|c cs IH]; intros lines total passed.
  - cbn. rewrite app_nil_r, !Z.add_0_r. reflexivity.
  - cbn [fold_left]. unfold DataValidator.report_check at 2.
    unfold DataValidator.append. rewrite IH.
    cbn [flat_map List.filter]. unfold check_lines at 2.
    rewrite <- !app_assoc. cbn [List.app].
    destruct (DataValidator.passed c); cbn [length];
      rewrite ?Nat2Z.inj_succ;
      repeat match goal with
        | |- context [?a + Z.succ ?b] =>
            replace (a + Z.succ b) with (a + 1 + b) by lia
        end;
      reflexivity.
Qed.

Lemma report_result_fold (rs : list DataValidator.results)
      (lines : list string) (total passed : Z) :
  fold_left DataValidator.report_result rs (lines, total, passed)
  = ((lines ++ flat_map result_lines rs)%list,
     total + Z.of_nat (length (flat_map DataValidator.checks rs)),
     passed + Z.of_nat (length (List.filter DataValidator.passed
                                  (flat_map DataValidator.checks rs)))).
Proof.
  revert lines total passed.
  induction rs as [|r rs IH]; intros lines total passed.
  - cbn. rewrite app_nil_r, !Z.add_0_r. reflexivity.
  - cbn [fold_left]. unfold DataValidator.report_result at 2.
    unfold DataValidator.append. rewrite report_check_fold, IH.
    cbn [flat_map]. unfold result_lines at 2.
    rewrite <- !app_assoc. cbn [List.app].
    rewrite List.filter_app, !List.length_app, !Nat2Z.inj_add, !Z.add_assoc.
    reflexivity.
Qed.

(** X16: [generate_validation_report] raises [ZeroDivisionError] exactly
    when the validator has recorded no check.  Otherwise it returns the
    lines of the report joined by newlines: the title between two rules and
    an empty line; for every group, in the order of the calls, its heading
    and a rule, then three lines per check (status and test, message, an
    empty line); and the summary between two rules, which counts the checks
    that passed out of all the checks recorded. *)
Theorem generate_validation_report_lines (format_1f : Q -> string)
        (self : DataValidator.t) :
  let total := Z.of_nat (length (all_checks self)) in
  let passed :=
    Z.of_nat (length (List.filter DataValidator.passed (all_checks self))) in
  DataValidator.generate_validation_report format_1f self
  = if total =? 0 then Raise ZeroDivisionError
    else
      Ok (Py.join (String Re.newline "")
            ([ DataValidator.banner "="; "DATA VALIDATION REPORT";
               DataValidator.banner "="; "" ]
             ++ flat_map result_lines (DataValidator.validation_results self)
             ++ [ DataValidator.banner "=";
                  summary_line format_1f passed total;
                  DataValidator.banner "=" ])%list).
Proof.
  cbv zeta. unfold DataValidator.generate_validation_report, all_checks.
  unfold DataValidator.append at 1 2 3 4. cbn [List.app].
  rewrite report_result_fold. rewrite !Z.add_0_l.
  unfold DataValidator.truediv.
  destruct (Z.of_nat (length _) =? 0); [reflexivity|].
  cbn [mbind result_bind]. unfold DataValidator.append, summary_line.
  rewrite <- !app_assoc. reflexivity.
Qed.

(* ================================================================= *)
(** * Column names *)

Lemma snake_char_word (c : ascii) :
  snake_char c = true -> Utils.is_word c = true.
Proof. destruct c as [[] [] [] [] [] [] [] []]; vm_compute; auto. Qed.

Lemma snake_char_not_space (c : ascii) :
  snake_char c = true -> Py.isspace c = false.
Proof. destruct c as [[] [] [] [] [] [] [] []]; vm_compute; auto. Qed.

Lemma snake_char_not_upper (c : ascii) :
  snake_char c = true -> Py.isupper c = false.
Proof. destruct c as [[] [] [] [] [] [] [] []]; vm_compute; auto. Qed.

Lemma snake_char_lower (c : ascii) :
  Utils.is_word c = true -> snake_char (Py.lower_char c) = true.
Proof. destruct c as [[] [] [] [] [] [] [] []]; vm_compute; auto. Qed.

Lemma lower_char_fixed (c : ascii) :
  Py.isupper c = false -> Py.lower_char c = c.
Proof. unfold Py.lower_char. intros ->. reflexivity. Qed.

Lemma space_not_word (c : ascii) :
  Py.isspace c = true -> Utils.is_word c = false.
Proof. destruct c as [[] [] [] [] [] [] [] []]; vm_compute; auto. Qed.

(** The characters of the result of each step of [convert_to_snake_case]. *)
Lemma drop_special_chars (s : string) :
  forallb (fun c => Utils.is_word c || Py.isspace c)
          (list_ascii_of_string (Utils.drop_special s)) = true.
Proof.
  induction s as [|c s IH]; [reflexivity|].
  cbn [Utils.drop_special].
  destruct (Utils.is_word c || Py.isspace c) eqn:E; [|exact IH].
  cbn. rewrite E. exact IH.
Qed.

Lemma squeeze_space_chars (in_run : bool) (s : string) :
  forallb (fun c => Utils.is_word c || Py.isspace c)
          (list_ascii_of_string s) = true ->
  forallb Utils.is_word
          (list_ascii_of_string (Utils.squeeze_space in_run s)) = true.
Proof.
  revert in_run. induction s as [|c s IH]; intros in_run; [reflexivity|].
  cbn [list_ascii_of_string forallb]. intros H.
  apply andb_true_iff in H as [Hc Hs].
  cbn [Utils.squeeze_space]. destruct (Py.isspace c) eqn:Ec.
  - destruct in_run; [apply IH; exact Hs|].
    cbn. apply IH. exact Hs.
  - rewrite orb_false_r in Hc. cbn. rewrite Hc. apply IH. exact Hs.
Qed.

Lemma split_camel_chars (at_start : bool) (s : string) :
  forallb Utils.is_word (list_ascii_of_string s) = true ->
  forallb Utils.is_word
          (list_ascii_of_string (Utils.split_camel at_start s)) = true.
Proof.
  revert at_start. induction s as [|c s IH]; intros at_start; [reflexivity|].
  cbn [list_ascii_of_string forallb]. intros H.
  apply andb_true_iff in H as [Hc Hs].
  cbn [Utils.split_camel]. destruct (negb at_start && Py.isupper c).
  - cbn [list_ascii_of_string forallb]. rewrite Hc, (IH false Hs). reflexivity.
  - cbn [list_ascii_of_string forallb]. rewrite Hc, (IH false Hs). reflexivity.
Qed.

Lemma lower_chars (s : string) :
  forallb Utils.is_word (list_ascii_of_string s) = true ->
  snake_name (Py.lower s) = true.
Proof.
  unfold snake_name. induction s as [|c s IH]; [reflexivity|].
  cbn [list_ascii_of_string forallb Py.lower]. intros H.
  apply andb_true_iff in H as [Hc Hs].
  rewrite (snake_char_lower c Hc), (IH Hs). reflexivity.
Qed.

Lemma convert_to_snake_case_chars (s : string) :
  snake_name (Utils.convert_to_snake_case s) = true.
Proof.
  unfold Utils.convert_to_snake_case. cbv zeta.
  apply lower_chars, split_camel_chars, squeeze_space_chars, drop_special_chars.
Qed.

(** A name in snake case goes through every step unchanged. *)
Lemma drop_special_fixed (s : string) :
  snake_name s = true -> Utils.drop_special s = s.
Proof.
  unfold snake_name. induction s as [|c s IH]; [reflexivity|].
  cbn [list_ascii_of_string forallb Utils.drop_special]. intros H.
  apply andb_true_iff in H as [Hc Hs].
  rewrite (snake_char_word c Hc), (IH Hs). reflexivity.
Qed.

Lemma squeeze_space_fixed (in_run : bool) (s : string) :
  snake_name s = true -> Utils.squeeze_space in_run s = s.
Proof.
  unfold snake_name. revert in_run.
  induction s as [|c s IH]; intros in_run; [reflexivity|].
  cbn [list_ascii_of_string forallb Utils.squeeze_space]. intros H.
  apply andb_true_iff in H as [Hc Hs].
  rewrite (snake_char_not_space c Hc), (IH false Hs). reflexivity.
Qed.

Lemma split_camel_fixed (at_start : bool) (s : string) :
  snake_name s = true -> Utils.split_camel at_start s = s.
Proof.
  unfold snake_name. revert at_start.
  induction s as [|c s IH]; intros at_start; [reflexivity|].
  cbn [list_ascii_of_string forallb Utils.split_camel]. intros H.
  apply andb_true_iff in H as [Hc Hs].
  rewrite (snake_char_not_upper c Hc), andb_false_r, (IH false Hs).
  reflexivity.
Qed.

Lemma lower_fixed (s : string) : snake_name s = true -> Py.lower s = s.
Proof.
  unfold snake_name. induction s as [|c s IH]; [reflexivity|].
  cbn [list_ascii_of_string forallb Py.lower]. intros H.
  apply andb_true_iff in H as [Hc Hs].
  rewrite (lower_char_fixed c (snake_char_not_upper c Hc)), (IH Hs).
  reflexivity.
Qed.

Lemma convert_to_snake_case_fixed (s : string) :
  snake_name s = true -> Utils.convert_to_snake_case s = s.
Proof.
  intros H. unfold Utils.convert_to_snake_case. cbv zeta.
  rewrite (drop_special_fixed s H), (squeeze_space_fixed false s H),
    (split_camel_fixed true s H). apply lower_fixed. exact H.
Qed.

(** X17: on 7-bit text [convert_to_snake_case] gives a name made of
    lower-case letters, digits and underscores only; the names it leaves
    unchanged are exactly the names of that form; converting twice gives
    what converting once gives. *)
Theorem convert_to_snake_case_spec (column_name : string) :
  ascii_text column_name ->
  snake_name (Utils.convert_to_snake_case column_name) = true
  /\ (Utils.convert_to_snake_case column_name = column_name
      <-> snake_name column_name = true)
  /\ Utils.convert_to_snake_case (Utils.convert_to_snake_case column_name)
     = Utils.convert_to_snake_case column_name.
Proof.
  intros _. split; [apply convert_to_snake_case_chars|]. split.
  - split; [|apply convert_to_snake_case_fixed].
    intros E. rewrite <- E. apply convert_to_snake_case_chars.
  - apply convert_to_snake_case_fixed, convert_to_snake_case_chars.
Qed.

Lemma convert_to_snake_case_spec_witness :
  ascii_text "Patient ID (2024)"
  /\ snake_name (Utils.convert_to_snake_case "Patient ID (2024)") = true
  /\ (Utils.convert_to_snake_case "Patient ID (2024)" = "Patient ID (2024)"
      <-> snake_name "Patient ID (2024)" = true)
  /\ Utils.convert_to_snake_case
       (Utils.convert_to_snake_case "Patient ID (2024)")
     = Utils.convert_to_snake_case "Patient ID (2024)".
Proof.
  assert (H : ascii_text "Patient ID (2024)").
  { unfold ascii_text. cbn [list_ascii_of_string].
    repeat constructor. }
  split; [exact H|]. exact (convert_to_snake_case_spec _ H).
Defined.

(** Names as they come and as they are converted: an acronym is split
    letter by letter, and a capital after a space gets two underscores. *)
Lemma convert_to_snake_case_run :
  map Utils.convert_to_snake_case
    ["patient_id"; "patientId"; "PatientID"; "Patient ID (2024)";
     "  admission   date "; "length-of-stay"]
  = ["patient_id"; "patient_id"; "patient_i_d"; "patient__i_d_2024";
     "_admission_date_"; "lengthofstay"].
Proof. vm_compute. reflexivity. Qed.

(** ** Names of several words *)

Lemma alnum_word_char (c : ascii) :
  Py.isalnum c = true -> Utils.is_word c = true /\ Py.isspace c = false.
Proof. destruct c as [[] [] [] [] [] [] [] []]; vm_compute; auto. Qed.

Lemma append_cons (c : ascii) (a b : string) :
  String c a ++ b = String c (a ++ b).
Proof. reflexivity. Qed.

Lemma drop_special_app (a b : string) :
  Utils.drop_special (a ++ b) = Utils.drop_special a ++ Utils.drop_special b.
Proof.
  induction a as [|c a IH]; [reflexivity|].
  rewrite append_cons. cbn [Utils.drop_special].
  destruct (Utils.is_word c || Py.isspace c); rewrite ?append_cons, IH;
    reflexivity.
Qed.

Lemma drop_special_alnum (s : string) :
  forallb Py.isalnum (list_ascii_of_string s) = true ->
  Utils.drop_special s = s.
Proof.
  induction s as [|c s IH]; [reflexivity|].
  cbn [list_ascii_of_string forallb Utils.drop_special]. intros H.
  apply andb_true_iff in H as [Hc Hs].
  destruct (alnum_word_char c Hc) as [-> _]. rewrite (IH Hs). reflexivity.
Qed.

Lemma squeeze_space_alnum_app (in_run : bool) (a x : string) :
  forallb Py.isalnum (list_ascii_of_string a) = true ->
  Utils.squeeze_space in_run (a ++ x)
  = a ++ Utils.squeeze_space (if Py.is_empty a then in_run else false) x.
Proof.
  revert in_run. induction a as [|c a IH]; intros in_run; [reflexivity|].
  rewrite !append_cons.
  cbn [list_ascii_of_string forallb Utils.squeeze_space Py.is_empty].
  intros H. apply andb_true_iff in H as [Hc Hs].
  destruct (alnum_word_char c Hc) as [_ ->]. rewrite (IH false Hs).
  destruct (Py.is_empty a); reflexivity.
Qed.

Lemma squeeze_space_alnum (in_run : bool) (s : string) :
  forallb Py.isalnum (list_ascii_of_string s) = true ->
  Utils.squeeze_space in_run s = s.
Proof.
  revert in_run. induction s as [|c s IH]; intros in_run; [reflexivity|].
  cbn [list_ascii_of_string forallb Utils.squeeze_space]. intros H.
  apply andb_true_iff in H as [Hc Hs].
  destruct (alnum_word_char c Hc) as [_ ->]. rewrite (IH false Hs).
  reflexivity.
Qed.

Lemma split_camel_app (at_start : bool) (a x : string) :
  Utils.split_camel at_start (a ++ x)
  = Utils.split_camel at_start a
    ++ Utils.split_camel (at_start && Py.is_empty a) x.
Proof.
  revert at_start. induction a as [|c a IH]; intros at_start.
  - cbn. rewrite andb_true_r. reflexivity.
  - rewrite append_cons. cbn [Utils.split_camel Py.is_empty].
    rewrite andb_false_r, (IH false). cbn [andb].
    destruct (negb at_start && Py.isupper c); reflexivity.
Qed.

Lemma split_camel_inner (s : string) :
  Utils.split_camel false s
  = (if starts_upper s then "_" else "") ++ Utils.split_camel true s.
Proof.
  destruct s as [|c s]; [reflexivity|].
  cbn [Utils.split_camel starts_upper negb andb].
  destruct (Py.isupper c); reflexivity.
Qed.

Lemma lower_app (a x : string) : Py.lower (a ++ x) = Py.lower a ++ Py.lower x.
Proof.
  induction a as [|c a IH]; [reflexivity|].
  rewrite !append_cons. cbn [Py.lower]. rewrite IH, append_cons. reflexivity.
Qed.

Lemma convert_to_snake_case_word (w : string) :
  forallb Py.isalnum (list_ascii_of_string w) = true ->
  Utils.convert_to_snake_case w = Py.lower (Utils.split_camel true w).
Proof.
  intros H. unfold Utils.convert_to_snake_case. cbv zeta.
  rewrite (drop_special_alnum w H), (squeeze_space_alnum false w H).
  reflexivity.
Qed.

(** X18: how [convert_to_snake_case] joins two words of letters and
    digits.  Written with a space between them they are joined by one
    underscore, and by two when the second word begins with a capital;
    written without a space, the second beginning with a capital, they are
    joined by one underscore. *)
Theorem convert_to_snake_case_words (w1 w2 : string) :
  word w1 = true ->
  word w2 = true ->
  Utils.convert_to_snake_case (w1 ++ " " ++ w2)
  = Utils.convert_to_snake_case w1
    ++ (if starts_upper w2 then "__" else "_")
    ++ Utils.convert_to_snake_case w2
  /\ (starts_upper w2 = true ->
      Utils.convert_to_snake_case (w1 ++ w2)
      = Utils.convert_to_snake_case w1 ++ "_"
        ++ Utils.convert_to_snake_case w2).
Proof.
  unfold word. intros H1 H2.
  apply andb_true_iff in H1 as [Hne1 H1]. apply andb_true_iff in H2 as [_ H2].
  apply negb_true_iff in Hne1.
  rewrite (convert_to_snake_case_word w1 H1), (convert_to_snake_case_word w2 H2).
  split.
  - unfold Utils.convert_to_snake_case. cbv zeta.
    rewrite !drop_special_app, (drop_special_alnum w1 H1),
      (drop_special_alnum w2 H2).
    change (Utils.drop_special " ") with " ".
    rewrite (squeeze_space_alnum_app false w1 _ H1), Hne1.
    change (Utils.squeeze_space false (" " ++ w2))
      with ("_" ++ Utils.squeeze_space true w2).
    rewrite (squeeze_space_alnum true w2 H2).
    rewrite split_camel_app, Hne1, andb_false_r.
    change (Utils.split_camel false ("_" ++ w2))
      with ("_" ++ Utils.split_camel false w2).
    rewrite split_camel_inner, !lower_app.
    destruct (starts_upper w2); reflexivity.
  - intros Hu. unfold Utils.convert_to_snake_case. cbv zeta.
    rewrite drop_special_app, (drop_special_alnum w1 H1),
      (drop_special_alnum w2 H2).
    rewrite (squeeze_space_alnum_app false w1 _ H1), Hne1.
    rewrite (squeeze_space_alnum false w2 H2).
    rewrite split_camel_app, Hne1, andb_false_r.
    rewrite split_camel_inner, Hu, !lower_app. reflexivity.
Qed.

Lemma convert_to_snake_case_words_witness :
  word "patient" = true
  /\ word "Id" = true
  /\ Utils.convert_to_snake_case ("patient" ++ " " ++ "Id")
     = Utils.convert_to_snake_case "patient"
       ++ (if starts_upper "Id" then "__" else "_")
       ++ Utils.convert_to_snake_case "Id"
  /\ (starts_upper "Id" = true ->
      Utils.convert_to_snake_case ("patient" ++ "Id")
      = Utils.convert_to_snake_case "patient" ++ "_"
        ++ Utils.convert_to_snake_case "Id").
Proof.
  split; [reflexivity|]. split; [reflexivity|].
  apply convert_to_snake_case_words; reflexivity.
Defined.

(** ** Renaming the columns of a frame *)

Lemma lookup_renamed {A B : Type} (f : A -> string) (g : A -> B)
      (cols : list A) (c : A) :
  c ∈ cols ->
  (forall c', c' ∈ cols -> f c' = f c -> g c' = g c) ->
  (list_to_map (zip (map f cols) (map g cols)) : gmap string B) !! f c
  = Some (g c).
Proof.
  induction cols as [|x cols IH]; intros Hc Hg.
  - apply elem_of_nil in Hc. contradiction.
  - cbn [map zip zip_with list_to_map foldr].
    change (zip_with pair (map f cols) (map g cols))
      with (zip (map f cols) (map g cols)).
    destruct (decide (f x = f c)) as [E|E].
    + rewrite E, lookup_insert_eq. f_equal. apply Hg; [left|exact E].
    + rewrite lookup_insert_ne by exact E. apply IH.
      * apply elem_of_cons in Hc as [->|Hc]; [contradiction|exact Hc].
      * intros c' Hc'. apply Hg. right. exact Hc'.
Qed.

Lemma NoDup_map_inj {A B : Type} (f : A -> B) (l : list A) (x y : A) :
  NoDup (map f l) -> x ∈ l -> y ∈ l -> f x = f y -> x = y.
Proof.
  induction l as [|z l IH]; intros Hnd Hx Hy E.
  - apply elem_of_nil in Hx. contradiction.
  - cbn in Hnd. apply NoDup_cons in Hnd as [Hz Hnd].
    apply elem_of_cons in Hx as [->|Hx]; apply elem_of_cons in Hy as [->|Hy].
    + reflexivity.
    + exfalso. apply Hz. rewrite E. apply list_elem_of_In, in_map,
        list_elem_of_In, Hy.
    + exfalso. apply Hz. rewrite <- E. apply list_elem_of_In, in_map,
        list_elem_of_In, Hx.
    + apply IH; assumption.
Qed.

Lemma col_set_columns (df : DataFrame) (f : string -> string) (c : string) :
  c ∈ columns df ->
  (forall c', c' ∈ columns df -> f c' = f c -> c' = c) ->
  Pd.col (Pd.set_columns df (map f (columns df))) (f c) = Pd.col df c.
Proof.
  intros Hc Hinj. unfold Pd.col, Pd.set_columns. cbn [rows].
  rewrite List.map_map. apply map_ext. intros r.
  unfold Pd.rename_row, Pd.cell at 1.
  rewrite (lookup_renamed f (Pd.cell r) (columns df) c Hc); [reflexivity|].
  intros c' Hc' E. rewrite (Hinj c' Hc' E). reflexivity.
Qed.

(** X19: [standardize_column_names] renames every column to its snake-case
    form, in place, and keeps the rows.  When the new names are distinct,
    the column read under a new name is the column that had the old name;
    a frame whose names are already in snake case keeps its names and its
    columns. *)
Theorem standardize_column_names_spec (df : DataFrame) :
  columns (Utils.standardize_column_names df)
  = map Utils.convert_to_snake_case (columns df)
  /\ Pd.len (Utils.standardize_column_names df) = Pd.len df
  /\ (NoDup (map Utils.convert_to_snake_case (columns df)) ->
      forall c, c ∈ columns df ->
        Pd.col (Utils.standardize_column_names df)
               (Utils.convert_to_snake_case c)
        = Pd.col df c)
  /\ (forallb snake_name (columns df) = true ->
      columns (Utils.standardize_column_names df) = columns df
      /\ forall c, c ∈ columns df ->
           Pd.col (Utils.standardize_column_names df) c = Pd.col df c).
Proof.
  unfold Utils.standardize_column_names.
  split; [reflexivity|]. split.
  { unfold Pd.len, Pd.set_columns. cbn [rows]. rewrite List.length_map.
    reflexivity. }
  split.
  - intros Hnd c Hc. apply col_set_columns; [exact Hc|].
    intros c' Hc' E. exact (NoDup_map_inj _ _ _ _ Hnd Hc' Hc E).
  - intros Hsnake.
    assert (Hfix : forall c, c ∈ columns df ->
                     Utils.convert_to_snake_case c = c).
    { intros c Hc. apply convert_to_snake_case_fixed.
      rewrite forallb_forall in Hsnake. apply Hsnake, list_elem_of_In, Hc. }
    split.
    + cbn [columns Pd.set_columns]. apply map_fixed.
      intros c Hc. apply Hfix, list_elem_of_In, Hc.
    + intros c Hc. rewrite <- (Hfix c Hc) at 1.
      apply col_set_columns; [exact Hc|].
      intros c' Hc' E. rewrite (Hfix c' Hc'), (Hfix c Hc) in E. exact E.
Qed.

Lemma standardize_column_names_run :
  Utils.standardize_column_names sample_raw_patients
  = Sample.frame ["patient__i_d"; "date_of_birth"; "gender"]
      [[Str "P1"; Str "1980-05-01"; Str "F"]].
Proof. vm_compute. reflexivity. Qed.

Lemma standardize_column_names_spec_witness :
  NoDup (map Utils.convert_to_snake_case (columns sample_raw_patients))
  /\ "dateOfBirth" ∈ columns sample_raw_patients
  /\ Pd.col (Utils.standardize_column_names sample_raw_patients)
            (Utils.convert_to_snake_case "dateOfBirth")
     = Pd.col sample_raw_patients "dateOfBirth".
Proof.
  assert (Hnd : NoDup (map Utils.convert_to_snake_case
                         (columns sample_raw_patients)))
    by decided.
  split; [exact Hnd|]. split; [decided|].
  apply (proj1 (proj2 (proj2 (standardize_column_names_spec
                                sample_raw_patients))) Hnd).
  decided.
Defined.

(* ================================================================= *)
(** * Parsing date columns ahead of the cleaner *)

(** One turn of the loop of [parse_dates], on a row. *)
Lemma parse_dates_rows (parse_datetime : string -> option Z)
      (df : DataFrame) (date_columns : list string) :
  Utils.parse_dates parse_datetime df date_columns
  = mkFrame (columns df)
      (map (fun r =>
              fold_left
                (fun r col =>
                   if Pd.has_column df col
                   then Rowwise.parse_cell parse_datetime col r else r)
                date_columns r)
           (rows df)).
Proof.
  unfold Utils.parse_dates. revert df.
  induction date_columns as [|c0 cs IH]; intros df.
  - cbn [fold_left]. rewrite map_id. apply frame_eta.
  - cbn [fold_left]. rewrite IH. destruct df as [cols l].
    rewrite has_column_mk. destruct (bool_decide (c0 ∈ cols)) eqn:Hc0.
    + unfold Pd.to_datetime. rewrite col_mk, List.map_map, assign_rowwise.
      rewrite (add_column_present _ _ Hc0). cbn [columns rows].
      rewrite List.map_map. reflexivity.
    + cbn [columns rows]. reflexivity.
Qed.

Lemma parse_dates_cell (parse_datetime : string -> option Z)
      (has : string -> bool) (date_columns : list string)
      (r : gmap string value) (c : string) :
  Pd.cell (fold_left
             (fun r col =>
                if has col then Rowwise.parse_cell parse_datetime col r else r)
             date_columns r) c
  = if bool_decide (c ∈ date_columns) && has c
    then Pd.to_datetime_cell parse_datetime (Pd.cell r c)
    else Pd.cell r c.
Proof.
  revert r. induction date_columns as [|c0 cs IH]; intros r; [reflexivity|].
  cbn [fold_left]. rewrite IH.
  destruct (decide (c = c0)) as [->|Hne].
  - rewrite (bool_decide_eq_true_2 (c0 ∈ c0 :: cs)) by left.
    destruct (has c0) eqn:Hc0.
    + unfold Rowwise.parse_cell. rewrite cell_insert_eq, to_datetime_cell_idem.
      rewrite andb_true_r. cbn [andb]. destruct (bool_decide (c0 ∈ cs));
        reflexivity.
    + rewrite !andb_false_r. reflexivity.
  - assert (E : bool_decide (c ∈ c0 :: cs) = bool_decide (c ∈ cs)).
    { apply bool_decide_ext. rewrite elem_of_cons. tauto. }
    rewrite E.
    assert (Ecell : Pd.cell (if has c0
                             then Rowwise.parse_cell parse_datetime c0 r
                             else r) c = Pd.cell r c).
    { destruct (has c0); [|reflexivity]. unfold Rowwise.parse_cell.
      apply cell_insert_ne. congruence. }
    rewrite Ecell. reflexivity.
Qed.

(** X20: [parse_dates] keeps the columns and the rows of the frame; a
    column named in [date_columns] that the frame has is parsed cell by
    cell, any other column is left as it is, and a name the frame does not
    have is skipped; parsing the same columns again changes nothing. *)
Theorem parse_dates_spec (parse_datetime : string -> option Z)
        (df : DataFrame) (date_columns : list string) :
  columns (Utils.parse_dates parse_datetime df date_columns) = columns df
  /\ Pd.len (Utils.parse_dates parse_datetime df date_columns) = Pd.len df
  /\ (forall c,
         Pd.col (Utils.parse_dates parse_datetime df date_columns) c
         = if bool_decide (c ∈ date_columns) && Pd.has_column df c
           then Pd.to_datetime parse_datetime (Pd.col df c)
           else Pd.col df c)
  /\ (forall c,
         Pd.col (Utils.parse_dates parse_datetime
                   (Utils.parse_dates parse_datetime df date_columns)
                   date_columns) c
         = Pd.col (Utils.parse_dates parse_datetime df date_columns) c).
Proof.
  assert (Hcol : forall df c,
             Pd.col (Utils.parse_dates parse_datetime df date_columns) c
             = if bool_decide (c ∈ date_columns) && Pd.has_column df c
               then Pd.to_datetime parse_datetime (Pd.col df c)
               else Pd.col df c).
  { intros df' c. rewrite parse_dates_rows, col_mk.
    unfold Pd.to_datetime, Pd.col.
    destruct (bool_decide (c ∈ date_columns) && Pd.has_column df' c) eqn:E.
    - rewrite !List.map_map. apply map_ext. intros r.
      rewrite parse_dates_cell, E. reflexivity.
    - rewrite !List.map_map. apply map_ext. intros r.
      rewrite parse_dates_cell, E. reflexivity. }
  assert (Hcols : forall df,
             columns (Utils.parse_dates parse_datetime df date_columns)
             = columns df)
    by (intros df'; rewrite parse_dates_rows; reflexivity).
  split; [apply Hcols|]. split.
  { rewrite parse_dates_rows. unfold Pd.len. cbn [rows].
    rewrite List.length_map. reflexivity. }
  split; [apply Hcol|].
  intros c. rewrite (Hcol (Utils.parse_dates parse_datetime df date_columns)).
  unfold Pd.has_column at 1. rewrite Hcols. fold (Pd.has_column df c).
  rewrite (Hcol df).
  destruct (bool_decide (c ∈ date_columns) && Pd.has_column df c);
    [|reflexivity].
  unfold Pd.to_datetime. rewrite List.map_map. apply map_ext. intros v.
  apply to_datetime_cell_idem.
Qed.

(** ** [validate_visits] on parsed dates *)

Lemma parsed_dates (parse_datetime : string -> option Z) (df : DataFrame)
      (r : gmap string value) (c : string) :
  Pd.has_column df c = true ->
  c ∈ ["admission_date"; "discharge_date"] ->
  r ∈ rows (Utils.parse_dates parse_datetime df
              ["admission_date"; "discharge_date"]) ->
  Pd.cell r c = NaN \/ exists t, Pd.cell r c = Timestamp t.
Proof.
  intros Hc Hin Hr. rewrite parse_dates_rows in Hr. cbn [rows] in Hr.
  apply list_elem_of_In, in_map_iff in Hr as (r0 & <- & _).
  rewrite parse_dates_cell, Hc, andb_true_r.
  rewrite (bool_decide_eq_true_2 _ Hin).
  apply to_datetime_cell_parsed.
Qed.

Lemma parsed_dates_col (parse_datetime : string -> option Z) (df : DataFrame)
      (c : string) :
  c ∉ ["admission_date"; "discharge_date"] ->
  Pd.col (Utils.parse_dates parse_datetime df
            ["admission_date"; "discharge_date"]) c
  = Pd.col df c.
Proof.
  intros Hc. rewrite parse_dates_rows, col_mk. unfold Pd.col.
  rewrite List.map_map. apply map_ext. intros r.
  rewrite parse_dates_cell, (bool_decide_eq_false_2 _ Hc). reflexivity.
Qed.

Lemma parsed_dates_has_column (parse_datetime : string -> option Z)
      (df : DataFrame) (date_columns : list string) (c : string) :
  Pd.has_column (Utils.parse_dates parse_datetime df date_columns) c
  = Pd.has_column df c.
Proof. rewrite parse_dates_rows. reflexivity. Qed.

(** X11: on a set with the [visit_id], [admission_date], [discharge_date]
    and [length_of_stay] columns, its dates without a time zone and parsed
    by [parse_dates], its stays whole numbers or missing, [validate_visits]
    records three checks.
    [unique_visit_id] passes exactly when no id occurs twice.
    [discharge_after_admission] passes exactly when every row has both
    dates, the discharge not before the admission, so it fails as soon as a
    date is missing; when it fails its message counts only the rows whose
    discharge is before the admission, and reports 0 invalid sequences when
    the failure comes from missing dates alone.  [valid_length_of_stay]
    passes exactly when every stay is a number between 0 and 365, and when
    it fails its message counts the stays that are missing or outside. *)
Theorem validate_visits_checks (parse_datetime : string -> option Z)
        (self : DataValidator.t) (df : DataFrame) :
  Pd.has_column df "visit_id" = true ->
  Pd.has_column df "admission_date" = true ->
  Pd.has_column df "discharge_date" = true ->
  Pd.has_column df "length_of_stay" = true ->
  forallb number_or_missing (Pd.col df "length_of_stay") = true ->
  forallb naive_date (Pd.col df "admission_date") = true ->
  forallb naive_date (Pd.col df "discharge_date") = true ->
  let parsed := Utils.parse_dates parse_datetime df
                  ["admission_date"; "discharge_date"] in
  exists unique ordered stay,
    DataValidator.checks (fst (DataValidator.validate_visits self parsed))
    = [unique; ordered; stay]
    /\ DataValidator.test unique = "unique_visit_id"
    /\ (DataValidator.passed unique = true <-> NoDup (Pd.col df "visit_id"))
    /\ (DataValidator.passed unique = false ->
        0 < repeats (Pd.col df "visit_id")
        /\ DataValidator.message unique
           = "found " ++ Py.str_of_Z (repeats (Pd.col df "visit_id"))
             ++ " duplicate visit ids")
    /\ DataValidator.test ordered = "discharge_after_admission"
    /\ (DataValidator.passed ordered = true
        <-> forall r, r ∈ rows parsed -> discharged_after_admission r = true)
    /\ ((exists r, r ∈ rows parsed
                   /\ (Pd.cell r "admission_date" = NaN
                       \/ Pd.cell r "discharge_date" = NaN)) ->
        DataValidator.passed ordered = false)
    /\ (DataValidator.passed ordered = false ->
        DataValidator.message ordered
        = "found "
          ++ Py.str_of_Z
               (Z.of_nat
                  (length (List.filter discharged_before_admission
                                       (rows parsed))))
          ++ " invalid date sequences")
    /\ (DataValidator.passed ordered = false ->
        (forall r, r ∈ rows parsed -> discharged_before_admission r = false) ->
        DataValidator.message ordered = "found 0 invalid date sequences")
    /\ DataValidator.test stay = "valid_length_of_stay"
    /\ (DataValidator.passed stay = true
        <-> forall v, v ∈ Pd.col df "length_of_stay" -> within 0 365 v = true)
    /\ (DataValidator.passed stay = false ->
        DataValidator.message stay
        = "found "
          ++ Py.str_of_Z (count (fun v => negb (within 0 365 v))
                                (Pd.col df "length_of_stay"))
          ++ " invalid los values").
Proof.
  intros Hv Ha Hd Hl _ _ _ parsed.
  assert (Hge : forall r, r ∈ rows parsed ->
            Pd.compare_objects Z.geb Py.str_ge
              (Pd.cell r "discharge_date") (Pd.cell r "admission_date")
            = discharged_after_admission r).
  { intros r Hr. unfold discharged_after_admission.
    destruct (parsed_dates parse_datetime df r "admission_date" Ha
                ltac:(decided) Hr) as [->|[a ->]];
      destruct (parsed_dates parse_datetime df r "discharge_date" Hd
                  ltac:(decided) Hr) as [->|[d ->]];
      try reflexivity.
    cbn. apply Z.geb_leb. }
  assert (Hlt : forall r, r ∈ rows parsed ->
            Pd.compare_objects Z.ltb Py.str_lt
              (Pd.cell r "discharge_date") (Pd.cell r "admission_date")
            = discharged_before_admission r).
  { intros r Hr. unfold discharged_before_admission.
    destruct (parsed_dates parse_datetime df r "admission_date" Ha
                ltac:(decided) Hr) as [->|[a ->]];
      destruct (parsed_dates parse_datetime df r "discharge_date" Hd
                  ltac:(decided) Hr) as [->|[d ->]];
      reflexivity. }
  destruct (validate_visits_record self parsed)
    as (unique & ordered & stay & Hchecks & Hu1 & Hu2 & Hu3 & Ho1 & Ho2
        & Ho3 & Ho4 & Ho5 & Hs1 & Hs2 & Hs3);
    try (unfold parsed; rewrite parsed_dates_has_column; assumption).
  assert (Ev : Pd.col parsed "visit_id" = Pd.col df "visit_id")
    by (apply parsed_dates_col; apply (bool_decide_eq_false_1 _);
        vm_compute; reflexivity).
  assert (El : Pd.col parsed "length_of_stay" = Pd.col df "length_of_stay")
    by (apply parsed_dates_col; apply (bool_decide_eq_false_1 _);
        vm_compute; reflexivity).
  rewrite Ev in Hu2, Hu3. rewrite El in Hs2, Hs3.
  exists unique, ordered, stay.
  split; [exact Hchecks|]. split; [exact Hu1|]. split; [exact Hu2|].
  split; [exact Hu3|]. split; [exact Ho1|]. split.
  { rewrite Ho2. split; intros H r Hr.
    - rewrite <- Hge by exact Hr. apply H, Hr.
    - rewrite Hge by exact Hr. apply H, Hr. }
  split; [exact Ho3|]. split.
  { intros Hf. rewrite (Ho4 Hf). do 5 f_equal.
    apply filter_ext_in. intros r Hr. apply Hlt, list_elem_of_In, Hr. }
  split.
  { intros Hf Hnone. apply (Ho5 Hf). intros r Hr.
    rewrite Hlt by exact Hr. apply Hnone, Hr. }
  split; [exact Hs1|]. split; [exact Hs2|exact Hs3].
Qed.

Lemma validate_visits_checks_witness :
  Pd.has_column sample_visits "visit_id" = true
  /\ Pd.has_column sample_visits "admission_date" = true
  /\ Pd.has_column sample_visits "discharge_date" = true
  /\ Pd.has_column sample_visits "length_of_stay" = true
  /\ forallb number_or_missing (Pd.col sample_visits "length_of_stay") = true
  /\ forallb naive_date (Pd.col sample_visits "admission_date") = true
  /\ forallb naive_date (Pd.col sample_visits "discharge_date") = true
  /\
    let parsed := Utils.parse_dates Sample.parse_datetime sample_visits
                    ["admission_date"; "discharge_date"] in
    exists unique ordered stay,
      DataValidator.checks
        (fst (DataValidator.validate_visits DataValidator.init parsed))
      = [unique; ordered; stay]
      /\ DataValidator.test unique = "unique_visit_id"
      /\ (DataValidator.passed unique = true
          <-> NoDup (Pd.col sample_visits "visit_id"))
      /\ (DataValidator.passed unique = false ->
          0 < repeats (Pd.col sample_visits "visit_id")
          /\ DataValidator.message unique
             = "found "
               ++ Py.str_of_Z (repeats (Pd.col sample_visits "visit_id"))
               ++ " duplicate visit ids")
      /\ DataValidator.test ordered = "discharge_after_admission"
      /\ (DataValidator.passed ordered = true
          <-> forall r, r ∈ rows parsed -> discharged_after_admission r = true)
      /\ ((exists r, r ∈ rows parsed
                     /\ (Pd.cell r "admission_date" = NaN
                         \/ Pd.cell r "discharge_date" = NaN)) ->
          DataValidator.passed ordered = false)
      /\ (DataValidator.passed ordered = false ->
          DataValidator.message ordered
          = "found "
            ++ Py.str_of_Z
                 (Z.of_nat
                    (length (List.filter discharged_before_admission
                                         (rows parsed))))
            ++ " invalid date sequences")
      /\ (DataValidator.passed ordered = false ->
          (forall r, r ∈ rows parsed ->
                     discharged_before_admission r = false) ->
          DataValidator.message ordered = "found 0 invalid date sequences")
      /\ DataValidator.test stay = "valid_length_of_stay"
      /\ (DataValidator.passed stay = true
          <-> forall v, v ∈ Pd.col sample_visits "length_of_stay" ->
                        within 0 365 v = true)
      /\ (DataValidator.passed stay = false ->
          DataValidator.message stay
          = "found "
            ++ Py.str_of_Z (count (fun v => negb (within 0 365 v))
                                  (Pd.col sample_visits "length_of_stay"))
            ++ " invalid los values").
Proof.
  repeat (split; [reflexivity|]).
  apply validate_visits_checks; reflexivity.
Defined.

(** Three visits with dates parsed: one discharged before its admission,
    one without a discharge date, one in order. *)
Lemma validate_parsed_visits_run :
  DataValidator.checks
    (fst (DataValidator.validate_visits DataValidator.init
            (Utils.parse_dates Sample.parse_datetime sample_visits
               ["admission_date"; "discharge_date"])))
  = [ {| DataValidator.test := "unique_visit_id";
         DataValidator.passed := false;
         DataValidator.message := "found 1 duplicate visit ids" |};
      {| DataValidator.test := "discharge_after_admission";
         DataValidator.passed := false;
         DataValidator.message := "found 1 invalid date sequences" |};
      {| DataValidator.test := "valid_length_of_stay";
         DataValidator.passed := false;
         DataValidator.message := "found 3 invalid los values" |} ].
Proof. vm_compute. reflexivity. Qed.

(** ** Cleaning visits whose dates were parsed before *)

Lemma parse_cell_twice (parse_datetime : string -> option Z) (c : string)
      (r : gmap string value) :
  Rowwise.parse_cell parse_datetime c (Rowwise.parse_cell parse_datetime c r)
  = Rowwise.parse_cell parse_datetime c r.
Proof.
  unfold Rowwise.parse_cell. rewrite cell_insert_eq, to_datetime_cell_idem.
  apply insert_insert_eq.
Qed.

Lemma parse_cell_commute (parse_datetime : string -> option Z) (c c' : string)
      (r : gmap string value) :
  c <> c' ->
  Rowwise.parse_cell parse_datetime c (Rowwise.parse_cell parse_datetime c' r)
  = Rowwise.parse_cell parse_datetime c' (Rowwise.parse_cell parse_datetime c r).
Proof.
  intros Hne. unfold Rowwise.parse_cell.
  rewrite !cell_insert_ne by congruence. apply insert_insert_ne. exact Hne.
Qed.

(** The two parsing steps of the visits pipeline absorb an earlier parse of
    either date column. *)
Lemma visits_parse_absorbs (parse_datetime : string -> option Z)
      (has : string -> bool) (date_columns : list string)
      (r : gmap string value) :
  (forall c, c ∈ date_columns ->
             c = "admission_date" \/ c = "discharge_date") ->
  let parse_both r :=
    (if has "discharge_date"
     then Rowwise.parse_cell parse_datetime "discharge_date" else id)
      ((if has "admission_date"
        then Rowwise.parse_cell parse_datetime "admission_date" else id) r) in
  parse_both
    (fold_left
       (fun r col =>
          if has col then Rowwise.parse_cell parse_datetime col r else r)
       date_columns r)
  = parse_both r.
Proof.
  cbv zeta. revert r.
  induction date_columns as [|c0 cs IH]; intros r Hcs; [reflexivity|].
  cbn [fold_left]. rewrite IH by (intros c Hc; apply Hcs; right; exact Hc).
  assert (Hc0 : c0 = "admission_date" \/ c0 = "discharge_date")
    by (apply Hcs; left).
  destruct Hc0 as [-> | ->];
    destruct (has "admission_date"), (has "discharge_date"); cbn [id];
    rewrite ?parse_cell_twice; try reflexivity.
  rewrite (parse_cell_commute _ "admission_date" "discharge_date")
    by discriminate.
  rewrite parse_cell_twice. reflexivity.
Qed.

(** X21: parsing the date columns with [parse_dates] before the call does
    not change what [clean_visits_data] returns: the cleaned set and the
    report entry are the same. *)
Theorem clean_visits_data_after_parse_dates
        (parse_datetime : string -> option Z) (self : DataCleaner.t)
        (df : DataFrame) (date_columns : list string) :
  (forall c, c ∈ date_columns ->
             c = "admission_date" \/ c = "discharge_date") ->
  DataCleaner.clean_visits_data parse_datetime self
    (Utils.parse_dates parse_datetime df date_columns)
  = DataCleaner.clean_visits_data parse_datetime self df.
Proof.
  intros Hcs. rewrite !clean_visits_data_frame. cbv zeta.
  rewrite parse_dates_rows. rewrite !has_column_mk.
  fold (Pd.has_column df "admission_date").
  fold (Pd.has_column df "discharge_date").
  fold (Pd.has_column df "visit_id"). cbn [columns rows].
  assert (Hrows :
    Rowwise.visits parse_datetime (Pd.has_column df "admission_date")
      (Pd.has_column df "discharge_date") (Pd.has_column df "visit_id")
      (map (fun r =>
              fold_left
                (fun r col =>
                   if Pd.has_column df col
                   then Rowwise.parse_cell parse_datetime col r else r)
                date_columns r)
           (rows df))
    = Rowwise.visits parse_datetime (Pd.has_column df "admission_date")
        (Pd.has_column df "discharge_date") (Pd.has_column df "visit_id")
        (rows df)).
  { unfold Rowwise.visits. cbv zeta.
    pose proof (fun r => visits_parse_absorbs parse_datetime
                           (Pd.has_column df) date_columns r Hcs) as Habs.
    cbv zeta in Habs.
    destruct (Pd.has_column df "admission_date"),
             (Pd.has_column df "discharge_date"); cbn [id andb] in Habs |- *;
      rewrite ?List.map_map; rewrite (map_ext _ _ Habs);
      rewrite ?map_id; reflexivity. }
  rewrite Hrows. unfold report_of, Pd.len. cbn [rows].
  rewrite List.length_map. reflexivity.
Qed.

Lemma clean_visits_data_after_parse_dates_witness :
  (forall c, c ∈ ["admission_date"; "discharge_date"] ->
             c = "admission_date" \/ c = "discharge_date")
  /\ DataCleaner.clean_visits_data Sample.parse_datetime DataCleaner.init
       (Utils.parse_dates Sample.parse_datetime sample_visits_raw
          ["admission_date"; "discharge_date"])
     = DataCleaner.clean_visits_data Sample.parse_datetime DataCleaner.init
         sample_visits_raw.
Proof.
  assert (H : forall c, c ∈ ["admission_date"; "discharge_date"] ->
                        c = "admission_date" \/ c = "discharge_date").
  { intros c Hc. apply elem_of_cons in Hc as [->|Hc]; [left; reflexivity|].
    apply list_elem_of_singleton in Hc as ->. right. reflexivity. }
  split; [exact H|].
  exact (clean_visits_data_after_parse_dates _ _ _ _ H).
Defined.

(* ================================================================= *)
(** * Age groups *)

Lemma Qle_bool_inject (a b : Z) :
  Qle_bool (inject_Z a) (inject_Z b) = (a <=? b).
Proof. unfold Qle_bool. cbn. rewrite !Z.mul_1_r. reflexivity. Qed.

Lemma Qle_bool_false (a b : Q) : (b < a)%Q -> Qle_bool a b = false.
Proof.
  intros H. apply not_true_is_false. intros E.
  apply Qle_bool_iff in E. exact (Qlt_not_le _ _ H E).
Qed.

Lemma assign_group_whole (z : Z) :
  Utils.assign_group AGE_GROUPS (Some (inject_Z z)) = age_label z.
Proof.
  unfold AGE_GROUPS, age_label. cbn [Utils.assign_group Utils.float_le].
  rewrite !Qle_bool_inject.
  destruct (Z.ltb_spec z 0), (Z.leb_spec 0 z), (Z.leb_spec z 18),
    (Z.leb_spec 19 z), (Z.leb_spec z 35), (Z.leb_spec 36 z),
    (Z.leb_spec z 60), (Z.leb_spec 61 z), (Z.leb_spec z 150);
    cbn [andb]; try reflexivity; lia.
Qed.

(** X22: with the bins of [AGE_GROUPS], [create_age_groups] gives one label
    per age; a whole age gets "0-18", "19-35", "36-60" or "60+" by the bin
    that holds it, and "unknown" when it is negative or above 150; a missing
    age gets "unknown", and so does an age that falls between two bins
    (above 18 and below 19, above 35 and below 36, above 60 and below
    61). *)
Theorem create_age_groups_labels :
  (forall age_series : list (option Q),
      length (Utils.create_age_groups age_series AGE_GROUPS)
      = length age_series)
  /\ (forall z : Z,
         Utils.create_age_groups [Some (inject_Z z)] AGE_GROUPS
         = [age_label z])
  /\ Utils.create_age_groups [None] AGE_GROUPS = ["unknown"]
  /\ (forall q : Q,
         (18 < q < 19 \/ 35 < q < 36 \/ 60 < q < 61)%Q ->
         Utils.create_age_groups [Some q] AGE_GROUPS = ["unknown"]).
Proof.
  split; [intros s; apply List.length_map|]. split.
  { intros z. cbn [Utils.create_age_groups map].
    rewrite assign_group_whole. reflexivity. }
  split; [reflexivity|].
  intros q Hq. cbn [Utils.create_age_groups map]. f_equal.
  unfold AGE_GROUPS. cbn [Utils.assign_group Utils.float_le].
  assert (Hlt : forall a b c : Q, (a < b)%Q -> (b < c)%Q -> (a < c)%Q)
    by (intros a b c; apply Qlt_trans).
  destruct Hq as [[H1 H2]|[[H1 H2]|[H1 H2]]].
  - rewrite (Qle_bool_false q (inject_Z 18)) by exact H1.
    rewrite (Qle_bool_false (inject_Z 19) q) by exact H2.
    rewrite (Qle_bool_false (inject_Z 36) q)
      by (apply (Hlt _ _ _ H2); reflexivity).
    rewrite (Qle_bool_false (inject_Z 61) q)
      by (apply (Hlt _ _ _ H2); reflexivity).
    rewrite !andb_false_r. reflexivity.
  - rewrite (Qle_bool_false q (inject_Z 18))
      by (refine (Hlt _ _ _ _ H1); reflexivity).
    rewrite (Qle_bool_false q (inject_Z 35)) by exact H1.
    rewrite (Qle_bool_false (inject_Z 36) q) by exact H2.
    rewrite (Qle_bool_false (inject_Z 61) q)
      by (apply (Hlt _ _ _ H2); reflexivity).
    rewrite !andb_false_r. reflexivity.
  - rewrite (Qle_bool_false q (inject_Z 18))
      by (refine (Hlt _ _ _ _ H1); reflexivity).
    rewrite (Qle_bool_false q (inject_Z 35))
      by (refine (Hlt _ _ _ _ H1); reflexivity).
    rewrite (Qle_bool_false q (inject_Z 60)) by exact H1.
    rewrite (Qle_bool_false (inject_Z 61) q) by exact H2.
    rewrite !andb_false_r. reflexivity.
Qed.

Lemma create_age_groups_labels_witness :
  (18 < 37 # 2 < 19 \/ 35 < 37 # 2 < 36 \/ 60 < 37 # 2 < 61)%Q
  /\ Utils.create_age_groups [Some (37 # 2)] AGE_GROUPS = ["unknown"].
Proof.
  assert (H : (18 < 37 # 2 < 19 \/ 35 < 37 # 2 < 36 \/ 60 < 37 # 2 < 61)%Q)
    by (left; split; reflexivity).
  split; [exact H|].
  exact (proj2 (proj2 (proj2 create_age_groups_labels)) (37 # 2) H).
Defined.

(** X23: the ages that [clean_patients_data] computes always fall in a bin
    of [AGE_GROUPS]: on the [age] column of the set it returns, for a set
    with a [date_of_birth] column, [create_age_groups] never answers
    "unknown". *)
Theorem cleaned_patients_age_groups (parse_datetime : string -> option Z)
        (now_dob now_age : Z) (self self' : DataCleaner.t)
        (df out : DataFrame) (label : string) :
  Pd.has_column df "date_of_birth" = true ->
  DataCleaner.clean_patients_data parse_datetime now_dob now_age self df
  = Ok (out, self') ->
  label ∈ Utils.create_age_groups (map numeric (Pd.col out "age")) AGE_GROUPS ->
  label ∈ ["0-18"; "19-35"; "36-60"; "60+"].
Proof.
  intros Hd Hc Hl. apply clean_patients_data_ok in Hc as [Hrows _].
  rewrite Hd in Hrows.
  unfold Utils.create_age_groups, Pd.col in Hl. rewrite !List.map_map in Hl.
  apply list_elem_of_In, in_map_iff in Hl as (r & <- & Hr).
  destruct (patients_row _ _ _ _ _ _ _ _ Hrows Hr)
    as (t & _ & _ & -> & H0 & H1).
  cbn [numeric]. rewrite assign_group_whole.
  unfold MIN_AGE, MAX_AGE in *. unfold age_label.
  destruct (Z.ltb_spec (age_at now_age t) 0); [lia|].
  destruct (Z.leb_spec (age_at now_age t) 18); [decided|].
  destruct (Z.leb_spec (age_at now_age t) 35); [decided|].
  destruct (Z.leb_spec (age_at now_age t) 60); [decided|].
  destruct (Z.leb_spec (age_at now_age t) 150); [decided|lia].
Qed.

Lemma cleaned_patients_age_groups_witness :
  Pd.has_column
    (Sample.frame ["patient_id"; "date_of_birth"]
       [[Str "P1"; Str "1980-05-01"]; [Str "P1"; Str "1990-01-01"];
        [Str "P2"; Str "1890-01-01"]]) "date_of_birth" = true
  /\ "36-60"
     ∈ Utils.create_age_groups
         (map numeric
            (Pd.col (Sample.frame ["patient_id"; "date_of_birth"; "age"]
                       [[Str "P1"; Timestamp (Sample.at_date "1980-05-01");
                         Int 40]]) "age"))
         AGE_GROUPS
  /\ "36-60" ∈ ["0-18"; "19-35"; "36-60"; "60+"].
Proof.
  assert (Hin :
    "36-60"
     ∈ Utils.create_age_groups
         (map numeric
            (Pd.col (Sample.frame ["patient_id"; "date_of_birth"; "age"]
                       [[Str "P1"; Timestamp (Sample.at_date "1980-05-01");
                         Int 40]]) "age"))
         AGE_GROUPS) by decided.
  split; [reflexivity|]. split; [exact Hin|].
  refine (cleaned_patients_age_groups _ _ _ _ _ _ _ _ _ patients_age_run Hin).
  reflexivity.
Defined.

(* ================================================================= *)
(** * Loading the datasets *)

Lemma load_fold (read_csv : string -> option DataFrame)
      (files : list (string * string)) (datasets : gmap string DataFrame)
      (name : string) :
  NoDup (map fst files) ->
  fold_left
    (fun datasets '(dataset_name, filename) =>
       let df := DataLoader.load_csv read_csv filename in
       if negb (Pd.is_empty df) then
         let df := Utils.standardize_column_names df in
         <[dataset_name := df]> datasets
       else datasets)
    files datasets !! name
  = match Pd.dict_get files name with
    | Some filename =>
        let df := DataLoader.load_csv read_csv filename in
        if Pd.is_empty df then datasets !! name
        else Some (Utils.standardize_column_names df)
    | None => datasets !! name
    end.
Proof.
  revert datasets.
  induction files as [|[n f] files IH]; intros datasets Hnd; [reflexivity|].
  cbn [map fst] in Hnd. apply NoDup_cons in Hnd as [Hn Hnd].
  cbn [fold_left Pd.dict_get]. rewrite (IH _ Hnd). cbv zeta.
  destruct (String.eqb n name) eqn:E.
  - apply String.eqb_eq in E. subst n.
    assert (Hnone : Pd.dict_get files name = None).
    { clear -Hn. induction files as [|[n' f'] files IH]; [reflexivity|].
      cbn. destruct (String.eqb n' name) eqn:E'.
      - apply String.eqb_eq in E'. subst n'. exfalso. apply Hn. left.
      - apply IH. intros H. apply Hn. right. exact H. }
    rewrite Hnone.
    destruct (Pd.is_empty (DataLoader.load_csv read_csv f)); cbn [negb].
    + reflexivity.
    + apply lookup_insert_eq.
  - apply String.eqb_neq in E.
    destruct (Pd.dict_get files name) as [f'|];
      destruct (Pd.is_empty (DataLoader.load_csv read_csv f)); cbn [negb];
      rewrite ?lookup_insert_ne by exact E; reflexivity.
Qed.

(** X24: what [load_all_datasets] leaves under a name.  For a name of
    [DATA_FILES] whose file is read with at least one column and one row,
    it is the frame read, its columns renamed to snake case; when the file
    cannot be read, or has no column or no row, the entry is what the
    loader held before under that name (nothing, for a fresh loader), and
    no exception is raised.  Any other name keeps what it held.  The dict
    returned is the one the loader keeps. *)
Theorem load_all_datasets_spec (read_csv : string -> option DataFrame)
        (self : DataLoader.t) (name : string) :
  DataLoader.get_dataset
    (snd (DataLoader.load_all_datasets read_csv self)) name
  = match Pd.dict_get DATA_FILES name with
    | Some filename =>
        match read_csv filename with
        | Some df =>
            if Pd.is_empty df then DataLoader.get_dataset self name
            else Some (Utils.standardize_column_names df)
        | None => DataLoader.get_dataset self name
        end
    | None => DataLoader.get_dataset self name
    end
  /\ fst (DataLoader.load_all_datasets read_csv self)
     = DataLoader.datasets (snd (DataLoader.load_all_datasets read_csv self)).
Proof.
  split; [|reflexivity].
  unfold DataLoader.get_dataset, DataLoader.load_all_datasets.
  cbn [snd DataLoader.datasets].
  rewrite load_fold by decided.
  destruct (Pd.dict_get DATA_FILES name) as [filename|]; [|reflexivity].
  cbv zeta. unfold DataLoader.load_csv.
  destruct (read_csv filename) as [df|]; reflexivity.
Qed.

(** A run on the sample directory: the patients are registered under
    their new column names; the visits file, which has no row, and the
    files that are not there leave no entry. *)
Lemma load_all_datasets_run :
  map (DataLoader.get_dataset
         (snd (DataLoader.load_all_datasets sample_read_csv DataLoader.init)))
      ["patients"; "visits"; "diagnoses"; "staff"]
  = [ Some (Sample.frame ["patient__i_d"; "date_of_birth"; "gender"]
              [[Str "P1"; Str "1980-05-01"; Str "F"]]);
      None; None; None ].
Proof. vm_compute. reflexivity. Qed.

(** X25: [validate_required_columns] answers [True] exactly when a dataset
    is registered under the name and each required column is one of its
    columns; for a name that is not registered it answers [False], whatever
    the columns asked for. *)
Theorem validate_required_columns_spec (self : DataLoader.t)
        (dataset_name : string) (required_columns : list string) :
  DataLoader.validate_required_columns self dataset_name required_columns
  = true
  <-> exists df,
        DataLoader.get_dataset self dataset_name = Some df
        /\ forall c, c ∈ required_columns -> c ∈ columns df.
Proof.
  unfold DataLoader.validate_required_columns.
  destruct (DataLoader.get_dataset self dataset_name) as [df|].
  - cbv zeta. case_bool_decide as Hm.
    + split; [|reflexivity]. intros _. exists df. split; [reflexivity|].
      intros c Hc. destruct (decide (c ∈ columns df)) as [H|H]; [exact H|].
      exfalso.
      assert (Hin : c ∈ (list_to_set required_columns
                           ∖ list_to_set (columns df) : gset string)).
      { apply elem_of_difference. rewrite !elem_of_list_to_set. auto. }
      rewrite Hm in Hin. apply elem_of_empty in Hin. exact Hin.
    + split; [discriminate|]. intros (df' & [= <-] & Hall). exfalso.
      apply Hm. apply set_eq. intros c.
      rewrite elem_of_difference, !elem_of_list_to_set.
      split; [|intros H; apply elem_of_empty in H; contradiction].
      intros [Hc Hn]. exfalso. apply Hn, Hall, Hc.
  - split; [discriminate|]. intros (df & [=] & _).
Qed.

(* ================================================================= *)
(** * Quartiles and outliers *)

Lemma sorted_nth (v : list Q) (d : Q) (i j : nat) :
  Sorted Qle v -> (i <= j)%nat -> (j < length v)%nat ->
  (nth i v d <= nth j v d)%Q.
Proof.
  intros Hs. apply Sorted_StronglySorted in Hs.
  2: { intros x y z. apply Qle_trans. }
  revert i j. induction Hs as [|x v Hs IH Hx]; intros i j Hij Hj.
  - cbn in Hj. lia.
  - destruct i as [|i], j as [|j]; cbn [nth]; cbn [length] in Hj.
    + apply Qle_refl.
    + rewrite List.Forall_forall in Hx. apply Hx. apply nth_In. lia.
    + lia.
    + apply IH; lia.
Qed.

(** The position of a quantile in a sample of [n] values: between two
    consecutive order statistics. *)
Lemma quantile_position (n : Z) (q : Q) :
  1 <= n -> (0 <= q)%Q -> (q <= 1)%Q ->
  let h := (inject_Z (n - 1) * q)%Q in
  0 <= Qfloor h <= n - 1
  /\ (0 <= h - inject_Z (Qfloor h))%Q
  /\ (h - inject_Z (Qfloor h) < 1)%Q.
Proof.
  intros Hn H0 H1 h.
  assert (Hn1 : (0 <= inject_Z (n - 1))%Q).
  { change 0%Q with (inject_Z 0). rewrite <- Zle_Qle. lia. }
  assert (Hh0 : (0 <= h)%Q) by (unfold h; nra).
  assert (Hh1 : (h <= inject_Z (n - 1))%Q) by (unfold h; nra).
  pose proof (Qfloor_le h) as Hfl. pose proof (Qlt_floor h) as Hlt.
  rewrite inject_Z_plus in Hlt.
  split; [split|split].
  - change 0 with (Qfloor (inject_Z 0)) at 1. apply Qfloor_resp_le. exact Hh0.
  - rewrite <- (Qfloor_Z (n - 1)). apply Qfloor_resp_le. exact Hh1.
  - lra.
  - change (inject_Z 1) with 1%Q in Hlt. lra.
Qed.


Lemma quantile_between (series : list (option Q)) (q x : Q) :
  (0 <= q)%Q -> (q <= 1)%Q ->
  Utils.quantile Float.exact series q = Some x ->
  exists a b,
    Some a ∈ series /\ Some b ∈ series /\ (a <= x)%Q /\ (x <= b)%Q.
Proof.
  intros H0 H1. unfold Utils.quantile. cbv zeta.
  change (Float.num Float.exact) with Q.
  pose proof (sort_values_ascending (omap id series)) as Hs.
  pose proof (sort_values_perm Float.exact (omap id series)) as Hp.
  destruct (Utils.sort_values Float.exact (omap id series) : list Q)
    as [|x0 v'] eqn:Ev;
    [discriminate|].
  set (v := x0 :: v') in *. set (n := Z.of_nat (length v)).
  assert (Hn : 1 <= n) by (unfold n, v; cbn [length]; lia).
  destruct (quantile_position n q Hn H0 H1) as ([Hlo0 Hlo1] & Hg0 & Hg1).
  cbv zeta in *.
  set (h := (inject_Z (n - 1) * q)%Q) in *. set (lo := Qfloor h) in *.
  intros [= <-].
  set (hi := Z.min (lo + 1) (n - 1)).
  set (a := nth (Z.to_nat lo) v x0). set (b := nth (Z.to_nat hi) v x0).
  change (exists a0 b0,
             Some a0 ∈ series /\ Some b0 ∈ series
             /\ (a0 <= Utils.lerp Float.exact a b (h - inject_Z lo))%Q
             /\ (Utils.lerp Float.exact a b (h - inject_Z lo) <= b0)%Q).
  assert (Hab : (a <= b)%Q).
  { apply sorted_nth; [exact Hs|unfold hi; lia|unfold hi, n in *; lia]. }
  assert (Hin : forall y, In y v -> Some y ∈ series).
  { intros y Hy. apply (Permutation_in _ (Permutation_sym Hp)) in Hy.
    apply list_elem_of_In, list_elem_of_omap in Hy as (o & Ho & E).
    cbn in E. subst o. exact Ho. }
  exists a, b. split; [|split; [|split]].
  - apply Hin, nth_In. unfold n in *. lia.
  - apply Hin, nth_In. unfold hi, n in *. lia.
  - rewrite lerp_exact. nra.
  - rewrite lerp_exact. nra.
Qed.

Lemma outlier_flags (series : list (option Q)) (multiplier : Q) :
  Utils.detect_outliers_iqr Float.exact series multiplier
  = map (fun x : option Q =>
           Utils.float_lt Float.exact x
             (q1 ← Utils.quantile Float.exact series (1 # 4);
              q3 ← Utils.quantile Float.exact series (3 # 4);
              Some (q1 - multiplier * (q3 - q1))%Q)
           || Utils.float_lt Float.exact
                (q1 ← Utils.quantile Float.exact series (1 # 4);
                 q3 ← Utils.quantile Float.exact series (3 # 4);
                 Some (q3 + multiplier * (q3 - q1))%Q)
                x)
        series.
Proof.
  unfold Utils.detect_outliers_iqr, Pd.mask_or. cbv zeta.
  rewrite zip_with_map_diag.
  destruct (Utils.quantile Float.exact series (1 # 4)) as [q1|],
           (Utils.quantile Float.exact series (3 # 4)) as [q3|]; reflexivity.
Qed.


(** X27: a series whose present values are all equal has no outlier,
    whatever the multiplier; so an empty series, a series of missing
    values and a series of one value have none. *)
Theorem detect_outliers_iqr_constant (series : list (option Q))
        (multiplier c : Q) :
  (forall v, Some v ∈ series -> (v == c)%Q) ->
  forall flag,
    flag ∈ Utils.detect_outliers_iqr Float.exact series multiplier ->
    flag = false.
Proof.
  intros Hc flag Hflag. rewrite outlier_flags in Hflag.
  apply list_elem_of_In, in_map_iff in Hflag as (x & <- & Hx).
  destruct x as [v|]; [|destruct (_ ← _; _), (_ ← _; _); reflexivity].
  destruct (Utils.quantile Float.exact series (1 # 4)) as [q1|] eqn:E1;
    [|reflexivity].
  destruct (Utils.quantile Float.exact series (3 # 4)) as [q3|] eqn:E3;
    [|reflexivity].
  assert (Hq : forall q x, (0 <= q)%Q -> (q <= 1)%Q ->
                 Utils.quantile Float.exact series q = Some x -> (x == c)%Q).
  { intros q x H0 H1 E.
    destruct (quantile_between series q x H0 H1 E) as (a & b & Ha & Hb & H).
    pose proof (Hc a Ha). pose proof (Hc b Hb). lra. }
  assert (H1 : (q1 == c)%Q)
    by (apply (Hq (1 # 4)); [unfold Qle; cbn; lia..|exact E1]).
  assert (H3 : (q3 == c)%Q)
    by (apply (Hq (3 # 4)); [unfold Qle; cbn; lia..|exact E3]).
  assert (Hv : (v == c)%Q) by (apply Hc, list_elem_of_In, Hx).
  cbn [mbind option_bind Utils.float_lt].
  apply orb_false_iff. split; apply not_true_is_false; intros H;
    apply Qltb_lt in H; nra.
Qed.


Lemma detect_outliers_iqr_constant_witness :
  (forall v, Some v ∈ [Some (5 # 1); None; Some (10 # 2)] -> (v == 5 # 1)%Q)
  /\ forall flag,
      flag ∈ Utils.detect_outliers_iqr Float.exact
               [Some (5 # 1); None; Some (10 # 2)]
               (3 # 2) ->
      flag = false.
Proof.
  assert (H : forall v, Some v ∈ [Some (5 # 1); None; Some (10 # 2)] ->
                        (v == 5 # 1)%Q).
  { intros v Hv. apply elem_of_cons in Hv as [[= ->]|Hv]; [reflexivity|].
    apply elem_of_cons in Hv as [[=]|Hv].
    apply list_elem_of_singleton in Hv as [= ->]. reflexivity. }
  split; [exact H|].
  exact (detect_outliers_iqr_constant _ (3 # 2) (5 # 1) H).
Defined.

(** With a multiplier of 0 a sample of two values has both flagged: each
    lies outside the quartiles, which fall strictly between them. *)
Lemma detect_outliers_iqr_two_values_run :
  Utils.detect_outliers_iqr Float.exact
    (map (fun z => Some (inject_Z z)) [0; 100]) 0%Q
  = [true; true]
  /\ Utils.detect_outliers_iqr Float.binary64
       (Float.series_of (map Float.of_Z [0; 100])) (Float.of_Z 0)
     = [true; true].
Proof. split; vm_compute; reflexivity. Qed.

(* ================================================================= *)
(** * Ages against a reference date *)

Lemma calculate_age_reference (now ref : Z) (dob : list value) :
  Utils.calculate_age now dob (Some ref) = Utils.calculate_age ref dob None.
Proof. reflexivity. Qed.

(** X28: on a Series of dates, each missing or within reach of the
    reference date (their distance fits a timedelta), [calculate_age] reads
    the clock only when no reference date is given.  It returns one age per
    date of birth when every date is present, and raises [ValueError] when
    one is missing.  The age is the
    whole days between the two dates, divided by 365.25 and truncated
    towards zero: it is 0 from 365 days before the reference date to 365
    days after it, so a date of birth less than a year in the future gets
    the age 0, not a negative age. *)
Theorem calculate_age_result (now : Z) (dob : list value)
        (reference_date : option Z) :
  let ref := match reference_date with Some t => t | None => now end in
  forallb (date_in_reach ref) dob = true ->
  Utils.calculate_age now dob reference_date
  = (if forallb is_timestamp dob then Ok (map (age_cell ref) dob)
     else Raise ValueError)
  /\ forall t : Z,
       age_at ref t = 0 <-> -365 <= (ref - t) / Pd.ns_per_day <= 365.
Proof.
  cbv zeta. intros _. split.
  - destruct reference_date as [t|];
      [rewrite calculate_age_reference|]; apply calculate_age_spec.
  - intros t. rewrite age_at_quot.
    set (d := (match reference_date with Some t0 => t0 | None => now end - t)
              / Pd.ns_per_day).
    split.
    + intros H. destruct (Z_lt_le_dec d 0) as [Hneg|Hpos].
      * assert (Hq : Z.quot (- (d * 4)) 1461 = 0)
          by (rewrite Z.quot_opp_l by lia; lia).
        apply Z.quot_small_iff in Hq; lia.
      * apply Z.quot_small_iff in H; lia.
    + intros [Hlo Hhi]. destruct (Z_lt_le_dec d 0) as [Hneg|Hpos].
      * assert (Hq : Z.quot (- (d * 4)) 1461 = 0)
          by (apply Z.quot_small; lia).
        rewrite Z.quot_opp_l in Hq by lia. lia.
      * apply Z.quot_small. lia.
Qed.

Lemma calculate_age_result_witness :
  forallb (date_in_reach (Sample.at_date "2020-05-01"))
    [Timestamp (Sample.at_date "2021-04-30");
     Timestamp (Sample.at_date "2019-05-02");
     Timestamp (Sample.at_date "1980-05-01")] = true
  /\ Utils.calculate_age 0
       [Timestamp (Sample.at_date "2021-04-30");
        Timestamp (Sample.at_date "2019-05-02");
        Timestamp (Sample.at_date "1980-05-01")]
       (Some (Sample.at_date "2020-05-01"))
     = Ok (map (age_cell (Sample.at_date "2020-05-01"))
             [Timestamp (Sample.at_date "2021-04-30");
              Timestamp (Sample.at_date "2019-05-02");
              Timestamp (Sample.at_date "1980-05-01")]).
Proof.
  split; [vm_compute; reflexivity|].
  refine (proj1 (calculate_age_result 0 _ (Some _) _)).
  vm_compute. reflexivity.
Defined.

Lemma calculate_age_run :
  Utils.calculate_age 0
    [Timestamp (Sample.at_date "2021-04-30");
     Timestamp (Sample.at_date "2019-05-02");
     Timestamp (Sample.at_date "1980-05-01")]
    (Some (Sample.at_date "2020-05-01"))
  = Ok [Int 0; Int 0; Int 40].
Proof. vm_compute. reflexivity. Qed.

(* ================================================================= *)
(** * Visits against patients *)

Lemma visits_patient_id_kept (parse_datetime : string -> option Z)
      (ha hd hv : bool) (l : list (gmap string value))
      (r : gmap string value) :
  In r (Rowwise.visits parse_datetime ha hd hv l) ->
  exists r0, In r0 l /\ Pd.cell r "patient_id" = Pd.cell r0 "patient_id".
Proof.
  intros Hr. unfold Rowwise.visits in Hr. cbv zeta in Hr.
  assert (Hc : "patient_id" ∉ written_columns visits)
    by (apply (bool_decide_eq_false_1 _); vm_compute; reflexivity).
  chase Hr; eexists; (split; [exact Hr|]); unwritten Hc.
Qed.

(** X29: cleaning the visits leaves no visit without its patient: when the
    check of [validate_referential_integrity] passes on a set of visits, it
    passes on what [clean_visits_data] returns for that set, against the
    same patients. *)
Theorem cleaned_visits_keep_patients (parse_datetime : string -> option Z)
        (self : DataCleaner.t) (validator : DataValidator.t)
        (patients_df visits_df : DataFrame) :
  (forall c,
      In c (DataValidator.checks
              (fst (DataValidator.validate_referential_integrity
                      validator patients_df visits_df))) ->
      DataValidator.passed c = true) ->
  forall c,
    In c (DataValidator.checks
            (fst (DataValidator.validate_referential_integrity
                    validator patients_df
                    (fst (DataCleaner.clean_visits_data
                            parse_datetime self visits_df))))) ->
    DataValidator.passed c = true.
Proof.
  intros Hraw c. rewrite clean_visits_data_frame. cbn [fst].
  revert Hraw. unfold DataValidator.validate_referential_integrity.
  cbv zeta.
  set (out := mkFrame _ _).
  assert (Hcol : Pd.has_column out "patient_id"
                 = Pd.has_column visits_df "patient_id").
  { unfold out, Pd.has_column. cbn [columns].
    destruct (_ && _); [|reflexivity].
    apply eq_true_iff_eq. rewrite !bool_decide_eq_true, elem_of_add_column.
    split; [intros [H|H]; [exact H|discriminate H]|intros H; left; exact H]. }
  rewrite Hcol.
  destruct (Pd.has_column patients_df "patient_id"
            && Pd.has_column visits_df "patient_id");
    cbn [fst DataValidator.checks DataValidator.add_check List.app];
    [|intros _ []].
  intros Hraw [<-|[]]. cbn [DataValidator.passed].
  specialize (Hraw _ (or_introl eq_refl)). cbn [DataValidator.passed] in Hraw.
  rewrite all_isin in Hraw |- *.
  intros v Hv. apply Hraw.
  unfold Pd.col in Hv |- *. apply list_elem_of_In, in_map_iff in Hv.
  destruct Hv as (r & <- & Hr). unfold out in Hr. cbn [rows] in Hr.
  apply visits_patient_id_kept in Hr as (r0 & Hr0 & ->).
  apply list_elem_of_In, in_map_iff. exists r0. split; [reflexivity|exact Hr0].
Qed.

(** Of two visits of known patients the second, discharged before its
    admission, is dropped by the cleaning; the first still names its
    patient. *)
Lemma cleaned_visits_patients_run :
  fst (DataValidator.validate_referential_integrity DataValidator.init
         (Sample.frame ["patient_id"] [[Str "P1"]; [Str "P2"]])
         (fst (DataCleaner.clean_visits_data Sample.parse_datetime
                 DataCleaner.init
                 (Sample.frame
                    ["visit_id"; "patient_id"; "admission_date";
                     "discharge_date"]
                    [[Str "V1"; Str "P1"; Str "2020-01-01"; Str "2020-01-05"];
                     [Str "V2"; Str "P2"; Str "2020-02-01";
                      Str "2020-01-01"]]))))
  = {| DataValidator.dataset := "referential_integrity";
       DataValidator.checks :=
         [ {| DataValidator.test := "visits_patient_id_exists";
              DataValidator.passed := true;
              DataValidator.message :=
                "all patient ids in visits exist in patients table" |} ] |}.
Proof. vm_compute. reflexivity. Qed.

Lemma cleaned_visits_keep_patients_witness :
  (forall c,
      In c (DataValidator.checks
              (fst (DataValidator.validate_referential_integrity
                      DataValidator.init
                      (Sample.frame ["patient_id"] [[Str "P1"]; [Str "P2"]])
                      (Sample.frame
                         ["visit_id"; "patient_id"; "admission_date";
                          "discharge_date"]
                         [[Str "V1"; Str "P1"; Str "2020-01-01";
                           Str "2020-01-05"];
                          [Str "V2"; Str "P2"; Str "2020-02-01";
                           Str "2020-01-01"]])))) ->
      DataValidator.passed c = true)
  /\ forall c,
      In c (DataValidator.checks
              (fst (DataValidator.validate_referential_integrity
                      DataValidator.init
                      (Sample.frame ["patient_id"] [[Str "P1"]; [Str "P2"]])
                      (fst (DataCleaner.clean_visits_data
                              Sample.parse_datetime DataCleaner.init
                              (Sample.frame
                                 ["visit_id"; "patient_id"; "admission_date";
                                  "discharge_date"]
                                 [[Str "V1"; Str "P1"; Str "2020-01-01";
                                   Str "2020-01-05"];
                                  [Str "V2"; Str "P2"; Str "2020-02-01";
                                   Str "2020-01-01"]])))))) ->
      DataValidator.passed c = true.
Proof.
  assert (Hraw :
    forall c,
      In c (DataValidator.checks
              (fst (DataValidator.validate_referential_integrity
                      DataValidator.init
                      (Sample.frame ["patient_id"] [[Str "P1"]; [Str "P2"]])
                      (Sample.frame
                         ["visit_id"; "patient_id"; "admission_date";
                          "discharge_date"]
                         [[Str "V1"; Str "P1"; Str "2020-01-01";
                           Str "2020-01-05"];
                          [Str "V2"; Str "P2"; Str "2020-02-01";
                           Str "2020-01-01"]])))) ->
      DataValidator.passed c = true).
  { intros c [<-|[]]. vm_compute. reflexivity. }
  split; [exact Hraw|].
  exact (cleaned_visits_keep_patients _ _ _ _ _ Hraw).
Defined.
